(** * qudi data storage utilities: a shallow embedding of
      [qudi/util/datastorage.py]

    The development follows the Python module top to bottom:

    - [Py]: the fragment of the Python runtime the module relies on
      (call results, strings, decimal and [%e] number formatting,
      insertion-ordered dictionaries, [datetime.strftime]);
    - [Filename]: [get_timestamp_filename];
    - [Registry]: the class-level global metadata dictionary of
      [DataStorageBase] with [get_global_metadata],
      [add_global_metadata] and [remove_global_metadata], over an object
      store so that aliasing of mutable values is visible;
    - [Header]: [create_header] of [TextDataStorage], [CsvDataStorage] and
      [NpyDataStorage];
    - [Storage]: [new_data_file], [append_data_file] and [save_data] over a
      file store.

    Python strings are modelled by [string]; a character is a code point
    below 256. *)

From Stdlib Require Import ZArith Lia List Ascii String Bool.
From Stdlib Require Import Floats.SpecFloat.
From stdpp Require Import gmap strings.

Import ListNotations.
Local Open Scope string_scope.
Local Open Scope Z_scope.

(** [simpl] unfolds string concatenation on a constructor, as it does for
    lists. *)
#[local] Arguments String.append !s1 s2 : simpl nomatch.

(** ** The Python fragment *)

Module Py.

(** Exceptions raised by the module or by the library calls it makes. *)
Inductive exn : Type :=
| TypeError (msg : string)
| KeyError (msg : string)
| ValueError (msg : string)
| FileNotFoundError (msg : string)
| NotImplementedError
| OSError (path : string)
| AttributeError (name : string).

(** The outcome of a call: a returned value or a raised exception. *)
Inductive result (A : Type) : Type :=
| Return (a : A)
| Raise (e : exn).
Arguments Return {A} a.
Arguments Raise {A} e.

(** [result] is a monad; the notation [x ← r; k] is stdpp's. *)
#[global] Instance result_ret : MRet result := fun A a => Return a.
#[global] Instance result_bind : MBind result := fun A B k r =>
  match r with
  | Return a => k a
  | Raise e => Raise e
  end.

(** *** Characters and strings *)

(** [str.isspace] on one character; the same predicate decides what
    [str.strip] removes and what the pattern [\s] matches on [str]:
    TAB, LF, VT, FF, CR, the separators FS, GS, RS, US, the space, NEL and
    the no-break space. *)
Definition isspace (c : ascii) : bool :=
  let n := Z.of_nat (nat_of_ascii c) in
  ((9 <=? n) && (n <=? 13)) || ((28 <=? n) && (n <=? 32))
  || (n =? 133) || (n =? 160).

(** A string of whitespace only. *)
Fixpoint all_space (s : string) : bool :=
  match s with
  | EmptyString => true
  | String c r => isspace c && all_space r
  end.

(** [s.lstrip()] *)
Fixpoint lstrip (s : string) : string :=
  match s with
  | String c r => if isspace c then lstrip r else s
  | EmptyString => EmptyString
  end.

(** [s.rstrip()]: a suffix made of whitespace only is dropped. *)
Fixpoint rstrip (s : string) : string :=
  match s with
  | String c r =>
      match rstrip r with
      | EmptyString => if isspace c then EmptyString else String c EmptyString
      | r' => String c r'
      end
  | EmptyString => EmptyString
  end.

(** [s.strip()] *)
Definition strip (s : string) : string := rstrip (lstrip s).

(** [re.sub(r'[\s]+', repl, s)]: scanning from the left, every maximal run
    of whitespace is replaced by one copy of [repl].  [in_run] tells that the
    previous character belonged to a run that was already replaced. *)
Fixpoint re_sub_ws_from (in_run : bool) (repl : string) (s : string) : string :=
  match s with
  | EmptyString => EmptyString
  | String c r =>
      if isspace c then
        if in_run then re_sub_ws_from true repl r
        else repl ++ re_sub_ws_from true repl r
      else String c (re_sub_ws_from false repl r)
  end.

Definition re_sub_ws (repl s : string) : string := re_sub_ws_from false repl s.

(** [sep.join(parts)] *)
Fixpoint join (sep : string) (parts : list string) : string :=
  match parts with
  | [] => ""
  | [p] => p
  | p :: rest => p ++ sep ++ join sep rest
  end.

(** Truth value of an optional string ([None] and [''] are false). *)
Definition truthy (s : option string) : bool :=
  match s with
  | Some (String _ _) => true
  | _ => false
  end.

(** *** Decimal rendering of integers *)

Definition digit_char (d : Z) : ascii :=
  ascii_of_nat (48 + Z.to_nat (d mod 10)).

(** The characters [0] to [9]. *)
Definition is_digit (c : ascii) : bool :=
  ((48 <=? nat_of_ascii c)%nat && (nat_of_ascii c <=? 57)%nat)%bool.

Fixpoint all_chars (p : ascii -> bool) (s : string) : bool :=
  match s with
  | EmptyString => true
  | String c r => p c && all_chars p r
  end.

(** The last [w] decimal digits of [n], most significant first. *)
Fixpoint fixed_digits (w : nat) (n : Z) : string :=
  match w with
  | O => ""
  | S w' => fixed_digits w' (n / 10) ++ String (digit_char n) ""
  end.

(** The number of decimal digits of [n] (1 for [n <= 9]). *)
Fixpoint ndigits_fuel (fuel : nat) (n : Z) : nat :=
  match fuel with
  | O => 1%nat
  | S k => if n <? 10 then 1%nat else S (ndigits_fuel k (n / 10))
  end.

Definition ndigits (n : Z) : nat := ndigits_fuel (Z.to_nat (Z.log2 n)) n.

(** [str(n)] for a natural number [n]. *)
Definition str_nat (n : Z) : string := fixed_digits (ndigits n) n.

(** [str(z)], which is also [format(z, 'd')]. *)
Definition str_int (z : Z) : string :=
  if z <? 0 then "-" ++ str_nat (- z) else str_nat z.

(** [str(n).zfill(w)] for a natural number: at least [w] digits. *)
Definition zfill (w : nat) (n : Z) : string :=
  fixed_digits (Nat.max w (ndigits n)) n.

(** *** [format(x, '.<p>e')] on floats

    A float is a [spec_float]: a signed zero, an infinity, a NaN or
    [(-1)^s * m * 2^e].  Python renders the exact binary value, correctly
    rounded (ties to even) to [p + 1] significant decimal digits. *)

(** The exact value [m * 2^e] as a fraction. *)
Definition float_ratio (m : positive) (e : Z) : Z * Z :=
  if 0 <=? e then (Z.pos m * 2 ^ e, 1) else (Z.pos m, 2 ^ (- e)).

(** [10^k <= num / den], for any sign of [k]. *)
Definition ge_pow10 (num den k : Z) : bool :=
  if 0 <=? k then den * 10 ^ k <=? num else den <=? num * 10 ^ (- k).

(** The same comparison as a proposition. *)
Definition ratio_ge_pow10 (num den j : Z) : Prop :=
  den * 10 ^ Z.max 0 j <= num * 10 ^ Z.max 0 (- j).

(** [floor (log10 (num / den))] for positive [num] and [den]: the digit
    counts bracket it within one unit. *)
Definition floor_log10 (num den : Z) : Z :=
  let k := Z.of_nat (ndigits num) - Z.of_nat (ndigits den) in
  if ge_pow10 num den k then k else k - 1.

(** [num / den] rounded to the nearest integer, ties to even. *)
Definition round_half_even (num den : Z) : Z :=
  let q := num / den in
  let r := num mod den in
  if 2 * r <? den then q
  else if den <? 2 * r then q + 1
  else if Z.even q then q else q + 1.

(** The [p + 1] significant digits (as one integer) and the decimal
    exponent of [num / den]. *)
Definition sci_digits (p : nat) (num den : Z) : Z * Z :=
  let x := floor_log10 num den in
  let s := Z.of_nat p - x in
  let n := if 0 <=? s then round_half_even (num * 10 ^ s) den
           else round_half_even num (den * 10 ^ (- s)) in
  if n =? 10 ^ Z.of_nat (S p) then (10 ^ Z.of_nat p, x + 1) else (n, x).

(** [d.ddd] from the digits; no point when [p = 0]. *)
Definition mantissa (p : nat) (n : Z) : string :=
  match fixed_digits (S p) n with
  | String d rest => String d (match p with O => "" | _ => "." ++ rest end)
  | EmptyString => ""
  end.

(** [e+XX]: a sign and at least two digits. *)
Definition exponent (x : Z) : string :=
  "e" ++ (if x <? 0 then "-" else "+") ++ zfill 2 (Z.abs x).

Definition format_e (p : nat) (f : spec_float) : string :=
  match f with
  | S754_nan => "nan"
  | S754_infinity s => if s then "-inf" else "inf"
  | S754_zero s => (if s then "-" else "") ++ mantissa p 0 ++ exponent 0
  | S754_finite s m e =>
      let '(num, den) := float_ratio m e in
      let '(n, x) := sci_digits p num den in
      (if s then "-" else "") ++ mantissa p n ++ exponent x
  end.

(** [float(x)] for a float [x] of any width ([np.longdouble] is wider
    than a Python [float]): the nearest binary64 value, ties to even; a
    binary64 value is left as it is. *)
Definition to_double (f : spec_float) : spec_float :=
  match f with
  | S754_finite s m e => binary_round 53 1024 s m e
  | _ => f
  end.

(** *** Lines *)

(** The characters at which [str.splitlines] ends a line: LF, VT, FF, CR,
    FS, GS, RS and NEL. *)
Definition is_linebreak (c : ascii) : bool :=
  let n := Z.of_nat (nat_of_ascii c) in
  ((10 <=? n) && (n <=? 13)) || ((28 <=? n) && (n <=? 30)) || (n =? 133).

(** [splitlines_from skip_lf cur s]: [cur] is the line read so far;
    [skip_lf] tells that the previous character was a CR, so that a LF
    that follows belongs to the same line end.  A final line end opens no
    empty line. *)
Fixpoint splitlines_from (skip_lf : bool) (cur : string) (s : string)
  : list string :=
  match s with
  | EmptyString =>
      match cur with
      | EmptyString => []
      | _ => [cur]
      end
  | String c r =>
      if (skip_lf && (nat_of_ascii c =? 10)%nat)%bool then
        splitlines_from false cur r
      else if is_linebreak c then
        cur :: splitlines_from (nat_of_ascii c =? 13)%nat "" r
      else splitlines_from false (cur ++ String c "") r
  end.

Definition splitlines (s : string) : list string := splitlines_from false "" s.

(** [template.format(arg)] for templates whose only replacement field is
    [{0}]. *)
Fixpoint format0 (template arg : string) : string :=
  match template with
  | String a (String b (String c rest) as r1) =>
      if (Ascii.eqb a "{" && Ascii.eqb b "0" && Ascii.eqb c "}")%bool
      then arg ++ format0 rest arg
      else String a (format0 r1 arg)
  | String a r => String a (format0 r arg)
  | EmptyString => ""
  end.

(** [s.rsplit('.', 1)[0]]: what stands before the last dot, the whole
    string when it has none. *)
Fixpoint before_last_dot (s : string) : option string :=
  match s with
  | EmptyString => None
  | String c r =>
      match before_last_dot r with
      | Some h => Some (String c h)
      | None => if Ascii.eqb c "." then Some "" else None
      end
  end.

Definition rsplit_dot_head (s : string) : string :=
  match before_last_dot s with
  | Some h => h
  | None => s
  end.

(** The line feed. *)
Definition LF : string := String (ascii_of_nat 10) "".

(** *** Dictionaries

    A [dict] keeps its items in insertion order; assigning to a key that is
    present replaces the value in place, a new key goes to the end. *)
Section Dict.
Context {K V : Type} `{EqDecision K}.

Definition dict_keys (d : list (K * V)) : list K := map fst d.

(** [d.get(k)] *)
Fixpoint dict_get (k : K) (d : list (K * V)) : option V :=
  match d with
  | [] => None
  | (k', v) :: rest => if decide (k = k') then Some v else dict_get k rest
  end.

(** [d[k] = v] *)
Fixpoint dict_set (k : K) (v : V) (d : list (K * V)) : list (K * V) :=
  match d with
  | [] => [(k, v)]
  | (k', v') :: rest =>
      if decide (k = k') then (k, v) :: rest else (k', v') :: dict_set k v rest
  end.

(** [d.update(other)] *)
Definition dict_update (d other : list (K * V)) : list (K * V) :=
  fold_left (fun acc kv => dict_set kv.1 kv.2 acc) other d.

(** [d.pop(k, None)] *)
Fixpoint dict_pop (k : K) (d : list (K * V)) : list (K * V) :=
  match d with
  | [] => []
  | (k', v') :: rest =>
      if decide (k = k') then rest else (k', v') :: dict_pop k rest
  end.

(** [set(d).intersection(other)], in the order of [d]. *)
Definition key_intersection (d other : list (K * V)) : list K :=
  filter (fun k => k ∈ dict_keys other) (dict_keys d).

End Dict.

(** *** [datetime] *)

Record datetime : Type := mk_datetime {
  year : Z; month : Z; day : Z;
  hour : Z; minute : Z; second : Z
}.

(** The fields of a [datetime] object are within these bounds. *)
Definition valid_datetime (t : datetime) : Prop :=
  1 <= year t <= 9999 /\ 1 <= month t <= 12 /\ 1 <= day t <= 31 /\
  0 <= hour t <= 23 /\ 0 <= minute t <= 59 /\ 0 <= second t <= 59.

(** One directive of [strftime]: the fields of two digits are padded with
    zeros; the year is written by the C library as a plain decimal number,
    without leading zeros, so that the year 999 takes three digits. *)
Definition directive (c : ascii) (t : datetime) : option string :=
  if Ascii.eqb c "Y" then Some (str_nat (year t))
  else if Ascii.eqb c "m" then Some (zfill 2 (month t))
  else if Ascii.eqb c "d" then Some (zfill 2 (day t))
  else if Ascii.eqb c "H" then Some (zfill 2 (hour t))
  else if Ascii.eqb c "M" then Some (zfill 2 (minute t))
  else if Ascii.eqb c "S" then Some (zfill 2 (second t))
  else None.

(** [t.strftime(fmt)] for the directives above; other text is copied. *)
Fixpoint strftime (fmt : string) (t : datetime) : string :=
  match fmt with
  | EmptyString => ""
  | String c rest =>
      if Ascii.eqb c "%" then
        match rest with
        | String c' rest' =>
            match directive c' t with
            | Some field => field ++ strftime rest' t
            | None => String c (String c' (strftime rest' t))
            end
        | EmptyString => String c ""
        end
      else String c (strftime rest t)
  end.

End Py.

(** ** File names: [get_timestamp_filename] *)

Module Filename.
Import Py.

(** [get_timestamp_filename(timestamp, nametag=None)].  The function has no
    [raise]; its result is wrapped in [Return] so that statements about
    failure can be written against it. *)
Definition get_timestamp_filename (timestamp : datetime)
    (nametag : option string) : result string :=
  let datetime_str := strftime "%Y%m%d-%H%M-%S" timestamp in
  let nametag :=
    if truthy nametag
    then option_map (fun t => re_sub_ws "_" (strip t)) nametag
    else nametag in
  match nametag with
  | Some (String c r) => Return (datetime_str ++ "_" ++ String c r)
  | _ => Return datetime_str
  end.

(** The wording of the specification, for comparison with the code: the
    tag is cut into its maximal whitespace-free words, which are joined by
    single underscores. *)
Fixpoint words_from (cur : string) (s : string) : list string :=
  match s with
  | EmptyString =>
      match cur with
      | EmptyString => []
      | _ => [cur]
      end
  | String c r =>
      if isspace c then
        match cur with
        | EmptyString => words_from "" r
        | _ => cur :: words_from "" r
        end
      else words_from (cur ++ String c "") r
  end.

Definition spec_normalize_tag (tag : string) : string :=
  join "_" (words_from "" tag).

(** The wording of the specification for the time stamp:
    [YYYYMMDD-HHMM-SS], every field of its fixed width. *)
Definition spec_stamp (t : datetime) : string :=
  fixed_digits 4 (year t) ++ fixed_digits 2 (month t)
  ++ fixed_digits 2 (day t) ++ "-"
  ++ fixed_digits 2 (hour t) ++ fixed_digits 2 (minute t) ++ "-"
  ++ fixed_digits 2 (second t).

End Filename.

(** ** The global metadata registry of [DataStorageBase] *)

Module Registry.
Import Py.

(** Object identities. *)
Abbreviation loc := positive (only parsing).

(** Dictionary keys: strings, and integers as the representative of the
    other hashable keys. *)
Inductive key : Type :=
| KStr (s : string)
| KInt (z : Z).

#[global] Instance key_eq_dec : EqDecision key.
Proof. solve_decision. Defined.

Definition is_str_key (k : key) : bool :=
  match k with
  | KStr _ => true
  | KInt _ => false
  end.

(** Metadata values: the immutable scalars, and a reference to a mutable
    list object as the representative of mutable values. *)
Inductive value : Type :=
| VNone
| VInt (z : Z)
| VFloat (f : spec_float)
| VStr (s : string)
| VList (l : loc).

(** Objects of the store: lists of integers and dictionaries. *)
Inductive obj : Type :=
| OList (items : list Z)
| ODict (items : list (key * value)).

(** The object store.  [DataStorageBase._global_metadata] is bound once, in
    the class body, to a dictionary object; [global_metadata] is its
    identity. *)
Abbreviation state := (gmap positive obj) (only parsing).

Definition global_metadata : loc := 1%positive.

Definition initial_state : state := {[ global_metadata := ODict [] ]}.

(** The items of the dictionary object at [l]. *)
Definition dict_items (l : loc) (σ : state) : list (key * value) :=
  match σ !! l with
  | Some (ODict d) => d
  | _ => []
  end.

(** The items of [cls._global_metadata]. *)
Definition registry (σ : state) : list (key * value) :=
  dict_items global_metadata σ.

(** References held by the items of a dictionary lead to list objects of
    the store (Python has no dangling reference). *)
Definition closed_value (σ : state) (v : value) : bool :=
  match v with
  | VList l =>
      match σ !! l with
      | Some (OList _) => true
      | _ => false
      end
  | _ => true
  end.

Definition closed_items (σ : state) (d : list (key * value)) : bool :=
  forallb (fun kv => closed_value σ kv.2) d.

(** A store in which [cls._global_metadata] is a dictionary whose
    references are live. *)
Definition wf (σ : state) : bool :=
  match σ !! global_metadata with
  | Some (ODict d) => closed_items σ d
  | _ => false
  end.

(** A new object. *)
Definition alloc (o : obj) (σ : state) : loc * state :=
  let l := fresh (dom σ) in (l, <[l := o]> σ).

(** [copy.deepcopy] on a value: scalars are returned as they are, a list
    is copied to a new object; [memo] maps the lists already copied to
    their copies, so that sharing is preserved. *)
Definition deepcopy_value (memo : list (loc * loc)) (v : value) (σ : state)
  : value * list (loc * loc) * state :=
  match v with
  | VList l =>
      match dict_get l memo with
      | Some l' => (VList l', memo, σ)
      | None =>
          match σ !! l with
          | Some (OList xs) =>
              let '(l', σ') := alloc (OList xs) σ in
              (VList l', (l, l') :: memo, σ')
          | _ => (v, memo, σ)
          end
      end
  | _ => (v, memo, σ)
  end.

(** The lists already copied and their copies hold the same items. *)
Definition memo_ok (memo : list (loc * loc)) (σ : state) : Prop :=
  forall l l', dict_get l memo = Some l' ->
    exists xs, σ !! l = Some (OList xs) /\ σ !! l' = Some (OList xs).

(** [copy.deepcopy] on the items of a dictionary (keys are immutable). *)
Fixpoint deepcopy_items (memo : list (loc * loc)) (d : list (key * value))
    (σ : state) : list (key * value) * state :=
  match d with
  | [] => ([], σ)
  | (k, v) :: rest =>
      let '(v', memo', σ') := deepcopy_value memo v σ in
      let '(rest', σ'') := deepcopy_items memo' rest σ' in
      ((k, v') :: rest', σ'')
  end.

(** [get_global_metadata()]: [cls._global_metadata.copy()], a new
    dictionary object with the same items. *)
Definition get_global_metadata (σ : state) : result loc * state :=
  let '(l, σ') := alloc (ODict (registry σ)) σ in
  (Return l, σ').

(** The error raised for keys that are already set. *)
Definition duplicate_key_error : exn :=
  KeyError "global metadata keys already set while overwrite flag is False".

(** The first argument of [add_global_metadata]: a [str], a [dict] (given by
    its items) or an object of another type. *)
Inductive name_arg : Type :=
| NameStr (s : string)
| NameDict (items : list (key * value))
| NameOther.

(** [any(not isinstance(key, str) for key in name)] *)
Definition any_non_str_key (d : list (key * value)) : bool :=
  existsb (fun kv => negb (is_str_key kv.1)) d.

(** [add_global_metadata(name, value=None, *, overwrite=False)].  The
    [TypeError] for keys that are not [str] is built and dropped: the
    statement has no [raise]. *)
Definition add_global_metadata (name : name_arg) (value : value)
    (overwrite : bool) (σ : state) : result unit * state :=
  let prepared : result (list (key * Registry.value)) * state :=
    match name with
    | NameStr s =>
        let '(v', _, σ') := deepcopy_value [] value σ in
        (Return [(KStr s, v')], σ')
    | NameDict d =>
        let _ :=
          if any_non_str_key d
          then Some (TypeError "Metadata dict must contain only str type keys.")
          else None in
        let '(d', σ') := deepcopy_items [] d σ in
        (Return d', σ')
    | NameOther =>
        (Raise (TypeError "add_global_metadata expects either a single dict as first argument or a str key and a value as first two arguments."), σ)
    end in
  match prepared with
  | (Raise e, σ') => (Raise e, σ')
  | (Return metadata, σ') =>
      let duplicate_keys := key_intersection metadata (registry σ') in
      match overwrite, duplicate_keys with
      | false, _ :: _ =>
          (Raise duplicate_key_error, σ')
      | _, _ =>
          (Return tt,
           <[global_metadata := ODict (dict_update (registry σ') metadata)]> σ')
      end
  end.

(** The argument of [remove_global_metadata]: one [str] or an iterable of
    keys. *)
Inductive names_arg : Type :=
| NamesStr (s : string)
| NamesIter (ks : list key).

(** [remove_global_metadata(names)] *)
Definition remove_global_metadata (names : names_arg) (σ : state)
  : result unit * state :=
  let names :=
    match names with
    | NamesStr s => [KStr s]
    | NamesIter ks => ks
    end in
  (Return tt,
   <[global_metadata :=
       ODict (fold_left (fun d name => dict_pop name d) names (registry σ))]> σ).

(** *** What callers can do with the objects they hold *)

(** [d[k] = v] on the dictionary object at [l]. *)
Definition dict_setitem (l : loc) (k : key) (v : value) (σ : state) : state :=
  match σ !! l with
  | Some (ODict d) => <[l := ODict (dict_set k v d)]> σ
  | _ => σ
  end.

(** [d.pop(k, None)] on the dictionary object at [l]. *)
Definition dict_popitem (l : loc) (k : key) (σ : state) : state :=
  match σ !! l with
  | Some (ODict d) => <[l := ODict (dict_pop k d)]> σ
  | _ => σ
  end.

(** [xs.append(x)] on the list object at [l]. *)
Definition list_append (l : loc) (x : Z) (σ : state) : state :=
  match σ !! l with
  | Some (OList xs) => <[l := OList (xs ++ [x])]> σ
  | _ => σ
  end.

(** What a reader sees of a value: a list is seen through its items. *)
Inductive seen : Type :=
| SNone
| SInt (z : Z)
| SFloat (f : spec_float)
| SStr (s : string)
| SList (items : list Z)
| SDangling.

Definition see (σ : state) (v : value) : seen :=
  match v with
  | VNone => SNone
  | VInt z => SInt z
  | VFloat f => SFloat f
  | VStr s => SStr s
  | VList l =>
      match σ !! l with
      | Some (OList xs) => SList xs
      | _ => SDangling
      end
  end.

Definition seen_items (σ : state) (d : list (key * value))
  : list (key * seen) :=
  map (fun kv => (kv.1, see σ kv.2)) d.

(** The contents of the dictionary at [l] as a reader sees them. *)
Definition contents (l : loc) (σ : state) : list (key * seen) :=
  seen_items σ (dict_items l σ).

End Registry.

(** ** Programs that use the registry

    What a program can do to the store: call the three class methods,
    create a list, append to a list it holds, and assign to or remove a key
    of a dictionary it holds.  The dictionary behind
    [cls._global_metadata] is handed out by none of the methods, so callers
    hold other dictionaries only. *)

Module Session.
Import Py Registry.

Inductive action : Type :=
| Get
| Add (name : name_arg) (v : value) (overwrite : bool)
| Remove (names : names_arg)
| NewList (xs : list Z)
| Append (l : loc) (x : Z)
| SetItem (l : loc) (k : key) (v : value)
| PopItem (l : loc) (k : key).

(** The arguments are objects of the store, a [dict] argument has each key
    once, and the dictionary written to is not the registry. *)
Definition allowed (a : action) (σ : state) : bool :=
  match a with
  | Add (NameDict d) _ _ =>
      closed_items σ d && bool_decide (NoDup (dict_keys d))
  | Add (NameStr _) v _ => closed_value σ v
  | SetItem l _ v => negb (bool_decide (l = global_metadata)) && closed_value σ v
  | PopItem l _ => negb (bool_decide (l = global_metadata))
  | _ => true
  end.

Definition run (a : action) (σ : state) : state :=
  match a with
  | Get => (get_global_metadata σ).2
  | Add name v overwrite => (add_global_metadata name v overwrite σ).2
  | Remove names => (remove_global_metadata names σ).2
  | NewList xs => (alloc (OList xs) σ).2
  | Append l x => list_append l x σ
  | SetItem l k v => dict_setitem l k v σ
  | PopItem l k => dict_popitem l k σ
  end.

(** A program: its actions in order; [None] when an action is not
    allowed where it stands. *)
Fixpoint run_all (prog : list action) (σ : state) : option state :=
  match prog with
  | [] => Some σ
  | a :: rest => if allowed a σ then run_all rest (run a σ) else None
  end.

(** The keys that [remove_global_metadata] goes through. *)
Definition names_of (names : names_arg) : list key :=
  match names with
  | NamesStr s => [KStr s]
  | NamesIter ks => ks
  end.

(** The registry is a dictionary with live references and each key once. *)
Definition sound (σ : state) : Prop :=
  wf σ = true /\ NoDup (dict_keys (registry σ)).

End Session.

(** ** Headers: [create_header] of the three storage classes *)

Module Header.
Import Py Registry.

Inductive ImageFormat : Type := PNG | PDF.

(** [self.column_headers] once set: one string or a tuple of names. *)
Inductive column_headers : Type :=
| ColStr (s : string)
| ColTuple (names : list string).

(** The attributes set by [DataStorageBase.__init__]. *)
Record DataStorageBase : Type := mk_base {
  root_dir : option string;
  file_extension : option string;
  include_global_metadata : bool;
  image_format : ImageFormat
}.

(** [TextDataStorage] and its subclass [CsvDataStorage] have the same
    attributes; [is_csv] tells the class of the instance, which selects the
    [create_header] that a call on [self] reaches. *)
Record TextDataStorage : Type := mk_text {
  text_base : DataStorageBase;
  is_csv : bool;
  text_column_headers : option column_headers;
  number_format : string;
  comments : option string;
  delimiter : string;
  _current_data_file : option string
}.

Record NpyDataStorage : Type := mk_npy {
  npy_base : DataStorageBase;
  npy_column_headers : option column_headers
}.

(** [DataStorageBase.__init__]: the extension gets its leading dot. *)
Definition base_init (root_dir file_extension : option string)
    (include_global_metadata : bool) (image_format : ImageFormat)
  : DataStorageBase :=
  mk_base root_dir
    (match file_extension with
     | Some (String c r) =>
         if Ascii.eqb c "." then Some (String c r) else Some ("." ++ String c r)
     | _ => None
     end)
    include_global_metadata image_format.

(** The normalisation of [column_headers] in both [__init__]: an empty
    string or tuple counts as none. *)
Definition init_column_headers (column_headers : option column_headers)
  : option Header.column_headers :=
  match column_headers with
  | Some (ColStr "") | Some (ColTuple []) | None => None
  | Some h => Some h
  end.

(** [TextDataStorage.__init__] *)
Definition text_init (column_headers : option column_headers)
    (number_format : string) (comments : option string) (delimiter : string)
    (base : DataStorageBase) : result TextDataStorage :=
  match delimiter with
  | EmptyString => Raise (ValueError "Parameter delimiter must be non-empty string.")
  | _ =>
      Return (mk_text base false (init_column_headers column_headers)
                number_format comments delimiter None)
  end.

(** [CsvDataStorage.__init__]: the delimiter is the comma. *)
Definition csv_init (column_headers : option column_headers)
    (number_format : string) (comments : option string)
    (base : DataStorageBase) : result TextDataStorage :=
  self ← text_init column_headers number_format comments "," base;
  Return (mk_text (text_base self) true (text_column_headers self)
            (Header.number_format self) (Header.comments self)
            (Header.delimiter self) (_current_data_file self)).

(** [NpyDataStorage.__init__]: the extension is [.npy]. *)
Definition npy_init (column_headers : option column_headers)
    (base : DataStorageBase) : NpyDataStorage :=
  mk_npy (mk_base (root_dir base) (Some ".npy")
            (include_global_metadata base) (image_format base))
         (init_column_headers column_headers).

(** [str(xs)] for a list of integers. *)
Definition str_list (xs : list Z) : string :=
  "[" ++ join ", " (map str_int xs) ++ "]".

(** [f'{param}'] *)
Definition str_key (k : key) : string :=
  match k with
  | KStr s => s
  | KInt z => str_int z
  end.

(** The three branches on the type of a metadata value: [.18e] for a
    float, [d] for an integer, [str] for anything else.  Formatting a
    numpy float goes through its conversion to a Python [float]. *)
Definition format_value (σ : state) (v : value) : string :=
  match v with
  | VFloat f => format_e 18 (to_double f)
  | VInt z => str_int z
  | VStr s => s
  | VNone => "None"
  | VList l =>
      match σ !! l with
      | Some (OList xs) => str_list xs
      | _ => ""
      end
  end.

(** The number of digits of a rendered number before its exponent part. *)
Fixpoint mantissa_digits (s : string) : nat :=
  match s with
  | EmptyString => 0%nat
  | String c r =>
      if Ascii.eqb c "e" then 0%nat
      else
        ((if ((48 <=? nat_of_ascii c) && (nat_of_ascii c <=? 57))%nat
          then 1 else 0)
         + mantissa_digits r)%nat
  end.

(** The metadata of a header: the global items (read through
    [get_global_metadata], whose copy stays local to the call) updated with
    the ones of the caller. *)
Definition gather_metadata (include_global : bool) (σ : state)
    (metadata : option (list (key * value))) : list (key * value) :=
  let all_metadata := if include_global then registry σ else [] in
  match metadata with
  | Some m => dict_update all_metadata m
  | None => all_metadata
  end.

Definition notes_lines (notes : option string) : list string :=
  match notes with
  | Some (String c r) => (splitlines (String c r) ++ [""])%list
  | _ => []
  end.

Definition metadata_lines (σ : state) (all_metadata : list (key * value))
  : list string :=
  match all_metadata with
  | [] => []
  | _ =>
      (["Metadata:"; "========="]
       ++ map (fun kv => (str_key kv.1 ++ ": " ++ format_value σ kv.2)%string)
            all_metadata
       ++ [""])%list
  end.

Definition column_line (sep : string) (h : option column_headers)
  : list string :=
  match h with
  | Some (ColStr s) => [s]
  | Some (ColTuple names) => [join sep names]
  | None => []
  end.

Definition option_default {A : Type} (d : A) (o : option A) : A :=
  match o with
  | Some a => a
  | None => d
  end.

(** [TextDataStorage.create_header]; [now] is [datetime.now()]. *)
Definition text_create_header (self : TextDataStorage) (now : datetime)
    (σ : state) (metadata : option (list (key * value)))
    (notes : option string) (timestamp : option datetime)
    (include_column_headers : bool) : string :=
  let timestamp := option_default now timestamp in
  let all_metadata :=
    gather_metadata (include_global_metadata (text_base self)) σ metadata in
  let header_lines :=
    ([format0 "Saved Data on {0}" (strftime "%d.%m.%Y at %Hh%Mm%Ss" timestamp);
      ""]
     ++ notes_lines notes
     ++ metadata_lines σ all_metadata
     ++ ["Data:"; "====="]
     ++ (if include_column_headers
         then column_line (delimiter self) (text_column_headers self)
         else []))%list in
  let prefix := option_default "" (comments self) in
  let line_sep := format0 (LF ++ "{0}") prefix in
  format0 "{0}" prefix ++ join line_sep header_lines ++ LF.

(** The lines of a text header before the column line. *)
Definition descriptive_lines (self : TextDataStorage) (now : datetime)
    (σ : state)
    (metadata : option (list (key * value))) (notes : option string)
    (timestamp : option datetime) : list string :=
  ["Saved Data on "
   ++ strftime "%d.%m.%Y at %Hh%Mm%Ss" (option_default now timestamp); ""]
  ++ notes_lines notes
  ++ metadata_lines σ
       (gather_metadata (include_global_metadata (text_base self)) σ metadata)
  ++ ["Data:"; "====="].

(** [CsvDataStorage.create_header] *)
Definition csv_create_header (self : TextDataStorage) (now : datetime)
    (σ : state) (metadata : option (list (key * value)))
    (notes : option string) (timestamp : option datetime) : string :=
  let timestamp := Some (option_default now timestamp) in
  match text_column_headers self with
  | Some (ColStr _) =>
      text_create_header self now σ metadata notes timestamp true
  | Some (ColTuple names) =>
      text_create_header self now σ metadata notes timestamp false
      ++ join "," names ++ LF
  | None =>
      text_create_header self now σ metadata notes timestamp false
  end.

(** [self.create_header(metadata=..., notes=..., timestamp=...)] as
    [new_data_file] calls it: the method of the instance's class. *)
Definition create_header (self : TextDataStorage) (now : datetime)
    (σ : state) (metadata : option (list (key * value)))
    (notes : option string) (timestamp : option datetime) : string :=
  if is_csv self
  then csv_create_header self now σ metadata notes timestamp
  else text_create_header self now σ metadata notes timestamp true.

(** [NpyDataStorage.create_header].  The title is written
    [f'Saved Data on {0}'.format(...)]: the f-string has already replaced
    [{0}] by the integer [0] when [format] is called. *)
Definition npy_create_header (self : NpyDataStorage) (now : datetime)
    (σ : state) (metadata : option (list (key * value)))
    (notes : option string) (timestamp : option datetime) : string :=
  let timestamp := option_default now timestamp in
  let all_metadata :=
    gather_metadata (include_global_metadata (npy_base self)) σ metadata in
  let header_lines :=
    ([format0 ("Saved Data on " ++ str_int 0)%string
        (strftime "%d.%m.%Y at %Hh%Mm%Ss" timestamp);
      ""]
     ++ notes_lines notes
     ++ metadata_lines σ all_metadata
     ++ ["Column headers:"; "==============="]
     ++ column_line ", " (npy_column_headers self))%list in
  join LF header_lines ++ LF.

End Header.

(** ** Files: [new_data_file], [append_data_file], [save_data] *)

Module Storage.
Import Py Registry Header.

(** A [numpy.ndarray]: its shape and its items in row-major order. *)
Record ndarray : Type := mk_ndarray {
  shape : list nat;
  flat : list spec_float
}.

Definition ndim (a : ndarray) : nat := length (shape a).

(** [np.expand_dims(data, axis=0)] *)
Definition expand_dims0 (a : ndarray) : ndarray :=
  mk_ndarray (1%nat :: shape a) (flat a).

(** The files on disk, by path, with their text. *)
Abbreviation files := (gmap string string) (only parsing).

(** What the module takes from its surroundings: the clock, the outcome of
    opening a path for writing, the text and the bytes that numpy produces
    for an array, and the outcome of the call [self.create_file_path(...)].
    That method is called by [new_data_file], [save_data] and
    [save_thumbnail], but no class of the module defines it: the body of
    [DataStorageBase] holds a commented-out draft only.  On an instance of
    the classes as they are the call raises [AttributeError]
    ([lacks_create_file_path]); the field leaves room for a subclass that
    supplies the method. *)
Record env : Type := mk_env {
  now : datetime;
  create_file_path :
    DataStorageBase -> datetime -> option string -> option string
    -> result string;
  writable : string -> bool;
  savetxt_rows : ndarray -> string -> string -> result string;
  npy_bytes : ndarray -> string
}.

(** The lookup of [create_file_path] on an object that has no such
    attribute. *)
Definition missing_create_file_path : exn := AttributeError "create_file_path".

(** The classes of the module as they are: [self.create_file_path] is not
    there. *)
Definition lacks_create_file_path (E : env) : Prop :=
  forall base timestamp filename nametag,
    create_file_path E base timestamp filename nametag
    = Raise missing_create_file_path.

(** [open(path, 'w')] followed by [file.write(text)]. *)
Definition write_file (E : env) (path text : string) (fs : files)
  : result unit * files :=
  if writable E path then (Return tt, <[path := text]> fs)
  else (Raise (OSError path), fs).

(** The error of [np.savetxt] for an array that is not 1-D or 2-D. *)
Definition not_1d_or_2d : exn := ValueError "Expected 1D or 2D array".

(** [np.savetxt(file, X, delimiter=..., fmt=...)] on a file opened for
    appending with text [old]: numpy refuses arrays that are not 1-D or
    2-D before it writes anything. *)
Definition np_savetxt (E : env) (old : string) (X : ndarray)
    (delimiter fmt : string) : result string :=
  if ((ndim X =? 0)%nat || (2 <? ndim X)%nat)%bool
  then Raise not_1d_or_2d
  else rows ← savetxt_rows E X delimiter fmt; Return (old ++ rows).

(** [TextDataStorage.new_data_file] *)
Definition new_data_file (E : env) (self : TextDataStorage) (σ : state)
    (fs : files) (metadata : option (list (key * value)))
    (notes filename nametag : option string) (timestamp : option datetime)
  : result (string * datetime) * TextDataStorage * files :=
  let timestamp := option_default (now E) timestamp in
  match create_file_path E (text_base self) timestamp filename nametag with
  | Raise e => (Raise e, self, fs)
  | Return file_path =>
      let header := create_header self (now E) σ metadata notes (Some timestamp) in
      match write_file E file_path header fs with
      | (Raise e, fs') => (Raise e, self, fs')
      | (Return _, fs') =>
          (Return (file_path, timestamp),
           mk_text (text_base self) (is_csv self) (text_column_headers self)
             (number_format self) (comments self) (delimiter self)
             (Some file_path),
           fs')
      end
  end.

(** [TextDataStorage.append_data_file]; the result is the tuple
    [(1, data.shape[0])] or [data.shape]. *)
Definition append_data_file (E : env) (self : TextDataStorage) (fs : files)
    (data : ndarray) (file_path : option string)
  : result (list nat) * files :=
  let file_path :=
    match file_path with
    | None => _current_data_file self
    | Some p => Some p
    end in
  match file_path with
  | None =>
      (Raise (FileNotFoundError "No file created for writing data."), fs)
  | Some path =>
      match fs !! path with
      | None =>
          (Raise (FileNotFoundError "No file created for writing data."), fs)
      | Some old =>
          if writable E path then
            let written :=
              if (ndim data =? 1)%nat
              then np_savetxt E old (expand_dims0 data)
                     (delimiter self) (number_format self)
              else np_savetxt E old data
                     (delimiter self) (number_format self) in
            match written with
            | Raise e => (Raise e, fs)
            | Return text =>
                (Return (if (ndim data =? 1)%nat
                         then [1%nat; hd 0%nat (shape data)]
                         else shape data),
                 <[path := text]> fs)
            end
          else (Raise (OSError path), fs)
      end
  end.

(** [TextDataStorage.save_data], inherited by [CsvDataStorage]. *)
Definition text_save_data (E : env) (self : TextDataStorage) (σ : state)
    (fs : files) (data : ndarray) (metadata : option (list (key * value)))
    (filename nametag : option string) (timestamp : option datetime)
    (notes : option string)
  : result (string * datetime * (nat * nat)) * TextDataStorage * files :=
  match new_data_file E self σ fs metadata notes filename nametag timestamp with
  | (Raise e, self', fs') => (Raise e, self', fs')
  | (Return (file_path, timestamp), self', fs') =>
      match append_data_file E self' fs' data None with
      | (Raise e, fs'') => (Raise e, self', fs'')
      | (Return [rows; columns], fs'') =>
          (Return (file_path, timestamp, (rows, columns)), self', fs'')
      | (Return _, fs'') =>
          (Raise (ValueError "not enough or too many values to unpack"),
           self', fs'')
      end
  end.

(** [NpyDataStorage.save_data] *)
Definition npy_save_data (E : env) (self : NpyDataStorage) (σ : state)
    (fs : files) (data : ndarray) (metadata : option (list (key * value)))
    (notes filename nametag : option string) (timestamp : option datetime)
  : result (string * datetime * list nat) * files :=
  let timestamp := option_default (now E) timestamp in
  match create_file_path E (npy_base self) timestamp filename nametag with
  | Raise e => (Raise e, fs)
  | Return file_path =>
      match write_file E file_path (npy_bytes E data) fs with
      | (Raise e, fs') => (Raise e, fs')
      | (Return _, fs') =>
          let param_file_path := rsplit_dot_head file_path ++ "_metadata.txt" in
          let header :=
            npy_create_header self (now E) σ metadata notes (Some timestamp) in
          match write_file E param_file_path header fs' with
          | (Raise e, fs'') => (Raise e, fs'')
          | (Return _, fs'') =>
              (Return (file_path, timestamp, shape data), fs'')
          end
      end
  end.

(** *** A test double for the surroundings

    The classes are the ones of the module, without [create_file_path];
    the clock is fixed; [deny] lists the paths that cannot be opened for
    writing; numpy writes nothing for any array. *)
Definition test_env (deny : list string) : env :=
  mk_env (mk_datetime 2021 1 30 11 30 59)
    (fun _ _ _ _ => Raise missing_create_file_path)
    (fun path => negb (bool_decide (path ∈ deny)))
    (fun _ _ _ => Return "")
    (fun _ => "NUMPY").

End Storage.

(** ** Shapes of the results

    Auxiliary functions in which the statements about file names and
    headers are written. *)

Module Shapes.
Import Py Storage.

(** The array that [append_data_file] hands to [np.savetxt]: a 1-D array
    becomes one row. *)
Definition row_array (data : ndarray) : ndarray :=
  if (ndim data =? 1)%nat then expand_dims0 data else data.

(** The tuple that [append_data_file] returns. *)
Definition written_shape (data : ndarray) : list nat :=
  if (ndim data =? 1)%nat then [1%nat; hd 0%nat (shape data)] else shape data.

(** The target of [append_data_file]. *)
Definition append_target (self : Header.TextDataStorage)
    (file_path : option string) : option string :=
  match file_path with
  | None => Header._current_data_file self
  | Some p => Some p
  end.

(** The error of [append_data_file] when there is no file to append to. *)
Definition no_file_error : exn :=
  FileNotFoundError "No file created for writing data.".

(** What [get_timestamp_filename] puts after the time stamp: nothing, or
    an underscore and the normalised tag. *)
Definition tag_suffix (nametag : option string) : string :=
  match nametag with
  | Some (String c r) =>
      match re_sub_ws "_" (strip (String c r)) with
      | EmptyString => ""
      | t => "_" ++ t
      end
  | _ => ""
  end.

(** The number that a string of decimal digits denotes. *)
Fixpoint decimal_value_from (acc : Z) (s : string) : Z :=
  match s with
  | EmptyString => acc
  | String c r =>
      decimal_value_from (10 * acc + (Z.of_nat (nat_of_ascii c) - 48)) r
  end.

Definition decimal_value (s : string) : Z := decimal_value_from 0 s.

(** [n] is the integer nearest to [num / den], and the even one of the two
    nearest when [num / den] lies halfway between them. *)
Definition nearest_even (num den n : Z) : Prop :=
  Z.abs (2 * (num - n * den)) <= den
  /\ (Z.abs (2 * (num - n * den)) = den -> Z.even n = true).

(** The text made of the given lines, each one after [prefix] and ended
    by a line feed. *)
Fixpoint prefixed_lines (prefix : string) (lines : list string) : string :=
  match lines with
  | [] => ""
  | line :: rest => prefix ++ line ++ LF ++ prefixed_lines prefix rest
  end.

(** A string without any of the characters at which [str.splitlines]
    ends a line. *)
Definition no_linebreak (s : string) : bool :=
  all_chars (fun c => negb (is_linebreak c)) s.

(** Strings that are one line each. *)
Definition clean_lines (lines : list string) : bool :=
  forallb no_linebreak lines.

End Shapes.

(** * Properties *)

(** ** Strings and digits *)

Section StringFacts.
Import Py.

Lemma append_nil_r (s : string) : s ++ "" = s.
Proof. induction s as [|c s IH]; simpl; [reflexivity | now rewrite IH]. Qed.

Lemma append_assoc (a b c : string) : (a ++ b) ++ c = a ++ b ++ c.
Proof. induction a as [|x a IH]; simpl; [reflexivity | now rewrite IH]. Qed.

Lemma append_length (a b : string) :
  String.length (a ++ b) = (String.length a + String.length b)%nat.
Proof. induction a as [|x a IH]; simpl; [reflexivity | now rewrite IH]. Qed.

Lemma append_snoc_nonempty (s : string) (c : ascii) : s ++ String c "" <> "".
Proof. destruct s; discriminate. Qed.

Lemma rstrip_cons (c : ascii) (r : string) :
  rstrip (String c r) =
  if (all_space r && isspace c)%bool then "" else String c (rstrip r).
Proof.
  assert (H : forall t, rstrip t = "" <-> all_space t = true).
  { induction t as [|x t IH]; simpl; [tauto|].
    destruct (rstrip t) eqn:Et.
    - destruct (isspace x); simpl; [|split; discriminate].
      split; [intros _; now apply IH | reflexivity].
    - split; [discriminate|]. intros [_ Ht]%andb_true_iff.
      apply IH in Ht. discriminate. }
  simpl. destruct (rstrip r) eqn:Er.
  - assert (Hr : all_space r = true) by now apply H.
    rewrite Hr. simpl. reflexivity.
  - destruct (all_space r) eqn:Ha; [|reflexivity].
    apply H in Ha. congruence.
Qed.

Lemma rstrip_all_space (s : string) : rstrip s = "" <-> all_space s = true.
Proof.
  induction s as [|c s IH]; [simpl; tauto|].
  rewrite rstrip_cons. simpl.
  destruct (all_space s), (isspace c); simpl; split; congruence.
Qed.

Lemma lstrip_all_space (s : string) : lstrip s = "" <-> all_space s = true.
Proof.
  induction s as [|c s IH]; [simpl; tauto|].
  simpl. destruct (isspace c); simpl; [exact IH | split; discriminate].
Qed.

Lemma strip_all_space (s : string) : strip s = "" <-> all_space s = true.
Proof.
  unfold strip. rewrite rstrip_all_space.
  induction s as [|c s IH]; [simpl; tauto|].
  simpl. destruct (isspace c) eqn:Ec; simpl; [exact IH|].
  rewrite Ec. simpl. tauto.
Qed.

Lemma lstrip_cons (c : ascii) (s : string) :
  lstrip (String c s) = if isspace c then lstrip s else String c s.
Proof. reflexivity. Qed.

Lemma lstrip_rstrip (s : string) : lstrip (rstrip s) = rstrip (lstrip s).
Proof.
  induction s as [|c s IH]; [reflexivity|].
  rewrite rstrip_cons, (lstrip_cons c s).
  destruct (isspace c) eqn:Ec.
  - destruct (all_space s) eqn:Ea; simpl.
    + symmetry. apply rstrip_all_space.
      apply lstrip_all_space in Ea. now rewrite Ea.
    + now rewrite Ec.
  - rewrite andb_false_r, lstrip_cons, Ec.
    rewrite rstrip_cons, Ec, andb_false_r. reflexivity.
Qed.

Lemma re_sub_ws_in_run (repl s : string) :
  re_sub_ws_from true repl s = re_sub_ws_from false repl (lstrip s).
Proof.
  induction s as [|c s IH]; [reflexivity|].
  simpl. destruct (isspace c) eqn:Ec; [exact IH|].
  simpl. now rewrite Ec.
Qed.

End StringFacts.

Section DigitFacts.
Import Py.

Lemma ndigits_fuel_le (fuel : nat) : forall (n : Z) (w : nat),
  (1 <= w)%nat -> n < 10 ^ Z.of_nat w -> (ndigits_fuel fuel n <= w)%nat.
Proof.
  induction fuel as [|k IH]; intros n w Hw Hn; simpl; [lia|].
  destruct (Z.ltb_spec n 10) as [|Hge]; [lia|].
  destruct w as [|w]; [lia|].
  destruct w as [|w].
  { change (10 ^ Z.of_nat 1) with 10 in Hn. lia. }
  apply le_n_S, IH; [lia|].
  rewrite Nat2Z.inj_succ, Z.pow_succ_r in Hn by lia.
  apply Z.div_lt_upper_bound; lia.
Qed.

Lemma log2_div10 (n : Z) : 10 <= n -> Z.log2 (n / 10) < Z.log2 n.
Proof.
  intros Hn.
  assert (H2 : Z.log2 (n / 2) = Z.log2 n - 1).
  { rewrite <- Z.div2_div, Z.div2_spec, Z.log2_shiftr by lia.
    assert (0 < Z.log2 n) by (apply Z.log2_pos; lia). lia. }
  assert (Hle : Z.log2 (n / 10) <= Z.log2 (n / 2)).
  { apply Z.log2_le_mono.
    apply Z.div_le_lower_bound; [lia|].
    assert (10 * (n / 10) <= n) by (apply Z.mul_div_le; lia).
    lia. }
  lia.
Qed.

Lemma ndigits_fuel_spec (fuel : nat) : forall n : Z,
  1 <= n -> Z.log2 n <= Z.of_nat fuel ->
  10 ^ (Z.of_nat (ndigits_fuel fuel n) - 1) <= n
  < 10 ^ Z.of_nat (ndigits_fuel fuel n).
Proof.
  induction fuel as [|k IH]; intros n Hn Hlog; simpl ndigits_fuel.
  - assert (n < 2).
    { destruct (Z.lt_ge_cases n 2) as [|H2]; [assumption|].
      assert (0 < Z.log2 n) by (apply Z.log2_pos; lia). lia. }
    change (10 ^ (Z.of_nat 1 - 1)) with 1. change (10 ^ Z.of_nat 1) with 10. lia.
  - destruct (Z.ltb_spec n 10) as [Hlt|Hge].
    + change (10 ^ (Z.of_nat 1 - 1)) with 1. change (10 ^ Z.of_nat 1) with 10. lia.
    + assert (Hq : 1 <= n / 10) by (apply Z.div_le_lower_bound; lia).
      assert (Hl : Z.log2 (n / 10) <= Z.of_nat k).
      { pose proof (log2_div10 n Hge). lia. }
      specialize (IH (n / 10) Hq Hl).
      set (d := ndigits_fuel k (n / 10)) in *.
      assert (Hd : (1 <= d)%nat).
      { unfold d. destruct k; simpl; [lia|]. destruct (n / 10 <? 10); lia. }
      rewrite Nat2Z.inj_succ.
      replace (Z.succ (Z.of_nat d) - 1) with (Z.succ (Z.of_nat d - 1)) by lia.
      rewrite !Z.pow_succ_r by lia.
      pose proof (Z.mul_div_le n 10 ltac:(lia)).
      pose proof (Z.mod_pos_bound n 10 ltac:(lia)).
      pose proof (Z.div_mod n 10 ltac:(lia)).
      lia.
Qed.

Lemma ndigits_spec (n : Z) : 1 <= n ->
  10 ^ (Z.of_nat (ndigits n) - 1) <= n < 10 ^ Z.of_nat (ndigits n).
Proof.
  intros Hn. apply ndigits_fuel_spec; [assumption|].
  rewrite Z2Nat.id; [lia | apply Z.log2_nonneg].
Qed.

Lemma ndigits_pos (n : Z) : (1 <= ndigits n)%nat.
Proof.
  unfold ndigits. destruct (Z.to_nat (Z.log2 n)); simpl; [lia|].
  destruct (n <? 10); lia.
Qed.

Lemma ndigits_le (n : Z) (w : nat) :
  (1 <= w)%nat -> n < 10 ^ Z.of_nat w -> (ndigits n <= w)%nat.
Proof. apply ndigits_fuel_le. Qed.

Lemma zfill_fixed (w : nat) (n : Z) :
  (1 <= w)%nat -> n < 10 ^ Z.of_nat w -> zfill w n = fixed_digits w n.
Proof.
  intros Hw Hn. unfold zfill.
  now rewrite Nat.max_l by now apply ndigits_le.
Qed.

Lemma fixed_digits_length (w : nat) : forall n : Z,
  String.length (fixed_digits w n) = w.
Proof.
  induction w as [|w IH]; intros n; simpl; [reflexivity|].
  rewrite append_length, IH. simpl. lia.
Qed.

Lemma all_chars_app (p : ascii -> bool) (a b : string) :
  all_chars p (a ++ b) = (all_chars p a && all_chars p b)%bool.
Proof.
  induction a as [|c a IH]; simpl; [reflexivity|].
  now rewrite IH, andb_assoc.
Qed.

Lemma digit_char_is_digit (d : Z) : is_digit (digit_char d) = true.
Proof.
  unfold digit_char, is_digit.
  pose proof (Z.mod_pos_bound d 10 ltac:(lia)) as Hb.
  rewrite nat_ascii_embedding by lia.
  apply andb_true_iff; split; apply Nat.leb_le; lia.
Qed.

Lemma fixed_digits_all_digits (w : nat) : forall n : Z,
  all_chars is_digit (fixed_digits w n) = true.
Proof.
  induction w as [|w IH]; intros n; cbn [fixed_digits]; [reflexivity|].
  rewrite all_chars_app, IH. cbn [all_chars].
  now rewrite digit_char_is_digit.
Qed.

End DigitFacts.

(** ** File names *)

Section FilenameFacts.
Import Py Filename.

Lemma words_all_space (s : string) :
  words_from "" s = [] <-> all_space s = true.
Proof.
  induction s as [|c s IH]; simpl; [tauto|].
  destruct (isspace c) eqn:Ec; simpl; [exact IH|].
  split; [|discriminate].
  assert (H : forall cur t, cur <> "" -> words_from cur t <> []).
  { intros cur t; revert cur.
    induction t as [|x t IHt]; intros cur Hc; simpl.
    - destruct cur; [congruence | discriminate].
    - destruct (isspace x).
      + destruct cur; [congruence | discriminate].
      + apply IHt, append_snoc_nonempty. }
  intros E. exfalso. revert E. apply H. discriminate.
Qed.

Lemma join_cons (sep p : string) (ps : list string) :
  join sep (p :: ps) =
  match ps with
  | [] => p
  | _ => p ++ sep ++ join sep ps
  end.
Proof. destruct ps; reflexivity. Qed.

(** The code's two steps and the specification's words agree. *)
Lemma normalize_words (s : string) :
  (forall cur, cur <> "" ->
     join "_" (words_from cur s) = cur ++ re_sub_ws "_" (rstrip s))
  /\ join "_" (words_from "" s) = re_sub_ws "_" (strip s).
Proof.
  unfold re_sub_ws, strip.
  induction s as [|c s [IH1 IH2]].
  - split; [|reflexivity]. intros cur Hc. simpl.
    destruct cur; [congruence|]. now rewrite append_nil_r.
  - rewrite rstrip_cons, lstrip_cons. cbn [words_from].
    destruct (isspace c) eqn:Ec.
    + split; [|exact IH2]. intros cur Hc.
      destruct cur as [|x cur]; [congruence|].
      rewrite join_cons, andb_true_r.
      destruct (all_space s) eqn:Ea.
      * apply words_all_space in Ea. rewrite Ea. simpl.
        now rewrite append_nil_r.
      * destruct (words_from "" s) eqn:Ew.
        { apply words_all_space in Ew. congruence. }
        rewrite IH2. cbn [re_sub_ws_from]. rewrite Ec.
        now rewrite re_sub_ws_in_run, lstrip_rstrip.
    + rewrite andb_false_r. split.
      * intros cur Hc. rewrite IH1 by apply append_snoc_nonempty.
        cbn [re_sub_ws_from]. rewrite Ec, append_assoc. reflexivity.
      * rewrite rstrip_cons, Ec, andb_false_r.
        cbn [re_sub_ws_from]. rewrite Ec.
        change ("" ++ String c "") with (String c "").
        rewrite (IH1 (String c "")) by discriminate. reflexivity.
Qed.

Lemma strftime_filename (t : datetime) :
  strftime "%Y%m%d-%H%M-%S" t =
  str_nat (year t) ++ zfill 2 (month t) ++ zfill 2 (day t) ++ "-"
  ++ zfill 2 (hour t) ++ zfill 2 (minute t) ++ "-" ++ zfill 2 (second t).
Proof.
  rewrite <- (append_nil_r (zfill 2 (second t))) at 1. reflexivity.
Qed.

(** A number of [w] digits is written on [w] digits. *)
Lemma str_nat_fixed (w : nat) (n : Z) :
  (1 <= w)%nat -> 10 ^ (Z.of_nat w - 1) <= n < 10 ^ Z.of_nat w ->
  str_nat n = fixed_digits w n.
Proof.
  intros Hw [Hlo Hhi]. unfold str_nat. f_equal.
  assert (Hn : 1 <= n).
  { pose proof (Z.pow_pos_nonneg 10 (Z.of_nat w - 1) ltac:(lia) ltac:(lia)).
    lia. }
  pose proof (ndigits_le n w Hw Hhi) as Hle.
  destruct (ndigits_spec n Hn) as [_ Hup].
  destruct (Nat.eq_dec (ndigits n) w) as [|Hne]; [assumption|].
  exfalso.
  assert (Hpow : 10 ^ Z.of_nat (ndigits n) <= 10 ^ (Z.of_nat w - 1))
    by (apply Z.pow_le_mono_r; lia).
  lia.
Qed.

(** With a year of four digits the time stamp is the one of the
    specification. *)
Lemma stamp_valid (t : datetime) :
  valid_datetime t -> 1000 <= year t ->
  strftime "%Y%m%d-%H%M-%S" t = spec_stamp t.
Proof.
  intros (Hy & Hm & Hd & HH & HM & HS) Hy4.
  rewrite strftime_filename. unfold spec_stamp.
  rewrite (str_nat_fixed 4) by (change (10 ^ (Z.of_nat 4 - 1)) with 1000;
                                change (10 ^ Z.of_nat 4) with 10000; lia).
  rewrite !zfill_fixed; first reflexivity;
    first [lia | change (10 ^ Z.of_nat 2) with 100; lia].
Qed.






(** C3, as stated, fails: a tag of three spaces is supplied, it is empty
    after trimming, and the call returns a name. *)
Lemma blank_tag_returns_a_name :
  exists (ts : Py.datetime) (tag name : string),
    tag <> "" /\ Py.strip tag = ""
    /\ Filename.get_timestamp_filename ts (Some tag) = Py.Return name.
Proof.
  exists (Py.mk_datetime 2021 1 30 11 30 59), "   ", "20210130-1130-59".
  repeat split. discriminate.
Qed.

(** C3, amended: a supplied tag that is empty after trimming is treated
    like no tag: the call returns the bare time stamp and raises nothing. *)
Theorem blank_tag_gives_bare_stamp (ts : datetime) (tag : string) :
  strip tag = "" ->
  get_timestamp_filename ts (Some tag) =
    Return (strftime "%Y%m%d-%H%M-%S" ts)
  /\ get_timestamp_filename ts (Some tag) = get_timestamp_filename ts None.
Proof.
  intros Hs. unfold get_timestamp_filename.
  destruct tag as [|c r]; [split; reflexivity|].
  cbn [truthy option_map]. rewrite Hs. split; reflexivity.
Qed.

Lemma blank_tag_gives_bare_stamp_witness :
  Filename.get_timestamp_filename (Py.mk_datetime 2021 1 30 11 30 59)
    (Some "  ") = Py.Return "20210130-1130-59".
Proof.
  exact (proj1 (blank_tag_gives_bare_stamp
                  (Py.mk_datetime 2021 1 30 11 30 59) "  " eq_refl)).
Defined.

End FilenameFacts.

(** ** Dictionaries *)

Section DictFacts.
Import Py.
Context {K V : Type} `{EqDecision K}.
Implicit Types (d other : list (K * V)) (k : K) (v : V).

Lemma dict_get_set k k' v d :
  dict_get k' (dict_set k v d) = if decide (k' = k) then Some v else dict_get k' d.
Proof.
  induction d as [|[k0 v0] d IH]; simpl.
  - destruct (decide (k' = k)); reflexivity.
  - destruct (decide (k = k0)) as [->|Hne]; simpl.
    + destruct (decide (k' = k0)); reflexivity.
    + destruct (decide (k' = k0)) as [->|Hne'].
      * destruct (decide (k0 = k)); [congruence | reflexivity].
      * exact IH.
Qed.

Lemma dict_get_None k d : dict_get k d = None <-> k ∉ dict_keys d.
Proof.
  unfold dict_keys. induction d as [|[k0 v0] d IH]; simpl.
  - split; [intros _; apply not_elem_of_nil | reflexivity].
  - rewrite not_elem_of_cons. destruct (decide (k = k0)) as [->|Hne].
    + split; [discriminate | intros [? _]; congruence].
    + rewrite IH. tauto.
Qed.

Lemma dict_get_elem k v d :
  NoDup (dict_keys d) -> (k, v) ∈ d -> dict_get k d = Some v.
Proof.
  unfold dict_keys. induction d as [|[k0 v0] d IH]; simpl; intros Hnd Hin.
  - now apply elem_of_nil in Hin.
  - apply NoDup_cons in Hnd as [Hk0 Hnd].
    apply elem_of_cons in Hin as [[= -> ->]|Hin].
    + destruct (decide (k0 = k0)); [reflexivity | congruence].
    + destruct (decide (k = k0)) as [->|Hne]; [|now apply IH].
      exfalso. apply Hk0. apply list_elem_of_fmap. now exists (k0, v).
Qed.

Lemma dict_get_update k d other :
  NoDup (dict_keys other) ->
  dict_get k (dict_update d other) =
  match dict_get k other with
  | Some v => Some v
  | None => dict_get k d
  end.
Proof.
  unfold dict_update. revert d.
  induction other as [|[k0 v0] other IH]; intros d Hnd; simpl; [reflexivity|].
  cbn in Hnd. apply NoDup_cons in Hnd as [Hk0 Hnd].
  rewrite IH, dict_get_set by assumption.
  destruct (decide (k = k0)) as [->|Hne]; [|reflexivity].
  apply dict_get_None in Hk0. now rewrite Hk0.
Qed.

Lemma dict_get_map {W : Type} (f : V -> W) k d :
  dict_get k (map (fun kv => (kv.1, f kv.2)) d) = f <$> dict_get k d.
Proof.
  induction d as [|[k0 v0] d IH]; simpl; [reflexivity|].
  destruct (decide (k = k0)); [reflexivity | exact IH].
Qed.

Lemma key_intersection_nil d other :
  key_intersection d other = [] <->
  forall k, k ∈ dict_keys d -> k ∉ dict_keys other.
Proof.
  unfold key_intersection. generalize (dict_keys d) as ks.
  induction ks as [|k0 ks IH]; simpl.
  - split; [intros _ k Hk; now apply elem_of_nil in Hk | reflexivity].
  - rewrite filter_cons. destruct (decide (k0 ∈ dict_keys other)) as [Hin|Hnin].
    + split; [discriminate|]. intros Hall. exfalso.
      apply (Hall k0); [left | exact Hin].
    + rewrite IH. split.
      * intros Hall k [->|Hk]%elem_of_cons; auto.
      * intros Hall k Hk. apply Hall. now right.
Qed.

End DictFacts.

(** ** The global metadata registry *)

Section RegistryFacts.
Import Py Registry.
Implicit Types (σ : gmap positive obj) (d : list (key * value)).

Lemma alloc_fresh o σ l σ' :
  alloc o σ = (l, σ') -> σ !! l = None /\ σ' = <[l := o]> σ.
Proof.
  unfold alloc. intros [= <- <-]. split; [|reflexivity].
  apply not_elem_of_dom, is_fresh.
Qed.

Lemma registry_insert σ d : registry (<[global_metadata := ODict d]> σ) = d.
Proof. unfold registry, dict_items. now rewrite lookup_insert_eq. Qed.

Lemma wf_registry σ :
  wf σ = true ->
  σ !! global_metadata = Some (ODict (registry σ))
  /\ closed_items σ (registry σ) = true.
Proof.
  unfold wf, registry, dict_items.
  destruct (σ !! global_metadata) as [[xs|d]|]; try discriminate. auto.
Qed.

Lemma registry_mono σ σ' :
  wf σ = true -> σ ⊆ σ' -> registry σ' = registry σ.
Proof.
  intros [Hg _]%wf_registry Hsub.
  unfold registry at 1, dict_items.
  now rewrite (lookup_weaken _ _ _ _ Hg Hsub).
Qed.

Lemma see_mono σ σ' v :
  σ ⊆ σ' -> closed_value σ v = true ->
  see σ' v = see σ v /\ closed_value σ' v = true.
Proof.
  intros Hsub. destruct v as [| | | |l]; simpl; auto.
  destruct (σ !! l) as [[xs|d]|] eqn:E; try discriminate.
  intros _. now rewrite (lookup_weaken _ _ _ _ E Hsub).
Qed.

Lemma seen_items_mono σ σ' d :
  σ ⊆ σ' -> closed_items σ d = true ->
  seen_items σ' d = seen_items σ d /\ closed_items σ' d = true.
Proof.
  intros Hsub. unfold seen_items, closed_items.
  induction d as [|[k v] d IH]; simpl; [auto|].
  intros [Hv Hd]%andb_true_iff.
  destruct (see_mono σ σ' v Hsub Hv) as [-> ->].
  destruct (IH Hd) as [-> ->]. auto.
Qed.

(** Replacing a dictionary object leaves what is seen of values as it is. *)
Lemma see_insert_dict σ l d v :
  (forall xs, σ !! l <> Some (OList xs)) ->
  see (<[l := ODict d]> σ) v = see σ v.
Proof.
  intros Hl. destruct v as [| | | |l0]; simpl; try reflexivity.
  destruct (decide (l = l0)) as [->|Hne].
  - rewrite lookup_insert_eq.
    destruct (σ !! l0) as [[xs|d0]|] eqn:E; try reflexivity.
    now elim (Hl xs).
  - now rewrite lookup_insert_ne.
Qed.

Lemma seen_items_insert_dict σ l d0 d :
  (forall xs, σ !! l <> Some (OList xs)) ->
  seen_items (<[l := ODict d0]> σ) d = seen_items σ d.
Proof.
  intros Hl. unfold seen_items. apply map_ext. intros [k v]. simpl.
  now rewrite see_insert_dict.
Qed.

Lemma memo_ok_mono memo σ σ' : σ ⊆ σ' -> memo_ok memo σ -> memo_ok memo σ'.
Proof.
  intros Hsub Hm l l' Hl. destruct (Hm l l' Hl) as (xs & H1 & H2).
  exists xs. split; eapply lookup_weaken; eauto.
Qed.

Lemma deepcopy_value_spec memo v σ v' memo' σ' :
  deepcopy_value memo v σ = (v', memo', σ') ->
  memo_ok memo σ -> closed_value σ v = true ->
  σ ⊆ σ' /\ memo_ok memo' σ'
  /\ closed_value σ' v' = true /\ see σ' v' = see σ v.
Proof.
  destruct v as [| | | |l]; unfold deepcopy_value; cbn [closed_value];
    try (intros [= <- <- <-]; intros; split; [reflexivity|]; auto; fail).
  intros Hc Hm Hcl. revert Hc.
  destruct (σ !! l) as [[xs|d]|] eqn:El; try discriminate.
  destruct (dict_get l memo) as [l'|] eqn:Em.
  - intros [= <- <- <-].
    destruct (Hm l l' Em) as (ys & H1 & H2).
    simpl. rewrite H2. split; [reflexivity|]. split; [assumption|].
    split; [reflexivity | now rewrite H1].
  - destruct (alloc (OList xs) σ) as [l' σ1] eqn:Ea.
    intros [= <- <- <-].
    apply alloc_fresh in Ea as [Hfresh ->].
    assert (Hsub : σ ⊆ <[l' := OList xs]> σ) by now apply insert_subseteq.
    split; [exact Hsub|]. split; [|split].
    + intros a a'. simpl. destruct (decide (a = l)) as [->|Hne].
      * intros [= <-]. exists xs. split; [|apply lookup_insert_eq].
        eapply lookup_weaken; eauto.
      * intros Ha. eapply memo_ok_mono; eauto.
    + simpl. now rewrite lookup_insert_eq.
    + simpl. now rewrite lookup_insert_eq, El.
Qed.

Lemma deepcopy_items_spec d : forall memo σ d' σ',
  deepcopy_items memo d σ = (d', σ') ->
  memo_ok memo σ -> closed_items σ d = true ->
  σ ⊆ σ' /\ closed_items σ' d' = true
  /\ seen_items σ' d' = seen_items σ d.
Proof.
  induction d as [|[k v] d IH]; intros memo σ d' σ'; simpl.
  - intros [= <- <-] _ _. repeat split; auto.
  - destruct (deepcopy_value memo v σ) as [[v1 memo1] σ1] eqn:Ev.
    destruct (deepcopy_items memo1 d σ1) as [d1 σ2] eqn:Ed.
    intros [= <- <-] Hm [Hv Hd]%andb_true_iff.
    destruct (deepcopy_value_spec _ _ _ _ _ _ Ev Hm Hv)
      as (Hs1 & Hm1 & Hc1 & Hsee1).
    destruct (seen_items_mono σ σ1 d Hs1 Hd) as [Hsd Hcd].
    destruct (IH _ _ _ _ Ed Hm1 Hcd) as (Hs2 & Hc2 & Hsee2).
    destruct (see_mono σ1 σ2 v1 Hs2 Hc1) as [Hsee3 Hc3].
    split; [etrans; eauto|]. split.
    + unfold closed_items in *. simpl. now rewrite Hc3, Hc2.
    + unfold seen_items in *. simpl. now rewrite Hsee3, Hsee1, Hsee2, Hsd.
Qed.

Lemma seen_items_keys σ d : dict_keys (seen_items σ d) = dict_keys d.
Proof.
  unfold dict_keys, seen_items. rewrite map_map. reflexivity.
Qed.

(** What [add_global_metadata] does with a dictionary, whatever its keys:
    the items are copied, and either the [KeyError] is raised with the
    registry untouched or the copies are merged. *)
Lemma add_dict_spec σ d v0 ow :
  wf σ = true -> closed_items σ d = true ->
  exists d' σ1,
    σ ⊆ σ1 /\ closed_items σ1 d' = true
    /\ seen_items σ1 d' = seen_items σ d
    /\ add_global_metadata (NameDict d) v0 ow σ =
       match ow, key_intersection d (registry σ) with
       | false, _ :: _ => (Raise duplicate_key_error, σ1)
       | _, _ =>
           (Return tt,
            <[global_metadata := ODict (dict_update (registry σ) d')]> σ1)
       end.
Proof.
  intros Hwf Hd. unfold add_global_metadata.
  destruct (deepcopy_items [] d σ) as [d' σ1] eqn:Ed.
  destruct (deepcopy_items_spec d [] σ d' σ1 Ed) as (Hsub & Hc & Hsee);
    [intros l l'; discriminate | assumption |].
  exists d', σ1. repeat (split; [assumption|]).
  rewrite (registry_mono σ σ1 Hwf Hsub).
  assert (Hk : key_intersection d' (registry σ) = key_intersection d (registry σ)).
  { unfold key_intersection.
    now rewrite <- (seen_items_keys σ1 d'), Hsee, seen_items_keys. }
  rewrite Hk. reflexivity.
Qed.

Lemma wf_not_list σ :
  wf σ = true -> forall xs, σ !! global_metadata <> Some (OList xs).
Proof. intros [Hg _]%wf_registry xs. rewrite Hg. discriminate. Qed.

(** After a successful merge, every item of the argument is read back from
    the registry, and the keys that are not in the argument read as before. *)
Lemma merged_contents σ σ1 d d' :
  wf σ = true -> closed_items σ d = true -> NoDup (dict_keys d) ->
  σ ⊆ σ1 -> seen_items σ1 d' = seen_items σ d ->
  let σ2 := <[global_metadata := ODict (dict_update (registry σ) d')]> σ1 in
  (forall k v, (k, v) ∈ d ->
     dict_get k (contents global_metadata σ2) = Some (see σ v))
  /\ (forall k, k ∉ dict_keys d ->
       dict_get k (contents global_metadata σ2) =
       dict_get k (contents global_metadata σ)).
Proof.
  intros Hwf Hd Hnd Hsub Hsee σ2.
  assert (Hkeys : dict_keys d' = dict_keys d).
  { now rewrite <- (seen_items_keys σ1 d'), Hsee, seen_items_keys. }
  assert (Hnl : forall xs, σ1 !! global_metadata <> Some (OList xs)).
  { intros xs. destruct (wf_registry σ Hwf) as [Hg _].
    rewrite (lookup_weaken _ _ _ _ Hg Hsub). discriminate. }
  assert (Hget : forall k,
    dict_get k (contents global_metadata σ2) =
    match see σ <$> dict_get k d with
    | Some s => Some s
    | None => dict_get k (contents global_metadata σ)
    end).
  { intros k. unfold contents, σ2.
    fold (registry (<[global_metadata:=ODict (dict_update (registry σ) d')]> σ1)).
    rewrite registry_insert, seen_items_insert_dict by assumption.
    unfold seen_items at 1. rewrite dict_get_map.
    rewrite dict_get_update by now rewrite Hkeys.
    rewrite <- (dict_get_map (see σ)). fold (seen_items σ d).
    rewrite <- Hsee. unfold seen_items at 1. rewrite dict_get_map.
    destruct (dict_get k d') as [v'|]; [reflexivity|]. simpl.
    fold (registry σ).
    destruct (wf_registry σ Hwf) as [_ Hc].
    rewrite <- (proj1 (seen_items_mono σ σ1 _ Hsub Hc)).
    unfold seen_items. now rewrite dict_get_map. }
  split.
  - intros k v Hin. rewrite Hget.
    now rewrite (dict_get_elem k v d Hnd Hin).
  - intros k Hk. rewrite Hget.
    apply dict_get_None in Hk. now rewrite Hk.
Qed.

(** C2: without [overwrite], [add_global_metadata] on a dictionary raises
    the [KeyError] as soon as one of its keys is in the registry, and then
    the registry and what is read from it are as before; when none of its
    keys is in the registry every item is applied and the other keys read
    as before.  In particular, adding [{"k": 1}] twice in a row succeeds
    the first time and fails the second time, and [get_global_metadata]
    still reports [k: 1]. *)
Theorem add_without_overwrite_all_or_nothing σ d v0 :
  wf σ = true -> closed_items σ d = true -> NoDup (dict_keys d) ->
  let out := add_global_metadata (NameDict d) v0 false σ in
  ((exists k, k ∈ dict_keys d /\ k ∈ dict_keys (registry σ)) ->
     out.1 = Raise duplicate_key_error
     /\ registry out.2 = registry σ
     /\ contents global_metadata out.2 = contents global_metadata σ)
  /\ ((forall k, k ∈ dict_keys d -> k ∉ dict_keys (registry σ)) ->
      out.1 = Return tt
      /\ (forall k v, (k, v) ∈ d ->
            dict_get k (contents global_metadata out.2) = Some (see σ v))
      /\ (forall k, k ∉ dict_keys d ->
            dict_get k (contents global_metadata out.2) =
            dict_get k (contents global_metadata σ)))
  /\ (KStr "k" ∉ dict_keys (registry σ) ->
      let entries := NameDict [(KStr "k", VInt 1)] in
      let first := add_global_metadata entries v0 false σ in
      let second := add_global_metadata entries v0 false first.2 in
      let got := get_global_metadata second.2 in
      first.1 = Return tt
      /\ second.1 = Raise duplicate_key_error
      /\ exists l, got.1 = Return l
           /\ dict_get (KStr "k") (contents l got.2) = Some (SInt 1)).
Proof.
  intros Hwf Hd Hnd out.
  destruct (add_dict_spec σ d v0 false Hwf Hd)
    as (d' & σ1 & Hsub & Hc & Hsee & Hout).
  fold out in Hout. split; [|split].
  - intros (k & Hk1 & Hk2).
    destruct (key_intersection d (registry σ)) as [|k0 ks] eqn:Ek.
    { exfalso. revert Hk2. now apply (proj1 (key_intersection_nil _ _) Ek). }
    rewrite Hout. cbn [fst snd].
    split; [reflexivity|]. split; [now apply registry_mono|].
    unfold contents. fold (registry σ1) (registry σ).
    rewrite (registry_mono σ σ1 Hwf Hsub).
    apply seen_items_mono; [assumption | now apply wf_registry].
  - intros Hnew. apply key_intersection_nil in Hnew.
    rewrite Hout, Hnew. cbn [fst snd]. split; [reflexivity|].
    now apply merged_contents.
  - intros Hk entries first second got.
    assert (E1 : first = (Return tt,
              <[global_metadata :=
                  ODict (dict_set (KStr "k") (VInt 1) (registry σ))]> σ)).
    { unfold first, entries, add_global_metadata. cbn [deepcopy_items deepcopy_value].
      replace (key_intersection [(KStr "k", VInt 1)] (registry σ)) with (@nil key);
        [reflexivity|].
      symmetry. apply key_intersection_nil.
      intros k [->|[]%elem_of_nil]%elem_of_cons. exact Hk. }
    assert (E2 : second = (Raise duplicate_key_error, first.2)).
    { unfold second, entries, add_global_metadata. cbn [deepcopy_items deepcopy_value].
      rewrite E1. cbn [snd]. rewrite registry_insert.
      destruct (key_intersection [(KStr "k", VInt 1)]
                  (dict_set (KStr "k") (VInt 1) (registry σ))) eqn:Ek;
        [|reflexivity].
      exfalso. eapply (proj1 (key_intersection_nil _ _) Ek (KStr "k")); [left|].
      apply dec_stable. intros Hn. apply dict_get_None in Hn.
      rewrite dict_get_set in Hn. destruct (decide (KStr "k" = KStr "k")); congruence. }
    split; [now rewrite E1|]. split; [now rewrite E2|].
    unfold got. rewrite E2, E1. cbn [snd].
    unfold get_global_metadata.
    destruct (alloc _ _) as [l σ3] eqn:Ea.
    apply alloc_fresh in Ea as [Hfresh ->].
    exists l. split; [reflexivity|]. cbn [snd].
    rewrite registry_insert. unfold contents, dict_items.
    rewrite lookup_insert_eq. unfold seen_items.
    rewrite dict_get_map, dict_get_set.
    destruct (decide (KStr "k" = KStr "k")); [reflexivity | congruence].
Qed.

Lemma add_without_overwrite_all_or_nothing_witness :
  (Registry.add_global_metadata
     (Registry.NameDict [(Registry.KStr "gain", Registry.VInt 5)])
     Registry.VNone false Registry.initial_state).1 = Py.Return tt.
Proof.
  destruct (add_without_overwrite_all_or_nothing Registry.initial_state
              [(Registry.KStr "gain", Registry.VInt 5)] Registry.VNone
              ltac:(vm_compute; reflexivity) ltac:(reflexivity)
              ltac:(apply NoDup_singleton)) as (_ & H & _).
  apply H. intros k _. vm_compute. apply not_elem_of_nil.
Defined.

Lemma get_spec σ :
  exists l, σ !! l = None
    /\ get_global_metadata σ = (Return l, <[l := ODict (registry σ)]> σ).
Proof.
  unfold get_global_metadata.
  destruct (alloc _ _) as [l σ'] eqn:Ea.
  apply alloc_fresh in Ea as [Hfresh ->]. now exists l.
Qed.

(** Writing a dictionary at an identity that held no object, or a
    dictionary, changes nothing of what is read from another dictionary. *)
Lemma contents_insert_dict σ l l0 d :
  l <> l0 -> (forall xs, σ !! l <> Some (OList xs)) ->
  contents l0 (<[l := ODict d]> σ) = contents l0 σ.
Proof.
  intros Hne Hl. unfold contents, dict_items.
  rewrite lookup_insert_ne by assumption.
  now apply seen_items_insert_dict.
Qed.

Lemma contents_new_dict σ l d :
  σ !! l = None -> contents l (<[l := ODict d]> σ) = seen_items σ d.
Proof.
  intros Hl. unfold contents, dict_items. rewrite lookup_insert_eq.
  apply seen_items_insert_dict. intros xs. rewrite Hl. discriminate.
Qed.

(** With a live registry, the next [get_global_metadata] reads the
    contents of the registry. *)
Lemma get_reads_registry σ :
  exists l, (get_global_metadata σ).1 = Return l
    /\ contents l (get_global_metadata σ).2 = contents global_metadata σ.
Proof.
  destruct (get_spec σ) as (l & Hl & ->). exists l. cbn [fst snd].
  split; [reflexivity|]. now rewrite contents_new_dict.
Qed.

(** C1, as stated, fails: the registry holds a list under ["k"]; a caller
    takes the mapping returned by [get_global_metadata], appends to the
    list found in it, and the registry and the next
    [get_global_metadata] show the appended item. *)
Lemma get_shares_mutable_values :
  exists (σ : gmap positive Registry.obj) (l l0 : positive),
    Registry.wf σ = true
    /\ (Registry.get_global_metadata σ).1 = Py.Return l
    /\ dict_get (Registry.KStr "k")
         (Registry.dict_items l (Registry.get_global_metadata σ).2)
       = Some (Registry.VList l0)
    /\ Registry.contents Registry.global_metadata σ
       = [(Registry.KStr "k", Registry.SList [1])]
    /\ let σ' := Registry.list_append l0 2 (Registry.get_global_metadata σ).2 in
       Registry.contents Registry.global_metadata σ'
       = [(Registry.KStr "k", Registry.SList [1; 2])]
       /\ exists l', (Registry.get_global_metadata σ').1 = Py.Return l'
            /\ Registry.contents l' (Registry.get_global_metadata σ').2
               = [(Registry.KStr "k", Registry.SList [1; 2])].
Proof.
  exists (Registry.add_global_metadata
            (Registry.NameDict [(Registry.KStr "k", Registry.VList 5)])
            Registry.VNone false
            (<[5%positive := Registry.OList [1]]> Registry.initial_state)).2.
  eexists _, _. split; [vm_compute; reflexivity|].
  split; [vm_compute; reflexivity|].
  split; [vm_compute; reflexivity|].
  split; [vm_compute; reflexivity|].
  split; [vm_compute; reflexivity|].
  eexists. split; vm_compute; reflexivity.
Qed.

(** C1, amended: [get_global_metadata] returns a new dictionary object
    whose contents are those of the registry; assigning to a key of the
    returned dictionary or removing one changes neither the registry nor
    what a later [get_global_metadata] returns. *)
Theorem get_returns_a_new_mapping σ :
  wf σ = true ->
  exists l,
    (get_global_metadata σ).1 = Return l
    /\ σ !! l = None /\ l <> global_metadata
    /\ let σ1 := (get_global_metadata σ).2 in
       contents l σ1 = contents global_metadata σ
       /\ contents global_metadata σ1 = contents global_metadata σ
       /\ forall σ2,
            (exists k v, σ2 = dict_setitem l k v σ1)
            \/ (exists k, σ2 = dict_popitem l k σ1) ->
            registry σ2 = registry σ
            /\ contents global_metadata σ2 = contents global_metadata σ
            /\ exists l', (get_global_metadata σ2).1 = Return l'
                 /\ contents l' (get_global_metadata σ2).2
                    = contents global_metadata σ.
Proof.
  intros Hwf. destruct (get_spec σ) as (l & Hl & E). exists l.
  rewrite E. cbn [fst snd].
  destruct (wf_registry σ Hwf) as [Hg Hc].
  assert (Hne : l <> global_metadata) by congruence.
  assert (Hnl : forall xs, σ !! l <> Some (OList xs))
    by (intros xs; rewrite Hl; discriminate).
  split; [reflexivity|]. split; [assumption|]. split; [assumption|].
  split; [now apply contents_new_dict|].
  split; [now apply contents_insert_dict|].
  intros σ2 Hmut.
  assert (Hσ2 : exists d2, σ2 = <[l := ODict d2]> σ).
  { destruct Hmut as [(k & v & ->)|(k & ->)];
      unfold dict_setitem, dict_popitem; rewrite lookup_insert_eq;
      eexists; apply insert_insert_eq. }
  destruct Hσ2 as (d2 & ->).
  assert (Hreg : registry (<[l := ODict d2]> σ) = registry σ).
  { unfold registry, dict_items. now rewrite lookup_insert_ne. }
  assert (Hcon : contents global_metadata (<[l := ODict d2]> σ)
                 = contents global_metadata σ)
    by now apply contents_insert_dict.
  split; [assumption|]. split; [assumption|].
  destruct (get_reads_registry (<[l := ODict d2]> σ)) as (l' & H1 & H2).
  exists l'. split; [assumption|]. now rewrite H2.
Qed.

Lemma get_returns_a_new_mapping_witness :
  exists l : positive,
    (Registry.get_global_metadata Registry.initial_state).1 = Py.Return l
    /\ l <> Registry.global_metadata.
Proof.
  destruct (get_returns_a_new_mapping Registry.initial_state
              ltac:(vm_compute; reflexivity)) as (l & H1 & _ & H2 & _).
  exists l. split; assumption.
Defined.

End RegistryFacts.

(** ** Headers *)

Section HeaderFacts.
Import Py Registry Header.
Implicit Types (σ : gmap positive obj) (self : TextDataStorage).

Lemma join_snoc (sep x : string) (l : list string) :
  l <> [] -> join sep (l ++ [x]) = join sep l ++ sep ++ x.
Proof.
  induction l as [|a l IH]; [congruence|]. intros _.
  destruct l as [|b l]; [reflexivity|].
  change (join sep ((a :: b :: l) ++ [x]))
    with (a ++ sep ++ join sep ((b :: l) ++ [x])).
  rewrite IH by discriminate.
  change (join sep (a :: b :: l)) with (a ++ sep ++ join sep (b :: l)).
  now rewrite !append_assoc.
Qed.

Lemma join_cons_cons (sep a b : string) (l : list string) :
  join sep (a :: b :: l) = a ++ sep ++ join sep (b :: l).
Proof. reflexivity. Qed.

Lemma format0_field (arg : string) : format0 "{0}" arg = arg.
Proof. cbn. apply append_nil_r. Qed.

Lemma format0_line_sep (arg : string) : format0 (LF ++ "{0}") arg = LF ++ arg.
Proof. cbn. now rewrite append_nil_r. Qed.

Lemma format0_title (arg : string) :
  format0 "Saved Data on {0}" arg = "Saved Data on " ++ arg.
Proof. cbn. now rewrite append_nil_r. Qed.

Lemma text_create_header_lines self now σ metadata notes timestamp include :
  text_create_header self now σ metadata notes timestamp include =
  option_default "" (comments self)
  ++ join (LF ++ option_default "" (comments self))
       (descriptive_lines self now σ metadata notes timestamp
        ++ (if include
            then column_line (delimiter self) (text_column_headers self)
            else []))
  ++ LF.
Proof.
  unfold text_create_header, descriptive_lines.
  rewrite format0_field, format0_line_sep, format0_title.
  rewrite <- !app_assoc. reflexivity.
Qed.

(** With a column line, the header is the header without it followed by
    that line, which carries the comment prefix like every other line. *)
Lemma text_create_header_column self now σ metadata notes timestamp line :
  column_line (delimiter self) (text_column_headers self) = [line] ->
  text_create_header self now σ metadata notes timestamp true =
  text_create_header self now σ metadata notes timestamp false
  ++ option_default "" (comments self) ++ line ++ LF.
Proof.
  intros Hcol. rewrite !text_create_header_lines, Hcol, app_nil_r.
  rewrite join_snoc by discriminate.
  now rewrite !append_assoc.
Qed.

(** C5, as stated, fails: with the comment prefix ["# "] and the column
    headers given as the single string ["x,y"], the last line of the CSV
    header is ["# x,y"]. *)
Lemma csv_single_string_header_is_commented :
  Header.csv_create_header
    (Header.mk_text (Header.mk_base None None false Header.PNG) true
       (Some (Header.ColStr "x,y")) "%.18e" (Some "# ") "," None)
    (Py.mk_datetime 2021 1 30 11 30 59) Registry.initial_state None None None
  = Py.join Py.LF
      ["# Saved Data on 30.01.2021 at 11h30m59s"; "# "; "# Data:"; "# =====";
       "# x,y"] ++ Py.LF.
Proof. vm_compute. reflexivity. Qed.

(** C5, amended: when the column headers are a sequence of names, the CSV
    header is the descriptive header, which ends with a line feed, followed
    by the names joined by commas on a line without comment prefix; when
    they are one string, that string is the last line of the descriptive
    header and carries the comment prefix like the lines before it. *)
Theorem csv_column_header_line self now σ metadata notes timestamp :
  let descriptive :=
    text_create_header self now σ metadata notes
      (Some (option_default now timestamp)) false in
  (exists body, descriptive = body ++ LF)
  /\ (forall names, text_column_headers self = Some (ColTuple names) ->
       csv_create_header self now σ metadata notes timestamp =
       descriptive ++ join "," names ++ LF)
  /\ (forall s, text_column_headers self = Some (ColStr s) ->
       csv_create_header self now σ metadata notes timestamp =
       descriptive ++ option_default "" (comments self) ++ s ++ LF).
Proof.
  intros descriptive. split; [|split].
  - unfold descriptive. rewrite text_create_header_lines.
    eexists. rewrite <- append_assoc. reflexivity.
  - intros names Hn. unfold csv_create_header. now rewrite Hn.
  - intros s Hs. unfold csv_create_header. rewrite Hs.
    apply text_create_header_column. now rewrite Hs.
Qed.

Lemma join_two_more (sep a b : string) (l : list string) :
  l <> [] -> join sep (a :: b :: l) = a ++ sep ++ b ++ sep ++ join sep l.
Proof. destruct l; [congruence | reflexivity]. Qed.

Lemma lines_nonempty (a b c d : list string) (x : string) :
  ((a ++ b ++ x :: c) ++ d)%list <> [].
Proof. destruct a; [destruct b|]; discriminate. Qed.

(** The text header opens with the title line, which holds the time stamp,
    and a line that is empty up to the comment prefix. *)
Lemma text_header_title self now σ metadata notes timestamp include :
  exists rest,
    text_create_header self now σ metadata notes timestamp include =
    option_default "" (comments self)
    ++ "Saved Data on "
    ++ strftime "%d.%m.%Y at %Hh%Mm%Ss" (option_default now timestamp)
    ++ LF ++ option_default "" (comments self) ++ LF
    ++ rest.
Proof.
  rewrite text_create_header_lines. unfold descriptive_lines.
  cbn [app]. rewrite join_two_more by apply lines_nonempty.
  eexists. rewrite !append_assoc. cbn [String.append]. reflexivity.
Qed.

(** C6 fails for the binary variant: whatever the time stamp, the header
    of [NpyDataStorage] opens with the line ["Saved Data on 0"] followed by
    an empty line; the time stamp is not in it. *)
Theorem npy_title_line_lacks_timestamp (self : NpyDataStorage) now σ
    metadata notes timestamp :
  exists rest,
    npy_create_header self now σ metadata notes timestamp =
    "Saved Data on 0" ++ LF ++ LF ++ rest.
Proof.
  unfold npy_create_header.
  change (format0 ("Saved Data on " ++ str_int 0) ?x) with "Saved Data on 0".
  cbn [app].
  rewrite join_two_more
    by (rewrite <- (app_nil_r (_ ++ _)%list); apply lines_nonempty).
  eexists. rewrite !append_assoc. cbn [String.append]. reflexivity.
Qed.

End HeaderFacts.

(** ** Numbers in headers *)

Section NumberFacts.
Import Py Shapes.

Lemma ge_pow10_spec (num den k : Z) :
  ge_pow10 num den k = true <-> ratio_ge_pow10 num den k.
Proof.
  unfold ge_pow10, ratio_ge_pow10.
  destruct (Z.leb_spec 0 k).
  - rewrite Z.max_r, Z.max_l by lia. rewrite Z.pow_0_r, Z.mul_1_r.
    apply Z.leb_le.
  - rewrite Z.max_l, Z.max_r by lia. rewrite Z.pow_0_r, Z.mul_1_r.
    apply Z.leb_le.
Qed.

Lemma pow10_pos (k : Z) : 0 <= k -> 0 < 10 ^ k.
Proof. intros. apply Z.pow_pos_nonneg; lia. Qed.

(** The comparison at a common scale. *)
Lemma ratio_ge_pow10_scale (num den j M : Z) :
  0 <= M -> 0 <= M + j ->
  ratio_ge_pow10 num den j <-> den * 10 ^ (M + j) <= num * 10 ^ M.
Proof.
  intros HM HMj. unfold ratio_ge_pow10.
  destruct (Z.le_gt_cases 0 j) as [Hj|Hj].
  - rewrite Z.max_r, Z.max_l by lia. rewrite Z.pow_0_r, Z.mul_1_r.
    rewrite (Z.add_comm M j), Z.pow_add_r, Z.mul_assoc by lia.
    pose proof (Z.mul_le_mono_pos_r (den * 10 ^ j) num (10 ^ M)
                  (pow10_pos M HM)).
    tauto.
  - rewrite Z.max_l, Z.max_r by lia. rewrite Z.pow_0_r, Z.mul_1_r.
    replace (num * 10 ^ M) with (num * 10 ^ (- j) * 10 ^ (M + j)).
    2:{ rewrite <- Z.mul_assoc, <- Z.pow_add_r by lia. do 2 f_equal. lia. }
    pose proof (Z.mul_le_mono_pos_r den (num * 10 ^ (- j)) (10 ^ (M + j))
                  (pow10_pos (M + j) HMj)).
    tauto.
Qed.

Lemma floor_log10_spec (num den : Z) :
  0 < num -> 0 < den ->
  ratio_ge_pow10 num den (floor_log10 num den)
  /\ ~ ratio_ge_pow10 num den (floor_log10 num den + 1).
Proof.
  intros Hn Hd. unfold floor_log10.
  pose proof (ndigits_spec num ltac:(lia)) as [Hn1 Hn2].
  pose proof (ndigits_spec den ltac:(lia)) as [Hd1 Hd2].
  pose proof (ndigits_pos num) as Hpn.
  pose proof (ndigits_pos den) as Hpd.
  set (dn := Z.of_nat (ndigits num)) in *.
  set (dd := Z.of_nat (ndigits den)) in *.
  assert (Hdn : 1 <= dn) by (unfold dn; lia).
  assert (Hdd : 1 <= dd) by (unfold dd; lia).
  set (k := dn - dd).
  set (M := dn + dd + 2).
  assert (Hlow : ratio_ge_pow10 num den (k - 1)).
  { apply (ratio_ge_pow10_scale num den (k - 1) M); [unfold M; lia.. |].
    apply Z.le_trans with (10 ^ dd * 10 ^ (M + (k - 1))).
    { apply Z.mul_le_mono_nonneg_r; [|lia].
      apply Z.lt_le_incl, pow10_pos. unfold M, k. lia. }
    rewrite <- Z.pow_add_r by (unfold M, k; lia).
    replace (dd + (M + (k - 1))) with ((dn - 1) + M) by (unfold M, k; lia).
    rewrite Z.pow_add_r by (unfold M; lia).
    apply Z.mul_le_mono_nonneg_r; [|assumption].
    apply Z.lt_le_incl, pow10_pos. unfold M. lia. }
  assert (Hhigh : ~ ratio_ge_pow10 num den (k + 1)).
  { intros H.
    apply (ratio_ge_pow10_scale num den (k + 1) M) in H; [|unfold M, k; lia..].
    assert (H1 : num * 10 ^ M < 10 ^ dn * 10 ^ M).
    { apply Z.mul_lt_mono_pos_r; [apply pow10_pos; unfold M; lia | assumption]. }
    assert (H2 : 10 ^ (dd - 1) * 10 ^ (M + (k + 1)) <= den * 10 ^ (M + (k + 1))).
    { apply Z.mul_le_mono_nonneg_r; [|assumption].
      apply Z.lt_le_incl, pow10_pos. unfold M, k. lia. }
    rewrite <- Z.pow_add_r in H1 by (unfold M; lia).
    rewrite <- Z.pow_add_r in H2 by (unfold M, k; lia).
    replace (dd - 1 + (M + (k + 1))) with (dn + M) in H2 by (unfold M, k; lia).
    lia. }
  fold k. destruct (ge_pow10 num den k) eqn:Ek.
  - split; [now apply ge_pow10_spec | assumption].
  - split; [assumption|]. replace (k - 1 + 1) with k by lia.
    intros H. apply ge_pow10_spec in H. congruence.
Qed.

Lemma round_half_even_range (num den lo hi : Z) :
  0 < den -> den * lo <= num < den * hi ->
  lo <= round_half_even num den <= hi.
Proof.
  intros Hd [Hlo Hhi]. unfold round_half_even.
  assert (Hq1 : lo <= num / den) by (apply Z.div_le_lower_bound; lia).
  assert (Hq2 : num / den < hi) by (apply Z.div_lt_upper_bound; lia).
  destruct (2 * (num mod den) <? den); [lia|].
  destruct (den <? 2 * (num mod den)); [lia|].
  destruct (Z.even (num / den)); lia.
Qed.

Lemma sci_digits_range (p : nat) (num den : Z) :
  0 < num -> 0 < den ->
  10 ^ Z.of_nat p <= (sci_digits p num den).1 < 10 ^ Z.of_nat (S p).
Proof.
  intros Hn Hd. unfold sci_digits.
  destruct (floor_log10_spec num den Hn Hd) as [Hge Hlt].
  set (x := floor_log10 num den) in *.
  set (s := Z.of_nat p - x).
  assert (Hpow : 10 ^ Z.of_nat p < 10 ^ Z.of_nat (S p)).
  { apply Z.pow_lt_mono_r; lia. }
  assert (Hr : 10 ^ Z.of_nat p <=
               (if 0 <=? s then round_half_even (num * 10 ^ s) den
                else round_half_even num (den * 10 ^ (- s)))
               <= 10 ^ Z.of_nat (S p)).
  { destruct (Z.leb_spec 0 s) as [Hs|Hs].
    - apply round_half_even_range; [assumption|]. split.
      + apply (ratio_ge_pow10_scale num den x s) in Hge; [|unfold s; lia..].
        replace (s + x) with (Z.of_nat p) in Hge by (unfold s; lia).
        assumption.
      + apply Z.nle_gt. intros H. apply Hlt.
        apply (ratio_ge_pow10_scale num den (x + 1) s); [unfold s; lia..|].
        replace (s + (x + 1)) with (Z.of_nat (S p)) by (unfold s; lia).
        assumption.
    - apply round_half_even_range.
      { apply Z.mul_pos_pos; [assumption | apply pow10_pos; lia]. }
      rewrite <- !Z.mul_assoc, <- !Z.pow_add_r by lia.
      replace (- s + Z.of_nat p) with (0 + x) by (unfold s; lia).
      replace (- s + Z.of_nat (S p)) with (0 + (x + 1)) by (unfold s; lia).
      split.
      + apply (ratio_ge_pow10_scale num den x 0) in Hge; [|unfold s in Hs; lia..].
        rewrite Z.pow_0_r, Z.mul_1_r in Hge. assumption.
      + apply Z.nle_gt. intros H. apply Hlt.
        apply (ratio_ge_pow10_scale num den (x + 1) 0); [unfold s in Hs; lia..|].
        rewrite Z.pow_0_r, Z.mul_1_r. assumption. }
  destruct (Z.eqb_spec
              (if 0 <=? s then round_half_even (num * 10 ^ s) den
               else round_half_even num (den * 10 ^ (- s)))
              (10 ^ Z.of_nat (S p))) as [E|E]; cbn [fst]; lia.
Qed.

Lemma fixed_digits_head (p : nat) : forall n : Z,
  fixed_digits (S p) n =
  String (digit_char (n / 10 ^ Z.of_nat p)) (fixed_digits p n).
Proof.
  induction p as [|p IH]; intros n.
  - cbn [fixed_digits String.append]. now rewrite Z.pow_0_r, Z.div_1_r.
  - change (fixed_digits (S (S p)) n)
      with (fixed_digits (S p) (n / 10) ++ String (digit_char n) "").
    rewrite IH. cbn [String.append fixed_digits].
    rewrite Nat2Z.inj_succ, Z.pow_succ_r by lia.
    rewrite Z.div_div by (try apply pow10_pos; lia).
    reflexivity.
Qed.

Lemma digit_char_nonzero (d : Z) :
  1 <= d <= 9 -> digit_char d <> "0"%char.
Proof.
  intros Hd H. apply (f_equal nat_of_ascii) in H.
  unfold digit_char in H. rewrite Z.mod_small in H by lia.
  rewrite nat_ascii_embedding in H by lia.
  change (nat_of_ascii "0") with 48%nat in H. lia.
Qed.

Lemma leading_digit (p : nat) (n : Z) :
  10 ^ Z.of_nat p <= n < 10 ^ Z.of_nat (S p) ->
  1 <= n / 10 ^ Z.of_nat p <= 9.
Proof.
  intros [Hlo Hhi].
  rewrite Nat2Z.inj_succ, Z.pow_succ_r in Hhi by lia.
  pose proof (pow10_pos (Z.of_nat p) ltac:(lia)) as Hpos.
  split.
  - apply Z.div_le_lower_bound; lia.
  - assert (n / 10 ^ Z.of_nat p < 10); [|lia].
    apply Z.div_lt_upper_bound; lia.
Qed.

(** [str(n)] for [n >= 1]: digits only, the first one not [0]. *)
Lemma str_nat_shape (n : Z) :
  0 <= n ->
  exists d rest,
    str_nat n = String d rest
    /\ all_chars is_digit (String d rest) = true
    /\ (n <> 0 -> d <> "0"%char).
Proof.
  intros Hn. unfold str_nat.
  pose proof (ndigits_pos n) as Hp.
  destruct (ndigits n) as [|p] eqn:Ep; [lia|].
  exists (digit_char (n / 10 ^ Z.of_nat p)), (fixed_digits p n).
  split; [apply fixed_digits_head|]. split.
  - rewrite <- fixed_digits_head. apply fixed_digits_all_digits.
  - intros Hnz. apply digit_char_nonzero, leading_digit.
    pose proof (ndigits_spec n ltac:(lia)) as H. rewrite Ep in H.
    replace (Z.of_nat (S p) - 1) with (Z.of_nat p) in H by lia.
    exact H.
Qed.

(** *** Digits and the number they denote *)

Lemma decimal_value_from_app (a b : string) : forall acc : Z,
  decimal_value_from acc (a ++ b) =
  decimal_value_from (decimal_value_from acc a) b.
Proof.
  induction a as [|c a IH]; intros acc; [reflexivity|].
  cbn [String.append decimal_value_from]. apply IH.
Qed.

Lemma digit_char_value (d : Z) :
  Z.of_nat (nat_of_ascii (digit_char d)) - 48 = d mod 10.
Proof.
  unfold digit_char.
  pose proof (Z.mod_pos_bound d 10 ltac:(lia)).
  rewrite nat_ascii_embedding by lia. lia.
Qed.

Lemma decimal_value_from_fixed (w : nat) : forall acc n : Z,
  decimal_value_from acc (fixed_digits w n) =
  acc * 10 ^ Z.of_nat w + n mod 10 ^ Z.of_nat w.
Proof.
  induction w as [|w IH]; intros acc n.
  - cbn [fixed_digits decimal_value_from].
    change (10 ^ Z.of_nat 0) with 1. rewrite Z.mod_1_r. lia.
  - cbn [fixed_digits]. rewrite decimal_value_from_app, IH.
    cbn [decimal_value_from]. rewrite digit_char_value.
    rewrite Nat2Z.inj_succ, Z.pow_succ_r by lia.
    rewrite (Z.rem_mul_r n 10 (10 ^ Z.of_nat w))
      by (try apply pow10_pos; lia).
    ring.
Qed.

Lemma decimal_value_fixed (w : nat) (n : Z) :
  0 <= n < 10 ^ Z.of_nat w -> decimal_value (fixed_digits w n) = n.
Proof.
  intros Hn. unfold decimal_value.
  rewrite decimal_value_from_fixed, Z.mod_small by assumption. lia.
Qed.

Lemma below_pow_ndigits (n : Z) : 0 <= n -> n < 10 ^ Z.of_nat (ndigits n).
Proof.
  intros Hn. destruct (Z.eq_dec n 0) as [->|Hnz]; [reflexivity|].
  now destruct (ndigits_spec n ltac:(lia)).
Qed.

Lemma decimal_value_str_nat (n : Z) : 0 <= n -> decimal_value (str_nat n) = n.
Proof.
  intros Hn. apply decimal_value_fixed.
  split; [assumption | now apply below_pow_ndigits].
Qed.

Lemma decimal_value_zfill (w : nat) (n : Z) :
  0 <= n -> decimal_value (zfill w n) = n.
Proof.
  intros Hn. apply decimal_value_fixed. split; [assumption|].
  apply Z.lt_le_trans with (10 ^ Z.of_nat (ndigits n));
    [now apply below_pow_ndigits|].
  apply Z.pow_le_mono_r; lia.
Qed.

(** *** Rounding *)

Lemma round_half_even_nearest (num den : Z) :
  0 < den -> nearest_even num den (round_half_even num den).
Proof.
  intros Hd. unfold nearest_even, round_half_even.
  pose proof (Z.div_mod num den ltac:(lia)) as Hdm.
  pose proof (Z.mod_pos_bound num den Hd) as Hr.
  set (q := num / den) in *. set (r := num mod den) in *.
  assert (Eq0 : num - q * den = r) by lia.
  assert (Eq1 : num - (q + 1) * den = r - den) by lia.
  destruct (Z.ltb_spec (2 * r) den) as [H1|H1].
  - rewrite Eq0. split; lia.
  - destruct (Z.ltb_spec den (2 * r)) as [H2|H2].
    + rewrite Eq1. split; lia.
    + destruct (Z.even q) eqn:Ev.
      * rewrite Eq0. split; [lia | now intros _].
      * rewrite Eq1. split; [lia|]. intros _.
        now rewrite Z.add_1_r, Z.even_succ, <- Z.negb_even, Ev.
Qed.

(** The digits that [sci_digits] gives are the nearest ones at the
    exponent that it gives, also when rounding carried into a new digit. *)
Lemma sci_digits_nearest (p : nat) (num den : Z) :
  0 < num -> 0 < den ->
  nearest_even
    (num * 10 ^ Z.max 0 (Z.of_nat p - (sci_digits p num den).2))
    (den * 10 ^ Z.max 0 ((sci_digits p num den).2 - Z.of_nat p))
    (sci_digits p num den).1.
Proof.
  intros Hn Hd. unfold sci_digits.
  destruct (floor_log10_spec num den Hn Hd) as [_ Hlt].
  set (x := floor_log10 num den) in *.
  set (s := Z.of_nat p - x).
  set (A := num * 10 ^ Z.max 0 s).
  set (B := den * 10 ^ Z.max 0 (- s)).
  assert (HB : 0 < B).
  { apply Z.mul_pos_pos; [assumption | apply pow10_pos; lia]. }
  assert (En : (if 0 <=? s then round_half_even (num * 10 ^ s) den
                else round_half_even num (den * 10 ^ (- s)))
               = round_half_even A B).
  { unfold A, B. destruct (Z.leb_spec 0 s).
    - rewrite (Z.max_r 0 s), (Z.max_l 0 (- s)) by lia.
      now rewrite Z.pow_0_r, Z.mul_1_r.
    - rewrite (Z.max_l 0 s), (Z.max_r 0 (- s)) by lia.
      now rewrite Z.pow_0_r, Z.mul_1_r. }
  rewrite En.
  pose proof (round_half_even_nearest A B HB) as Hnear.
  destruct (Z.eqb_spec (round_half_even A B) (10 ^ Z.of_nat (S p))) as [E|E];
    cbn [fst snd].
  - rewrite E in Hnear. destruct Hnear as [Hnear _].
    assert (Hup : A < 10 ^ Z.of_nat (S p) * B).
    { apply Z.nle_gt. intros H. apply Hlt. unfold A, B in H.
      destruct (Z.leb_spec 0 s) as [Hs|Hs].
      - rewrite (Z.max_r 0 s), (Z.max_l 0 (- s)) in H by lia.
        rewrite Z.pow_0_r, Z.mul_1_r in H.
        apply (ratio_ge_pow10_scale num den (x + 1) s); [unfold s in *; lia..|].
        replace (s + (x + 1)) with (Z.of_nat (S p)) by (unfold s; lia). lia.
      - rewrite (Z.max_l 0 s), (Z.max_r 0 (- s)) in H by lia.
        rewrite Z.pow_0_r, Z.mul_1_r in H.
        apply (ratio_ge_pow10_scale num den (x + 1) 0); [unfold s in *; lia..|].
        rewrite Z.pow_0_r, Z.mul_1_r.
        replace (0 + (x + 1)) with (Z.of_nat (S p) + - s) by (unfold s; lia).
        rewrite Z.pow_add_r by lia. lia. }
    rewrite Nat2Z.inj_succ, Z.pow_succ_r in Hnear, Hup by lia.
    set (P := 10 ^ Z.of_nat p) in *.
    destruct (Z.le_gt_cases 1 s) as [Hs|Hs].
    + assert (EA : A = 10 * (num * 10 ^ Z.max 0 (Z.of_nat p - (x + 1)))).
      { unfold A. rewrite Z.max_r by lia.
        rewrite (Z.max_r 0 (Z.of_nat p - (x + 1))) by (unfold s in Hs; lia).
        replace s with (Z.succ (Z.of_nat p - (x + 1))) by (unfold s; lia).
        rewrite Z.pow_succ_r by (unfold s in Hs; lia). ring. }
      assert (EB : den * 10 ^ Z.max 0 (x + 1 - Z.of_nat p) = B).
      { unfold B. rewrite !Z.max_l by (unfold s in *; lia). reflexivity. }
      rewrite EB.
      set (A' := num * 10 ^ Z.max 0 (Z.of_nat p - (x + 1))) in *.
      unfold nearest_even.
      remember (P * B) as u eqn:Eu.
      replace (10 * P * B) with (10 * u) in Hnear, Hup by (rewrite Eu; ring).
      split; lia.
    + assert (EA : num * 10 ^ Z.max 0 (Z.of_nat p - (x + 1)) = A).
      { unfold A. rewrite !Z.max_l by (unfold s in *; lia). reflexivity. }
      assert (EB : den * 10 ^ Z.max 0 (x + 1 - Z.of_nat p) = 10 * B).
      { unfold B. rewrite !Z.max_r by (unfold s in *; lia).
        replace (x + 1 - Z.of_nat p) with (Z.succ (- s)) by (unfold s; lia).
        rewrite Z.pow_succ_r by lia. ring. }
      rewrite EA, EB. unfold nearest_even.
      remember (P * B) as u eqn:Eu.
      replace (10 * P * B) with (10 * u) in Hnear, Hup by (rewrite Eu; ring).
      replace (P * (10 * B)) with (10 * u) by (rewrite Eu; ring).
      split; lia.
  - replace (x - Z.of_nat p) with (- s) by (unfold s; lia).
    exact Hnear.
Qed.

(** *** Conversion to a double *)

Lemma to_double_binary64 (f : spec_float) :
  valid_binary 53 1024 f = true -> to_double f = f.
Proof.
  destruct f as [| | |s m e]; try reflexivity.
  cbn [valid_binary]. unfold bounded, canonical_mantissa.
  intros [Hc%Z.eqb_eq He]%andb_true_iff.
  unfold to_double, binary_round, shl_align.
  rewrite Hc, Z.sub_diag.
  unfold binary_round_aux, shr_fexp. cbn [Zdigits2 shr_record_of_loc].
  rewrite Hc, Z.sub_diag.
  cbn [shr shr_m loc_of_shr_record round_nearest_even Zdigits2
       shr_record_of_loc].
  rewrite Hc, Z.sub_diag. cbn [shr shr_m].
  now rewrite He.
Qed.

(** *** The text of a number *)

(** [format_e 18] on a finite float. *)
Lemma format_e_finite (s : bool) (m : positive) (e : Z) :
  exists (N x : Z) (d : ascii) (frac xdigits : string),
    format_e 18 (S754_finite s m e) =
    (if s then "-" else "") ++ String d ("." ++ frac) ++ "e"
    ++ (if x <? 0 then "-" else "+") ++ xdigits
    /\ 10 ^ 18 <= N < 10 ^ 19
    /\ nearest_even
         (Z.pos m * 2 ^ Z.max 0 e * 10 ^ Z.max 0 (18 - x))
         (2 ^ Z.max 0 (- e) * 10 ^ Z.max 0 (x - 18)) N
    /\ all_chars is_digit (String d frac) = true
    /\ String.length frac = 18%nat
    /\ decimal_value (String d frac) = N
    /\ d <> "0"%char
    /\ all_chars is_digit xdigits = true
    /\ (2 <= String.length xdigits)%nat
    /\ decimal_value xdigits = Z.abs x.
Proof.
  unfold format_e.
  assert (Er : float_ratio m e = (Z.pos m * 2 ^ Z.max 0 e, 2 ^ Z.max 0 (- e))).
  { unfold float_ratio. destruct (Z.leb_spec 0 e).
    - now rewrite Z.max_r, Z.max_l by lia.
    - rewrite Z.max_l, Z.max_r by lia. now rewrite Z.pow_0_r, Z.mul_1_r. }
  rewrite Er.
  set (num := Z.pos m * 2 ^ Z.max 0 e). set (den := 2 ^ Z.max 0 (- e)).
  assert (Hnum : 0 < num).
  { apply Z.mul_pos_pos; [lia | apply Z.pow_pos_nonneg; lia]. }
  assert (Hden : 0 < den) by (apply Z.pow_pos_nonneg; lia).
  pose proof (sci_digits_range 18 num den Hnum Hden) as Hrange.
  pose proof (sci_digits_nearest 18 num den Hnum Hden) as Hnear.
  destruct (sci_digits 18 num den) as [n x]. cbn [fst snd] in Hrange, Hnear.
  exists n, x, (digit_char (n / 10 ^ Z.of_nat 18)), (fixed_digits 18 n),
    (zfill 2 (Z.abs x)).
  split; [|split; [|split; [|split; [|split; [|split; [|split;
    [|split; [|split]]]]]]]].
  - unfold mantissa, exponent. rewrite fixed_digits_head. reflexivity.
  - exact Hrange.
  - exact Hnear.
  - rewrite <- fixed_digits_head. apply fixed_digits_all_digits.
  - apply fixed_digits_length.
  - rewrite <- fixed_digits_head. apply decimal_value_fixed.
    change (Z.of_nat 19) with (Z.of_nat (S 18)). lia.
  - now apply digit_char_nonzero, leading_digit.
  - apply fixed_digits_all_digits.
  - unfold zfill. rewrite fixed_digits_length. lia.
  - apply decimal_value_zfill. lia.
Qed.

(** [str(n)]: the digits of [n], the first one not [0] unless [n] is. *)
Lemma str_nat_digits (n : Z) :
  0 <= n ->
  all_chars is_digit (str_nat n) = true
  /\ decimal_value (str_nat n) = n
  /\ (str_nat n = "0" \/ exists d rest, str_nat n = String d rest /\ d <> "0"%char).
Proof.
  intros Hn. split; [apply fixed_digits_all_digits|].
  split; [now apply decimal_value_str_nat|].
  destruct (Z.eq_dec n 0) as [->|Hnz]; [now left|]. right.
  destruct (str_nat_shape n Hn) as (d & rest & E & _ & Hd).
  exists d, rest. split; [exact E | now apply Hd].
Qed.

End NumberFacts.

Section HeaderNumberFacts.
Import Py Registry Header Shapes.

(** C9, as stated, fails: the float [0.1] is written with nineteen
    significant digits, one before the point and eighteen after it. *)
Lemma float_is_written_with_19_digits :
  Header.format_value Registry.initial_state
    (Registry.VFloat (S754_finite false 7205759403792794 (-56)))
  = "1.000000000000000056e-01"
  /\ Header.mantissa_digits
       (Header.format_value Registry.initial_state
          (Registry.VFloat (S754_finite false 7205759403792794 (-56))))
     = 19%nat.
Proof. split; vm_compute; reflexivity. Qed.

(** C9, amended: in the metadata lines of every header a float is written
    after its conversion to a double, which leaves a double, and so every
    Python [float], as it is.  A finite double other than zero, [m * 2^e] up to its sign, is
    written in scientific notation with nineteen significant digits: a
    minus sign when it is negative, one digit that is not [0], the point,
    exactly eighteen digits, [e], the sign of the decimal exponent [x] and
    at least two digits that denote its absolute value; the nineteen
    digits denote the integer nearest to [m * 2^e * 10^(18 - x)], the
    even one in a tie.  A zero is written [0.000000000000000000e+00] after
    its sign, an infinity [inf] or [-inf], a NaN [nan].  An integer is
    written as the decimal digits of its absolute value, without leading
    zeros, after a minus sign when it is negative, and with nothing
    else. *)
Theorem header_number_rendering (σ : gmap positive obj) :
  (forall f : spec_float,
     match to_double f with
     | S754_zero s =>
         format_value σ (VFloat f) =
         (if s then "-" else "") ++ "0.000000000000000000e+00"
     | S754_infinity s =>
         format_value σ (VFloat f) = (if s then "-inf" else "inf")
     | S754_nan => format_value σ (VFloat f) = "nan"
     | S754_finite s m e =>
         exists (N x : Z) (d : ascii) (frac xdigits : string),
           format_value σ (VFloat f) =
           (if s then "-" else "") ++ String d ("." ++ frac) ++ "e"
           ++ (if x <? 0 then "-" else "+") ++ xdigits
           /\ 10 ^ 18 <= N < 10 ^ 19
           /\ nearest_even
                (Z.pos m * 2 ^ Z.max 0 e * 10 ^ Z.max 0 (18 - x))
                (2 ^ Z.max 0 (- e) * 10 ^ Z.max 0 (x - 18)) N
           /\ all_chars is_digit (String d frac) = true
           /\ String.length frac = 18%nat
           /\ decimal_value (String d frac) = N
           /\ d <> "0"%char
           /\ all_chars is_digit xdigits = true
           /\ (2 <= String.length xdigits)%nat
           /\ decimal_value xdigits = Z.abs x
     end)
  /\ (forall f : spec_float, valid_binary 53 1024 f = true -> to_double f = f)
  /\ (forall z : Z,
       exists ds : string,
         format_value σ (VInt z) = (if z <? 0 then "-" else "") ++ ds
         /\ all_chars is_digit ds = true
         /\ decimal_value ds = Z.abs z
         /\ (ds = "0" \/ exists d rest, ds = String d rest /\ d <> "0"%char)).
Proof.
  split; [|split].
  - intros f. cbn [format_value].
    destruct (to_double f) as [s|s| |s m e].
    + destruct s; reflexivity.
    + reflexivity.
    + reflexivity.
    + apply format_e_finite.
  - exact to_double_binary64.
  - intros z. cbn [format_value]. unfold str_int.
    destruct (Z.ltb_spec z 0) as [Hz|Hz].
    + exists (str_nat (- z)). split; [reflexivity|].
      rewrite Z.abs_neq by lia. apply str_nat_digits. lia.
    + exists (str_nat z). split; [reflexivity|].
      rewrite Z.abs_eq by lia. now apply str_nat_digits.
Qed.

End HeaderNumberFacts.

(** ** Saving data *)

Section StorageFacts.
Import Py Registry Header Storage.
Implicit Types (E : env) (σ : gmap positive obj) (fs : gmap string string).

Lemma before_last_dot_spec (s h : string) :
  before_last_dot s = Some h -> exists r, s = h ++ "." ++ r.
Proof.
  revert h. induction s as [|c s IH]; intros h; simpl; [discriminate|].
  destruct (before_last_dot s) as [h'|].
  - intros [= <-]. destruct (IH h' eq_refl) as (r & ->). now exists r.
  - destruct (Ascii.eqb_spec c ".") as [->|]; [|discriminate].
    intros [= <-]. now exists s.
Qed.

(** The sidecar file is never the data file itself. *)
Lemma sidecar_path_differs (p : string) :
  rsplit_dot_head p ++ "_metadata.txt" <> p.
Proof.
  unfold rsplit_dot_head.
  destruct (before_last_dot p) as [h|] eqn:Eh.
  - destruct (before_last_dot_spec p h Eh) as (r & ->).
    intros H. apply String.app_inj in H. discriminate.
  - intros H. apply (f_equal String.length) in H.
    rewrite append_length in H. simpl in H. lia.
Qed.

(** [TextDataStorage.save_data] on an array of more than two dimensions
    raises, wherever the call stops. *)
Lemma text_save_data_beyond_2d E (self : TextDataStorage) σ fs data metadata
    filename nametag timestamp notes :
  (2 < ndim data)%nat ->
  exists e,
    (text_save_data E self σ fs data metadata filename nametag timestamp
       notes).1.1 = Raise e.
Proof.
  intros Hdim. unfold text_save_data, new_data_file, write_file.
  destruct (create_file_path E (text_base self)
              (option_default (now E) timestamp) filename nametag)
    as [p|e]; [|now exists e].
  destruct (writable E p) eqn:Hw; [|now exists (OSError p)].
  unfold append_data_file. cbn [_current_data_file].
  rewrite lookup_insert_eq, Hw.
  destruct (Nat.eqb_spec (ndim data) 1) as [H1|_]; [lia|].
  unfold np_savetxt.
  destruct (Nat.eqb_spec (ndim data) 0) as [H0|_]; [lia|].
  destruct (Nat.ltb_spec 2 (ndim data)) as [_|H2]; [|lia].
  now exists not_1d_or_2d.
Qed.

(** Whether [NpyDataStorage.save_data] raises, and what, is decided
    before the array is looked at. *)
Lemma npy_save_data_error E (self : NpyDataStorage) σ fs data metadata notes
    filename nametag timestamp e :
  (npy_save_data E self σ fs data metadata notes filename nametag timestamp).1
    = Raise e <->
  let ts := option_default (now E) timestamp in
  match create_file_path E (npy_base self) ts filename nametag with
  | Raise e' => e = e'
  | Return p =>
      if writable E p
      then writable E (rsplit_dot_head p ++ "_metadata.txt") = false
           /\ e = OSError (rsplit_dot_head p ++ "_metadata.txt")
      else e = OSError p
  end.
Proof.
  unfold npy_save_data, write_file. cbn zeta.
  destruct (create_file_path E (npy_base self)
              (option_default (now E) timestamp) filename nametag) as [p|e'].
  - destruct (writable E p); cbn [fst].
    + destruct (writable E (rsplit_dot_head p ++ "_metadata.txt")); cbn [fst].
      * split; [discriminate | intros [? _]; discriminate].
      * split; [intros [= <-]; now split | now intros [_ ->]].
    + split; [now intros [= <-] | now intros ->].
  - cbn [fst]. split; [now intros [= <-] | now intros ->].
Qed.

(** C4, as stated, fails: with a 2 x 2 x 2 array [save_data] of the binary
    backend and of the text backend raise [AttributeError], which is no
    error about the shape: an array of one dimension gives the same
    outcome. *)
Lemma beyond_two_dimensions_is_no_shape_error :
  let npy := Header.npy_init None (Header.base_init None None false Header.PNG) in
  let text :=
    Header.mk_text (Header.base_init None (Some "dat") false Header.PNG)
      false None "%.18e" (Some "# ") "," None in
  let cube := Storage.mk_ndarray [2; 2; 2]%nat (replicate 8 (S754_zero false)) in
  let row := Storage.mk_ndarray [2]%nat (replicate 2 (S754_zero false)) in
  Storage.npy_save_data (Storage.test_env []) npy Registry.initial_state ∅ cube
    None None None (Some "run1") None
  = (Py.Raise (Py.AttributeError "create_file_path"), ∅)
  /\ Storage.npy_save_data (Storage.test_env []) npy Registry.initial_state ∅ row
       None None None (Some "run1") None
     = (Py.Raise (Py.AttributeError "create_file_path"), ∅)
  /\ Storage.text_save_data (Storage.test_env []) text Registry.initial_state ∅
       cube None None (Some "run1") None None
     = (Py.Raise (Py.AttributeError "create_file_path"), text, ∅)
  /\ (Storage.npy_save_data (Storage.test_env []) npy Registry.initial_state ∅
        cube None None None (Some "run1") None).1
     <> Py.Raise Storage.not_1d_or_2d.
Proof.
  split; [reflexivity|]. split; [reflexivity|]. split; [reflexivity|].
  discriminate.
Qed.

(** C4, amended: for an array of more than two dimensions,
    [append_data_file] of the text backend and of the CSV backend, the
    step of [save_data] that writes the rows, raises and leaves every file
    as it was, and what it raises on a file that is there and can be
    opened is the [ValueError] of [np.savetxt]; [save_data] of these
    backends raises; the binary backend has no check of the dimensions:
    whether its [save_data] raises, and what, is the same for every other
    array. *)
Theorem save_data_beyond_two_dimensions E (tself : TextDataStorage)
    (nself : NpyDataStorage) σ fs data metadata notes filename nametag
    timestamp :
  (2 < ndim data)%nat ->
  (forall file_path,
     (exists e, append_data_file E tself fs data file_path = (Raise e, fs))
     /\ (forall p old,
           Shapes.append_target tself file_path = Some p ->
           fs !! p = Some old -> writable E p = true ->
           append_data_file E tself fs data file_path
           = (Raise not_1d_or_2d, fs)))
  /\ (exists e,
       (text_save_data E tself σ fs data metadata filename nametag timestamp
          notes).1.1 = Raise e)
  /\ (forall data' e,
       (npy_save_data E nself σ fs data metadata notes filename nametag
          timestamp).1 = Raise e
       <-> (npy_save_data E nself σ fs data' metadata notes filename nametag
              timestamp).1 = Raise e).
Proof.
  intros Hdim.
  assert (Hsave : forall old,
    (if (ndim data =? 1)%nat
     then np_savetxt E old (expand_dims0 data) (delimiter tself)
            (number_format tself)
     else np_savetxt E old data (delimiter tself) (number_format tself))
    = Raise not_1d_or_2d).
  { intros old.
    destruct (Nat.eqb_spec (ndim data) 1) as [H1|_]; [lia|].
    unfold np_savetxt.
    destruct (Nat.eqb_spec (ndim data) 0) as [H0|_]; [lia|].
    destruct (Nat.ltb_spec 2 (ndim data)) as [_|H2]; [reflexivity | lia]. }
  split; [|split].
  - intros file_path.
    assert (Hcore : forall path,
      Shapes.append_target tself file_path = Some path ->
      (exists e, append_data_file E tself fs data file_path = (Raise e, fs))
      /\ (forall p old,
            Some path = Some p -> fs !! p = Some old -> writable E p = true ->
            append_data_file E tself fs data file_path
            = (Raise not_1d_or_2d, fs))).
    { intros path Hpath. unfold append_data_file.
      unfold Shapes.append_target in Hpath. cbn zeta. rewrite Hpath.
      destruct (fs !! path) as [old|] eqn:Eold.
      - rewrite (Hsave old).
        destruct (writable E path) eqn:Hw.
        + split; [now eexists|]. intros p old' [= <-] _ _. reflexivity.
        + split; [now eexists|]. intros p old' [= <-] _ Hw'. congruence.
      - split; [now eexists|]. intros p old' [= <-] Hold. congruence. }
    destruct (Shapes.append_target tself file_path) as [path|] eqn:Epath.
    + exact (Hcore path eq_refl).
    + split; [|discriminate].
      unfold append_data_file. unfold Shapes.append_target in Epath.
      cbn zeta. rewrite Epath. now eexists.
  - now apply text_save_data_beyond_2d.
  - intros data' e. now rewrite !npy_save_data_error.
Qed.

Lemma save_data_beyond_two_dimensions_witness :
  Storage.append_data_file (Storage.test_env [])
    (Header.mk_text (Header.base_init None (Some "csv") false Header.PNG)
       true None "%.18e" (Some "# ") "," None)
    {[ "/data/run1.csv" := "a,b" ++ Py.LF ]}
    (Storage.mk_ndarray [2; 2; 2]%nat (replicate 8 (S754_zero false)))
    (Some "/data/run1.csv")
  = (Py.Raise Storage.not_1d_or_2d, {[ "/data/run1.csv" := "a,b" ++ Py.LF ]}).
Proof.
  refine (proj2 (proj1 (save_data_beyond_two_dimensions (Storage.test_env [])
           (Header.mk_text (Header.base_init None (Some "csv") false Header.PNG)
              true None "%.18e" (Some "# ") "," None)
           (Header.npy_init None (Header.base_init None None false Header.PNG))
           Registry.initial_state {[ "/data/run1.csv" := "a,b" ++ Py.LF ]}
           (Storage.mk_ndarray [2; 2; 2]%nat (replicate 8 (S754_zero false)))
           None None None (Some "run1") None
           ltac:(vm_compute; lia)) (Some "/data/run1.csv"))
           "/data/run1.csv" ("a,b" ++ Py.LF) eq_refl _ eq_refl).
  apply lookup_singleton_eq.
Defined.



End StorageFacts.

(** * Further properties *)

(** ** Dictionaries, continued *)

Section DictMore.
Import Py.
Context {K V : Type} `{EqDecision K}.
Implicit Types (d other : list (K * V)) (k : K) (v : V).

Lemma dict_keys_set k v d :
  dict_keys (dict_set k v d) =
  if decide (k ∈ dict_keys d) then dict_keys d else (dict_keys d ++ [k])%list.
Proof.
  unfold dict_keys. induction d as [|[k0 v0] d IH]; simpl.
  - destruct (decide (k ∈ [])) as [H0|_]; [now apply elem_of_nil in H0 | reflexivity].
  - destruct (decide (k = k0)) as [->|Hne]; simpl.
    + destruct (decide (k0 ∈ k0 :: map fst d)) as [_|Hn]; [reflexivity|].
      exfalso. apply Hn. left.
    + rewrite IH.
      destruct (decide (k ∈ map fst d)) as [Hin|Hnin];
        destruct (decide (k ∈ k0 :: map fst d)) as [Hin'|Hnin']; try reflexivity.
      * exfalso. apply Hnin'. now right.
      * exfalso. apply elem_of_cons in Hin' as [?|?]; contradiction.
Qed.

Lemma dict_set_new k v d :
  k ∉ dict_keys d -> dict_set k v d = (d ++ [(k, v)])%list.
Proof.
  unfold dict_keys. induction d as [|[k0 v0] d IH]; simpl; intros Hk; [reflexivity|].
  apply not_elem_of_cons in Hk as [Hne Hk].
  destruct (decide (k = k0)); [contradiction|]. now rewrite IH.
Qed.

Lemma dict_set_NoDup k v d :
  NoDup (dict_keys d) -> NoDup (dict_keys (dict_set k v d)).
Proof.
  intros Hnd. rewrite dict_keys_set.
  destruct (decide (k ∈ dict_keys d)); [assumption|].
  apply NoDup_app. split; [assumption|]. split.
  - intros x Hx [->|[]%elem_of_nil]%elem_of_cons. contradiction.
  - apply NoDup_singleton.
Qed.

Lemma dict_update_NoDup d other :
  NoDup (dict_keys d) -> NoDup (dict_keys (dict_update d other)).
Proof.
  unfold dict_update. revert d.
  induction other as [|[k v] other IH]; intros d Hnd; simpl; [assumption|].
  apply IH. now apply dict_set_NoDup.
Qed.

Lemma filter_ext_in {A : Type} (P Q : A -> Prop)
    `{forall x, Decision (P x)} `{forall x, Decision (Q x)} (l : list A) :
  (forall x, x ∈ l -> P x <-> Q x) -> filter P l = filter Q l.
Proof.
  induction l as [|x l IH]; intros Hl; [reflexivity|].
  rewrite !filter_cons.
  rewrite IH by (intros y Hy; apply Hl; now right).
  assert (Hx : P x <-> Q x) by (apply Hl; left).
  destruct (decide (P x)) as [HP|HP], (decide (Q x)) as [HQ|HQ];
    try reflexivity; exfalso; tauto.
Qed.

(** Keys that are present keep their place; new keys follow in the order
    of the argument. *)
Lemma dict_keys_update d other :
  NoDup (dict_keys other) ->
  dict_keys (dict_update d other) =
  (dict_keys d ++ filter (fun k => k ∉ dict_keys d) (dict_keys other))%list.
Proof.
  unfold dict_update. revert d.
  induction other as [|[k v] other IH]; intros d Hnd; simpl.
  - now rewrite app_nil_r.
  - cbn in Hnd. apply NoDup_cons in Hnd as [Hk Hnd].
    rewrite IH by assumption. rewrite dict_keys_set, filter_cons.
    destruct (decide (k ∈ dict_keys d)) as [Hin|Hnin].
    + destruct (decide (k ∉ dict_keys d)); [contradiction | reflexivity].
    + destruct (decide (k ∉ dict_keys d)); [|contradiction].
      rewrite <- app_assoc. simpl. do 2 f_equal.
      apply filter_ext_in. intros x Hx. split.
      * intros Hn Hxd. apply Hn, elem_of_app. now left.
      * intros Hn [Hxd|Hxk]%elem_of_app; [contradiction|].
        apply list_elem_of_singleton in Hxk as ->. contradiction.
Qed.

(** Merging keys that are all new appends the items. *)
Lemma dict_update_disjoint d other :
  NoDup (dict_keys other) ->
  (forall k, k ∈ dict_keys other -> k ∉ dict_keys d) ->
  dict_update d other = (d ++ other)%list.
Proof.
  unfold dict_update. revert d.
  induction other as [|[k v] other IH]; intros d Hnd Hdis; simpl.
  - now rewrite app_nil_r.
  - cbn in Hnd. apply NoDup_cons in Hnd as [Hk Hnd].
    rewrite dict_set_new by (apply Hdis; left).
    rewrite IH; [now rewrite <- app_assoc | assumption |].
    intros x Hx. unfold dict_keys. rewrite map_app.
    intros [Hxd|Hxk]%elem_of_app.
    * revert Hxd. apply Hdis. now right.
    * apply list_elem_of_singleton in Hxk as ->. contradiction.
Qed.

Lemma dict_get_pop_ne k k' d :
  k' <> k -> dict_get k' (dict_pop k d) = dict_get k' d.
Proof.
  intros Hne. induction d as [|[k0 v0] d IH]; simpl; [reflexivity|].
  destruct (decide (k = k0)) as [->|Hk]; simpl.
  - destruct (decide (k' = k0)); [contradiction | reflexivity].
  - destruct (decide (k' = k0)); [reflexivity | exact IH].
Qed.

Lemma dict_keys_pop k d :
  NoDup (dict_keys d) ->
  dict_keys (dict_pop k d) = filter (fun x => x <> k) (dict_keys d).
Proof.
  unfold dict_keys. induction d as [|[k0 v0] d IH]; simpl; intros Hnd; [reflexivity|].
  apply NoDup_cons in Hnd as [Hk0 Hnd]. rewrite filter_cons.
  destruct (decide (k = k0)) as [->|Hk]; simpl.
  - destruct (decide (k0 <> k0)) as [Hn|_]; [congruence|].
    symmetry. clear IH Hnd.
    induction (map fst d) as [|x l IHl]; [reflexivity|].
    apply not_elem_of_cons in Hk0 as [Hx Hl].
    rewrite filter_cons_True by congruence. f_equal. now apply IHl.
  - destruct (decide (k0 <> k)) as [_|Hn]; [|exfalso; apply Hn; congruence].
    now rewrite IH.
Qed.

Lemma dict_pop_absent k d : k ∉ dict_keys d -> dict_pop k d = d.
Proof.
  unfold dict_keys. induction d as [|[k0 v0] d IH]; simpl; intros Hk; [reflexivity|].
  apply not_elem_of_cons in Hk as [Hne Hk].
  destruct (decide (k = k0)); [contradiction|]. now rewrite IH.
Qed.

Lemma dict_pop_NoDup k d :
  NoDup (dict_keys d) -> NoDup (dict_keys (dict_pop k d)).
Proof. intros Hnd. rewrite dict_keys_pop by assumption. now apply NoDup_filter. Qed.

(** [for name in names: d.pop(name, None)] *)
Local Notation "'pop_all' names 'from' dict" :=
  (fold_left (fun acc name => dict_pop name acc) names dict)
  (at level 10, names at level 9, dict at level 9, only parsing).

Lemma pop_all_NoDup names d :
  NoDup (dict_keys d) -> NoDup (dict_keys (pop_all names from d)).
Proof.
  revert d.
  induction names as [|n names IH]; intros d Hnd; simpl; [assumption|].
  apply IH. now apply dict_pop_NoDup.
Qed.

Lemma dict_keys_pop_all names d :
  NoDup (dict_keys d) ->
  dict_keys (pop_all names from d) = filter (fun x => x ∉ names) (dict_keys d).
Proof.
  revert d.
  induction names as [|n names IH]; intros d Hnd; simpl.
  - symmetry. clear Hnd. induction (dict_keys d) as [|x l IHl]; [reflexivity|].
    rewrite filter_cons_True by apply not_elem_of_nil. now rewrite IHl.
  - rewrite IH by now apply dict_pop_NoDup.
    rewrite dict_keys_pop by assumption.
    rewrite list_filter_filter. apply filter_ext_in.
    intros x _. rewrite not_elem_of_cons. tauto.
Qed.

Lemma dict_get_pop_all_other names k d :
  k ∉ names -> dict_get k (pop_all names from d) = dict_get k d.
Proof.
  revert d.
  induction names as [|n names IH]; intros d Hk; simpl; [reflexivity|].
  apply not_elem_of_cons in Hk as [Hne Hk].
  rewrite IH by assumption. now apply dict_get_pop_ne.
Qed.

Lemma pop_all_absent names d :
  (forall k, k ∈ names -> k ∉ dict_keys d) -> pop_all names from d = d.
Proof.
  revert d.
  induction names as [|n names IH]; intros d Hk; simpl; [reflexivity|].
  rewrite dict_pop_absent by (apply Hk; left).
  apply IH. intros k Hin. apply Hk. now right.
Qed.

(** Removing the keys of items that were appended gives the dictionary
    back. *)
Lemma pop_all_app d other :
  NoDup (dict_keys other) ->
  (forall k, k ∈ dict_keys other -> k ∉ dict_keys d) ->
  pop_all (dict_keys other) from (d ++ other)%list = d.
Proof.
  induction other as [|[k v] other IH]; intros Hnd Hdis; simpl.
  - now rewrite app_nil_r.
  - cbn in Hnd. apply NoDup_cons in Hnd as [Hk Hnd].
    assert (E : dict_pop k (d ++ (k, v) :: other)%list = (d ++ other)%list).
    { assert (Hkd : k ∉ dict_keys d) by (apply Hdis; left).
      clear -Hkd. unfold dict_keys in Hkd.
      induction d as [|[k0 v0] d IHd]; simpl.
      - destruct (decide (k = k)); [reflexivity | congruence].
      - simpl in Hkd. apply not_elem_of_cons in Hkd as [Hne Hkd].
        destruct (decide (k = k0)); [contradiction|]. now rewrite IHd. }
    rewrite E. apply IH; [assumption|].
    intros x Hx. apply Hdis. now right.
Qed.

End DictMore.

(** ** The registry, continued *)

Section RegistryMore.
Import Py Registry Session.
Implicit Types (σ : gmap positive obj) (d : list (key * value)).

Local Notation "'pop_all' names 'from' dict" :=
  (fold_left (fun acc name => dict_pop name acc) names dict)
  (at level 10, names at level 9, dict at level 9, only parsing).

Lemma remove_unfold names σ :
  remove_global_metadata names σ =
  (Return tt,
   <[global_metadata := ODict (pop_all (names_of names) from (registry σ))]> σ).
Proof. destruct names; reflexivity. Qed.

Lemma contents_registry_insert σ d :
  wf σ = true ->
  contents global_metadata (<[global_metadata := ODict d]> σ) = seen_items σ d.
Proof.
  intros Hwf. unfold contents. fold (registry (<[global_metadata := ODict d]> σ)).
  rewrite registry_insert. apply seen_items_insert_dict. now apply wf_not_list.
Qed.

Lemma dict_get_seen σ k d : dict_get k (seen_items σ d) = see σ <$> dict_get k d.
Proof. unfold seen_items. apply dict_get_map. Qed.

(** X1: [remove_global_metadata] raises nothing; the keys it is given are not
    in the registry afterwards, and every other key reads as before. *)
Theorem remove_global_metadata_removes σ names :
  sound σ ->
  let out := remove_global_metadata names σ in
  out.1 = Return tt
  /\ (forall k, k ∈ names_of names ->
        dict_get k (contents global_metadata out.2) = None)
  /\ (forall k, k ∉ names_of names ->
        dict_get k (contents global_metadata out.2) =
        dict_get k (contents global_metadata σ)).
Proof.
  intros [Hwf Hnd] out. unfold out. rewrite remove_unfold. cbn [fst snd].
  rewrite contents_registry_insert by assumption.
  split; [reflexivity|]. split.
  - intros k Hk. rewrite dict_get_seen.
    assert (E : dict_get k (pop_all (names_of names) from (registry σ)) = None).
    { apply dict_get_None. rewrite dict_keys_pop_all by assumption.
      intros [Hn _]%list_elem_of_filter. contradiction. }
    now rewrite E.
  - intros k Hk. rewrite dict_get_seen, dict_get_pop_all_other by assumption.
    unfold contents. fold (registry σ). now rewrite dict_get_seen.
Qed.

Lemma remove_global_metadata_removes_witness :
  dict_get (Registry.KStr "gain")
    (Registry.contents Registry.global_metadata
       (Registry.remove_global_metadata (Registry.NamesStr "gain")
          (<[Registry.global_metadata :=
               Registry.ODict [(Registry.KStr "gain", Registry.VInt 5)]]>
             Registry.initial_state)).2) = None.
Proof.
  refine (proj1 (proj2 (remove_global_metadata_removes
            (<[Registry.global_metadata :=
                 Registry.ODict [(Registry.KStr "gain", Registry.VInt 5)]]>
               Registry.initial_state)
            (Registry.NamesStr "gain") _)) (Registry.KStr "gain") _).
  - split; [vm_compute; reflexivity|]. vm_compute. apply NoDup_singleton.
  - left.
Defined.

(** X2: Removing keys that are not in the registry leaves the store as it is,
    and removing the same keys a second time changes nothing more. *)
Theorem remove_global_metadata_absent_or_twice σ names :
  sound σ ->
  ((forall k, k ∈ names_of names -> k ∉ dict_keys (registry σ)) ->
     remove_global_metadata names σ = (Return tt, σ))
  /\ remove_global_metadata names (remove_global_metadata names σ).2 =
     remove_global_metadata names σ.
Proof.
  intros [Hwf Hnd]. destruct (wf_registry σ Hwf) as [Hg _]. split.
  - intros Habs. rewrite remove_unfold, pop_all_absent by assumption.
    now rewrite insert_id.
  - rewrite !remove_unfold. cbn [snd]. rewrite registry_insert.
    rewrite (pop_all_absent (names_of names)
               (pop_all (names_of names) from (registry σ))).
    + now rewrite insert_insert_eq.
    + intros k Hk. rewrite dict_keys_pop_all by assumption.
      intros [Hn _]%list_elem_of_filter. contradiction.
Qed.

Lemma remove_global_metadata_absent_or_twice_witness :
  Registry.remove_global_metadata (Registry.NamesStr "gain")
    Registry.initial_state = (Py.Return tt, Registry.initial_state).
Proof.
  refine (proj1 (remove_global_metadata_absent_or_twice Registry.initial_state
            (Registry.NamesStr "gain") _) _).
  - split; [vm_compute; reflexivity|]. vm_compute. apply NoDup_nil_2.
  - intros k _. vm_compute. apply not_elem_of_nil.
Defined.

Lemma deepcopy_keys σ σ1 d d' :
  seen_items σ1 d' = seen_items σ d -> dict_keys d' = dict_keys d.
Proof.
  intros Hsee. now rewrite <- (seen_items_keys σ1 d'), Hsee, seen_items_keys.
Qed.

(** X3: Adding keys that are all new and removing them again gives the
    registry back, items and order. *)
Theorem add_then_remove_restores σ d v0 ow :
  wf σ = true -> closed_items σ d = true -> NoDup (dict_keys d) ->
  (forall k, k ∈ dict_keys d -> k ∉ dict_keys (registry σ)) ->
  let added := add_global_metadata (NameDict d) v0 ow σ in
  let removed := remove_global_metadata (NamesIter (dict_keys d)) added.2 in
  added.1 = Return tt
  /\ removed.1 = Return tt
  /\ registry removed.2 = registry σ
  /\ contents global_metadata removed.2 = contents global_metadata σ.
Proof.
  intros Hwf Hd Hnd Hnew added removed.
  destruct (add_dict_spec σ d v0 ow Hwf Hd)
    as (d' & σ1 & Hsub & Hc & Hsee & Hout).
  fold added in Hout.
  rewrite (proj2 (key_intersection_nil d (registry σ)) Hnew) in Hout.
  assert (E : added = (Return tt,
            <[global_metadata := ODict (dict_update (registry σ) d')]> σ1))
    by (rewrite Hout; now destruct ow).
  pose proof (deepcopy_keys σ σ1 d d' Hsee) as Hk.
  unfold removed. rewrite remove_unfold, E. cbn [fst snd names_of].
  rewrite !registry_insert, insert_insert_eq.
  rewrite dict_update_disjoint by now rewrite Hk.
  rewrite <- Hk, pop_all_app by now rewrite Hk.
  split; [reflexivity|]. split; [reflexivity|].
  split; [reflexivity|].
  assert (Hwf1 : forall xs, σ1 !! global_metadata <> Some (OList xs)).
  { intros xs. destruct (wf_registry σ Hwf) as [Hg _].
    rewrite (lookup_weaken _ _ _ _ Hg Hsub). discriminate. }
  unfold contents at 1.
  fold (registry (<[global_metadata := ODict (registry σ)]> σ1)).
  rewrite registry_insert, seen_items_insert_dict by assumption.
  apply seen_items_mono; [assumption | now apply wf_registry].
Qed.

Lemma add_then_remove_restores_witness :
  Registry.registry
    (Registry.remove_global_metadata
       (Registry.NamesIter [Registry.KStr "gain"])
       (Registry.add_global_metadata
          (Registry.NameDict [(Registry.KStr "gain", Registry.VInt 5)])
          Registry.VNone false Registry.initial_state).2).2
  = Registry.registry Registry.initial_state.
Proof.
  refine (proj1 (proj2 (proj2 (add_then_remove_restores Registry.initial_state
            [(Registry.KStr "gain", Registry.VInt 5)] Registry.VNone false
            _ _ _ _)))).
  - vm_compute; reflexivity.
  - reflexivity.
  - apply NoDup_singleton.
  - intros k _. vm_compute. apply not_elem_of_nil.
Defined.

(** X4: A successful [add_global_metadata] keeps the keys that were in the
    registry where they were and puts the new keys after them, in the
    order of the argument; with [overwrite] the call always succeeds. *)
Theorem add_keeps_key_order σ d v0 ow :
  wf σ = true -> closed_items σ d = true -> NoDup (dict_keys d) ->
  let out := add_global_metadata (NameDict d) v0 ow σ in
  (ow = true -> out.1 = Return tt)
  /\ (out.1 = Return tt ->
      dict_keys (registry out.2) =
      (dict_keys (registry σ)
       ++ filter (fun k => k ∉ dict_keys (registry σ)) (dict_keys d))%list).
Proof.
  intros Hwf Hd Hnd out.
  destruct (add_dict_spec σ d v0 ow Hwf Hd)
    as (d' & σ1 & Hsub & Hc & Hsee & Hout).
  fold out in Hout. pose proof (deepcopy_keys σ σ1 d d' Hsee) as Hk.
  split.
  - intros ->. now rewrite Hout.
  - intros Hret.
    assert (E : out = (Return tt,
              <[global_metadata := ODict (dict_update (registry σ) d')]> σ1)).
    { rewrite Hout in Hret |- *.
      destruct ow, (key_intersection d (registry σ)); try reflexivity.
      discriminate. }
    rewrite E. cbn [snd]. rewrite registry_insert.
    rewrite dict_keys_update by now rewrite Hk. now rewrite Hk.
Qed.

Lemma add_keeps_key_order_witness :
  dict_keys
    (Registry.registry
       (Registry.add_global_metadata
          (Registry.NameDict [(Registry.KStr "b", Registry.VInt 2);
                              (Registry.KStr "a", Registry.VInt 3)])
          Registry.VNone true
          (<[Registry.global_metadata :=
               Registry.ODict [(Registry.KStr "a", Registry.VInt 1)]]>
             Registry.initial_state)).2)
  = [Registry.KStr "a"; Registry.KStr "b"].
Proof.
  assert (H : Registry.wf
                (<[Registry.global_metadata :=
                     Registry.ODict [(Registry.KStr "a", Registry.VInt 1)]]>
                   Registry.initial_state) = true
              /\ NoDup [Registry.KStr "b"; Registry.KStr "a"]).
  { split; [vm_compute; reflexivity|].
    apply NoDup_cons. split; [|apply NoDup_singleton].
    intros [=]%list_elem_of_singleton. }
  destruct H as [Hwf Hnd].
  destruct (add_keeps_key_order _
    [(Registry.KStr "b", Registry.VInt 2); (Registry.KStr "a", Registry.VInt 3)]
    Registry.VNone true Hwf eq_refl Hnd) as [H1 H2].
  rewrite (H2 (H1 eq_refl)). vm_compute. reflexivity.
Defined.

Lemma add_str_as_dict s v v0 ow σ :
  add_global_metadata (NameStr s) v ow σ =
  add_global_metadata (NameDict [(KStr s, v)]) v0 ow σ.
Proof.
  unfold add_global_metadata. cbn [deepcopy_items any_non_str_key existsb].
  destruct (deepcopy_value [] v σ) as [[v' memo'] σ']. reflexivity.
Qed.

Lemma dict_get_Some_elem {K V : Type} `{EqDecision K} (k : K) (v : V)
    (d : list (K * V)) :
  dict_get k d = Some v -> (k, v) ∈ d.
Proof.
  induction d as [|[k0 v0] d IH]; simpl; [discriminate|].
  destruct (decide (k = k0)) as [->|Hne].
  - intros [= ->]. left.
  - intros H. right. now apply IH.
Qed.

(** The copies made by [deepcopy] are objects that the store [σ0], with
    which the call began, did not hold. *)
Lemma deepcopy_value_fresh σ0 memo v σ v' memo' σ' :
  deepcopy_value memo v σ = (v', memo', σ') ->
  σ0 ⊆ σ ->
  (forall l l', dict_get l memo = Some l' -> σ0 !! l' = None) ->
  closed_value σ v = true ->
  (forall l', v' = VList l' -> σ0 !! l' = None)
  /\ (forall l l', dict_get l memo' = Some l' -> σ0 !! l' = None).
Proof.
  destruct v as [| | | |l]; unfold deepcopy_value; cbn [closed_value];
    try (intros [= <- <- <-] ? ? ?; split; [discriminate | assumption]).
  intros Hc Hsub Hm Hcl. revert Hc.
  destruct (σ !! l) as [[xs|d]|] eqn:El; try discriminate.
  destruct (dict_get l memo) as [l1|] eqn:Em.
  - intros [= <- <- <-]. split; [|assumption].
    intros l' [= <-]. eapply Hm; eauto.
  - destruct (alloc (OList xs) σ) as [l1 σ1] eqn:Ea.
    intros [= <- <- <-]. apply alloc_fresh in Ea as [Hfresh ->].
    assert (H0 : σ0 !! l1 = None).
    { destruct (σ0 !! l1) as [o|] eqn:E0; [|reflexivity].
      rewrite (lookup_weaken _ _ _ _ E0 Hsub) in Hfresh. discriminate. }
    split.
    + now intros l' [= <-].
    + intros a a'. simpl. destruct (decide (a = l)); [now intros [= <-]|].
      apply Hm.
Qed.

Lemma deepcopy_items_fresh σ0 d : forall memo σ d' σ',
  deepcopy_items memo d σ = (d', σ') ->
  σ0 ⊆ σ ->
  (forall l l', dict_get l memo = Some l' -> σ0 !! l' = None) ->
  memo_ok memo σ -> closed_items σ d = true ->
  forall k l', (k, VList l') ∈ d' -> σ0 !! l' = None.
Proof.
  induction d as [|[k v] d IH]; intros memo σ d' σ'; simpl.
  - intros [= <- <-] _ _ _ _ k l' Hin. now apply elem_of_nil in Hin.
  - destruct (deepcopy_value memo v σ) as [[v1 memo1] σ1] eqn:Ev.
    destruct (deepcopy_items memo1 d σ1) as [d1 σ2] eqn:Ed.
    intros [= <- <-] Hsub Hm Hok [Hv Hd]%andb_true_iff k0 l' Hin.
    destruct (deepcopy_value_fresh σ0 _ _ _ _ _ _ Ev Hsub Hm Hv) as [Hf1 Hm1].
    destruct (deepcopy_value_spec _ _ _ _ _ _ Ev Hok Hv)
      as (Hs1 & Hok1 & _ & _).
    apply elem_of_cons in Hin as [[= -> Hv1]|Hin]; [now apply (Hf1 l')|].
    refine (IH _ _ _ _ Ed _ Hm1 Hok1 _ k0 l' Hin).
    + etrans; eauto.
    + now apply (seen_items_mono σ σ1 d Hs1 Hd).
Qed.

(** What is read under a key of the argument once the copies are in the
    registry does not change when a list that was there before the copies
    were made is appended to. *)
Lemma stored_copy_is_not_shared σ d d' σ1 l x k v :
  wf σ = true -> closed_items σ d = true -> NoDup (dict_keys d) ->
  deepcopy_items [] d σ = (d', σ1) ->
  is_Some (σ !! l) -> (k, v) ∈ d ->
  dict_get k
    (contents global_metadata
       (list_append l x
          (<[global_metadata := ODict (dict_update (registry σ) d')]> σ1)))
  = Some (see σ v).
Proof.
  intros Hwf Hd Hnd Ed [o Hl] Hin.
  destruct (deepcopy_items_spec d [] σ d' σ1 Ed) as (Hsub1 & Hc1 & Hsee1);
    [intros ? ?; discriminate | assumption |].
  assert (Hfresh : forall k l', (k, VList l') ∈ d' -> σ !! l' = None).
  { eapply (deepcopy_items_fresh σ d [] σ d' σ1 Ed); try assumption;
      try reflexivity; intros ? ?; discriminate. }
  pose proof (deepcopy_keys σ σ1 d d' Hsee1) as Hk.
  destruct (wf_registry σ Hwf) as [Hg Hcr].
  assert (Hg1 : σ1 !! global_metadata = Some (ODict (registry σ)))
    by (eapply lookup_weaken; eauto).
  (* the copy stored under [k] *)
  assert (Hv' : exists v', dict_get k d' = Some v' /\ see σ1 v' = see σ v).
  { assert (H1 : dict_get k (seen_items σ1 d') = Some (see σ v)).
    { rewrite Hsee1, dict_get_seen. now rewrite (dict_get_elem k v d Hnd Hin). }
    rewrite dict_get_seen in H1.
    destruct (dict_get k d') as [v'|]; [|discriminate].
    exists v'. split; [reflexivity|]. now injection H1. }
  destruct Hv' as (v' & Hget & Hsv).
  set (U := dict_update (registry σ) d').
  assert (HU : dict_get k U = Some v').
  { unfold U. rewrite dict_get_update by now rewrite Hk. now rewrite Hget. }
  (* what the append does *)
  assert (Hl1 : σ1 !! l = Some o) by (eapply lookup_weaken; eauto).
  assert (Hsame : see (list_append l x (<[global_metadata := ODict U]> σ1)) v'
                  = see σ1 v').
  { destruct v' as [| | | |l']; try reflexivity.
    assert (Hne : l' <> l).
    { intros ->. apply dict_get_Some_elem in Hget.
      rewrite (Hfresh k l Hget) in Hl. discriminate. }
    assert (Hcv : closed_value σ1 (VList l') = true).
    { apply dict_get_Some_elem in Hget.
      unfold closed_items in Hc1. rewrite forallb_forall in Hc1.
      apply (Hc1 (k, VList l')). now apply list_elem_of_In. }
    cbn [closed_value] in Hcv.
    destruct (σ1 !! l') as [[ys|?]|] eqn:El'; try discriminate.
    assert (Hng : l' <> global_metadata) by congruence.
    unfold list_append.
    destruct (<[global_metadata:=ODict U]> σ1 !! l) as [[zs|?]|];
      cbn [see]; rewrite !lookup_insert_ne by congruence; now rewrite El'. }
  unfold contents, dict_items.
  assert (Hgm : list_append l x (<[global_metadata := ODict U]> σ1)
                  !! global_metadata = Some (ODict U)).
  { unfold list_append.
    destruct (decide (l = global_metadata)) as [->|Hne].
    - rewrite lookup_insert_eq. apply lookup_insert_eq.
    - rewrite lookup_insert_ne by congruence. rewrite Hl1.
      destruct o; rewrite ?lookup_insert_ne by congruence;
        apply lookup_insert_eq. }
  rewrite Hgm, dict_get_seen, HU. cbn. now rewrite Hsame, Hsv.
Qed.

(** A call that returns has put the copies into the registry. *)
Lemma add_dict_returns σ d v0 ow d' σ1 :
  wf σ = true -> closed_items σ d = true ->
  deepcopy_items [] d σ = (d', σ1) ->
  (add_global_metadata (NameDict d) v0 ow σ).1 = Return tt ->
  add_global_metadata (NameDict d) v0 ow σ =
  (Return tt, <[global_metadata := ODict (dict_update (registry σ) d')]> σ1).
Proof.
  intros Hwf Hd Ed Hret.
  destruct (deepcopy_items_spec d [] σ d' σ1 Ed) as (Hsub1 & _ & _);
    [intros ? ?; discriminate | assumption |].
  unfold add_global_metadata in Hret |- *. cbn zeta in Hret |- *.
  rewrite Ed in Hret |- *.
  rewrite (registry_mono σ σ1 Hwf Hsub1) in Hret |- *.
  destruct ow, (key_intersection d' (registry σ)); try reflexivity.
  discriminate.
Qed.

(** X5: [add_global_metadata] stores copies: after a successful call,
    appending to a list that existed before the call does not change what
    is read from the registry under the keys of the argument. *)
Theorem add_stores_copies σ d v0 ow :
  wf σ = true -> closed_items σ d = true -> NoDup (dict_keys d) ->
  let out := add_global_metadata (NameDict d) v0 ow σ in
  out.1 = Return tt ->
  forall l x k v, is_Some (σ !! l) -> (k, v) ∈ d ->
    dict_get k (contents global_metadata (list_append l x out.2))
    = Some (see σ v).
Proof.
  intros Hwf Hd Hnd out Hret l x k v Hl Hin.
  destruct (deepcopy_items [] d σ) as [d' σ1] eqn:Ed.
  assert (E : out = (Return tt,
            <[global_metadata := ODict (dict_update (registry σ) d')]> σ1))
    by now apply add_dict_returns.
  rewrite E. cbn [snd].
  now apply (stored_copy_is_not_shared σ d d' σ1).
Qed.

Lemma add_stores_copies_witness :
  dict_get (Registry.KStr "k")
    (Registry.contents Registry.global_metadata
       (Registry.list_append 5 2
          (Registry.add_global_metadata
             (Registry.NameDict [(Registry.KStr "k", Registry.VList 5)])
             Registry.VNone false
             (<[5%positive := Registry.OList [1]]> Registry.initial_state)).2))
  = Some (Registry.SList [1]).
Proof.
  assert (Hwf : Registry.wf
                  (<[5%positive := Registry.OList [1]]> Registry.initial_state)
                = true) by (vm_compute; reflexivity).
  exact (add_stores_copies _ [(Registry.KStr "k", Registry.VList 5)]
           Registry.VNone false Hwf
           ltac:(vm_compute; reflexivity) ltac:(apply NoDup_singleton)
           ltac:(vm_compute; reflexivity)
           5%positive 2 (Registry.KStr "k") (Registry.VList 5)
           ltac:(vm_compute; eexists; reflexivity) ltac:(left)).
Defined.



(** *** The registry stays sound *)

Lemma closed_value_insert_dict σ l d v :
  (forall xs, σ !! l <> Some (OList xs)) ->
  closed_value (<[l := ODict d]> σ) v = closed_value σ v.
Proof.
  intros Hl. destruct v as [| | | |l0]; simpl; try reflexivity.
  destruct (decide (l = l0)) as [->|Hne].
  - rewrite lookup_insert_eq.
    destruct (σ !! l0) as [[xs|d0]|] eqn:E; try reflexivity.
    now elim (Hl xs).
  - now rewrite lookup_insert_ne.
Qed.

Lemma closed_items_insert_dict σ l d0 d :
  (forall xs, σ !! l <> Some (OList xs)) ->
  closed_items (<[l := ODict d0]> σ) d = closed_items σ d.
Proof.
  intros Hl. unfold closed_items. induction d as [|[k v] d IH]; simpl; [reflexivity|].
  now rewrite closed_value_insert_dict, IH.
Qed.

Lemma closed_items_insert_list σ l xs ys d :
  σ !! l = Some (OList xs) -> closed_items σ d = true ->
  closed_items (<[l := OList ys]> σ) d = true.
Proof.
  intros Hl. unfold closed_items. induction d as [|[k v] d IH]; simpl; [reflexivity|].
  intros [Hv Hd]%andb_true_iff. rewrite IH by assumption.
  rewrite andb_true_r. destruct v as [| | | |l0]; simpl in *; try reflexivity.
  destruct (decide (l = l0)) as [->|Hne].
  - now rewrite lookup_insert_eq.
  - now rewrite lookup_insert_ne.
Qed.

Lemma closed_items_set σ k v d :
  closed_value σ v = true -> closed_items σ d = true ->
  closed_items σ (dict_set k v d) = true.
Proof.
  intros Hv. unfold closed_items. induction d as [|[k0 v0] d IH]; simpl.
  - now rewrite Hv.
  - intros [Hv0 Hd]%andb_true_iff. destruct (decide (k = k0)); simpl.
    + now rewrite Hv, Hd.
    + now rewrite Hv0, IH.
Qed.

Lemma closed_items_update σ d other :
  closed_items σ d = true -> closed_items σ other = true ->
  closed_items σ (dict_update d other) = true.
Proof.
  unfold dict_update. revert d.
  induction other as [|[k v] other IH]; intros d Hd Ho; simpl; [assumption|].
  unfold closed_items in Ho. simpl in Ho. apply andb_true_iff in Ho as [Hv Ho].
  apply IH; [now apply closed_items_set | exact Ho].
Qed.

Lemma closed_items_pop σ k d :
  closed_items σ d = true -> closed_items σ (dict_pop k d) = true.
Proof.
  unfold closed_items. induction d as [|[k0 v0] d IH]; simpl; [reflexivity|].
  intros [Hv0 Hd]%andb_true_iff. destruct (decide (k = k0)); simpl; [assumption|].
  now rewrite Hv0, IH.
Qed.

Lemma closed_items_pop_all σ names d :
  closed_items σ d = true ->
  closed_items σ (pop_all names from d) = true.
Proof.
  revert d. induction names as [|n names IH]; intros d Hd; simpl; [assumption|].
  apply IH. now apply closed_items_pop.
Qed.

(** A larger store in which the registry object is the same. *)
Lemma sound_mono σ σ' : sound σ -> σ ⊆ σ' -> sound σ'.
Proof.
  intros [Hwf Hnd] Hsub. destruct (wf_registry σ Hwf) as [Hg Hc].
  split.
  - unfold wf. rewrite (lookup_weaken _ _ _ _ Hg Hsub).
    now apply (seen_items_mono σ σ').
  - now rewrite (registry_mono σ σ' Hwf Hsub).
Qed.

(** Replacing the items of the registry by closed items with unique keys. *)
Lemma sound_registry_insert σ d :
  wf σ = true -> closed_items σ d = true -> NoDup (dict_keys d) ->
  sound (<[global_metadata := ODict d]> σ).
Proof.
  intros Hwf Hd Hnd. split.
  - unfold wf. rewrite lookup_insert_eq.
    rewrite closed_items_insert_dict; [assumption | now apply wf_not_list].
  - now rewrite registry_insert.
Qed.

Lemma sound_add_dict σ d v0 ow :
  sound σ -> closed_items σ d = true -> NoDup (dict_keys d) ->
  sound (add_global_metadata (NameDict d) v0 ow σ).2.
Proof.
  intros Hs Hd Hnd. destruct Hs as [Hwf Hr].
  destruct (add_dict_spec σ d v0 ow Hwf Hd)
    as (d' & σ1 & Hsub & Hc & Hsee & ->).
  assert (Hs1 : sound σ1) by (apply (sound_mono σ); [split|]; assumption).
  destruct Hs1 as [Hwf1 Hr1].
  assert (Hmerge : sound (<[global_metadata :=
                     ODict (dict_update (registry σ) d')]> σ1)).
  { apply sound_registry_insert; [assumption | |].
    - apply closed_items_update; [|assumption].
      rewrite <- (registry_mono σ σ1 Hwf Hsub). now apply wf_registry.
    - now apply dict_update_NoDup. }
  destruct ow, (key_intersection d (registry σ)); cbn [snd];
    first [exact Hmerge | now split].
Qed.

(** Every allowed action keeps the registry sound. *)
Lemma sound_run a σ : sound σ -> allowed a σ = true -> sound (run a σ).
Proof.
  intros Hs Ha. pose proof Hs as [Hwf Hnd].
  destruct (wf_registry σ Hwf) as [Hg Hc].
  destruct a as [|name v ow|names|xs|l x|l k v|l k]; cbn [run].
  - destruct (get_spec σ) as (l & Hl & ->). cbn [snd].
    apply (sound_mono σ); [assumption | now apply insert_subseteq].
  - destruct name as [s|d|]; cbn [allowed] in Ha.
    + rewrite (add_str_as_dict s v v ow σ). apply sound_add_dict; [assumption| |].
      * unfold closed_items. simpl. now rewrite Ha.
      * apply NoDup_singleton.
    + apply andb_true_iff in Ha as [Hd Hn%bool_decide_eq_true].
      now apply sound_add_dict.
    + exact Hs.
  - rewrite remove_unfold. cbn [snd]. apply sound_registry_insert.
    + assumption.
    + now apply closed_items_pop_all.
    + now apply pop_all_NoDup.
  - destruct (alloc (OList xs) σ) as [l σ'] eqn:Ea.
    apply alloc_fresh in Ea as [Hl ->]. cbn [snd].
    apply (sound_mono σ); [assumption | now apply insert_subseteq].
  - unfold list_append. destruct (σ !! l) as [[ys|d]|] eqn:El; try exact Hs.
    assert (Hne : l <> global_metadata) by congruence.
    split.
    + unfold wf. rewrite lookup_insert_ne by assumption. rewrite Hg.
      now apply (closed_items_insert_list σ l ys).
    + unfold registry, dict_items. rewrite lookup_insert_ne by assumption.
      exact Hnd.
  - cbn [allowed] in Ha.
    apply andb_true_iff in Ha as [Hne%negb_true_iff%bool_decide_eq_false Hv].
    unfold dict_setitem. destruct (σ !! l) as [[ys|d]|] eqn:El; try exact Hs.
    split.
    + unfold wf. rewrite lookup_insert_ne by assumption. rewrite Hg.
      rewrite closed_items_insert_dict; [assumption|].
      intros xs. rewrite El. discriminate.
    + unfold registry, dict_items. rewrite lookup_insert_ne by assumption.
      exact Hnd.
  - cbn [allowed] in Ha.
    apply negb_true_iff, bool_decide_eq_false in Ha.
    unfold dict_popitem. destruct (σ !! l) as [[ys|d]|] eqn:El; try exact Hs.
    split.
    + unfold wf. rewrite lookup_insert_ne by assumption. rewrite Hg.
      rewrite closed_items_insert_dict; [assumption|].
      intros xs. rewrite El. discriminate.
    + unfold registry, dict_items. rewrite lookup_insert_ne by assumption.
      exact Hnd.
Qed.

(** X6: Every program of allowed actions keeps the registry sound: from a
    sound store, and in particular from the initial one, whatever is
    added, removed, read, or changed through the objects that were passed
    in or handed out, the registry is a dictionary whose keys are unique
    and whose references lead to list objects. *)
Theorem programs_keep_the_registry_sound prog : forall σ σ',
  sound σ -> run_all prog σ = Some σ' -> sound σ'.
Proof.
  induction prog as [|a prog IH]; intros σ σ' Hs; simpl.
  - now intros [= <-].
  - destruct (allowed a σ) eqn:Ha; [|discriminate].
    apply IH. now apply sound_run.
Qed.

Lemma programs_keep_the_registry_sound_witness :
  Session.sound
    (Session.run (Session.Add
                    (Registry.NameDict [(Registry.KStr "k", Registry.VInt 1)])
                    Registry.VNone false)
       (Session.run Session.Get Registry.initial_state)).
Proof.
  apply (programs_keep_the_registry_sound
           [Session.Get;
            Session.Add (Registry.NameDict [(Registry.KStr "k", Registry.VInt 1)])
              Registry.VNone false]
           Registry.initial_state).
  - split; [vm_compute; reflexivity|]. vm_compute. apply NoDup_nil_2.
  - reflexivity.
Defined.

End RegistryMore.

(** ** File names, continued *)

Section FilenameMore.
Import Py Filename Shapes.

Local Abbreviation not_space := (fun c : ascii => negb (isspace c)).

Lemma all_chars_impl (p q : ascii -> bool) (s : string) :
  (forall c, p c = true -> q c = true) ->
  all_chars p s = true -> all_chars q s = true.
Proof.
  intros Hpq. induction s as [|c s IH]; cbn [all_chars]; [reflexivity|].
  intros [Hc Hs]%andb_true_iff. now rewrite (Hpq c Hc), IH.
Qed.

Lemma digit_not_space (c : ascii) : is_digit c = true -> isspace c = false.
Proof.
  unfold is_digit, isspace.
  intros [H1%Nat.leb_le H2%Nat.leb_le]%andb_true_iff.
  set (n := Z.of_nat (nat_of_ascii c)).
  assert (Hn : 48 <= n <= 57) by (unfold n; lia). clearbody n.
  destruct (Z.leb_spec 9 n), (Z.leb_spec n 13), (Z.leb_spec 28 n),
    (Z.leb_spec n 32), (Z.eqb_spec n 133), (Z.eqb_spec n 160);
    cbn; try reflexivity; lia.
Qed.

Lemma fixed_digits_no_space (w : nat) (n : Z) :
  all_chars not_space (fixed_digits w n) = true.
Proof.
  apply (all_chars_impl is_digit); [|apply fixed_digits_all_digits].
  intros c Hc. now rewrite (digit_not_space c Hc).
Qed.

Lemma stamp_no_space (t : datetime) :
  all_chars not_space (strftime "%Y%m%d-%H%M-%S" t) = true.
Proof.
  rewrite strftime_filename. unfold zfill, str_nat.
  rewrite !all_chars_app, !fixed_digits_no_space. reflexivity.
Qed.

Lemma re_sub_ws_no_space (b : bool) (s : string) :
  all_chars not_space (re_sub_ws_from b "_" s) = true.
Proof.
  revert b. induction s as [|c s IH]; intros b; cbn [re_sub_ws_from]; [reflexivity|].
  destruct (isspace c) eqn:Ec.
  - destruct b; [apply IH|]. rewrite all_chars_app, IH. reflexivity.
  - cbn [all_chars]. now rewrite Ec, IH.
Qed.

Lemma filename_shape (ts : datetime) (nametag : option string) :
  get_timestamp_filename ts nametag =
  Return (strftime "%Y%m%d-%H%M-%S" ts ++ tag_suffix nametag).
Proof.
  unfold get_timestamp_filename, tag_suffix.
  destruct nametag as [[|c r]|]; cbn [truthy option_map];
    try now rewrite append_nil_r.
  destruct (re_sub_ws "_" (strip (String c r))); [now rewrite append_nil_r|].
  reflexivity.
Qed.

(** X7: a generated file name holds no whitespace character, whatever the
    tag. *)
Theorem filename_has_no_whitespace (ts : datetime) (nametag : option string) :
  exists name,
    get_timestamp_filename ts nametag = Return name
    /\ all_chars (fun c => negb (isspace c)) name = true.
Proof.
  rewrite filename_shape. eexists. split; [reflexivity|].
  rewrite all_chars_app, stamp_no_space. cbn [andb].
  unfold tag_suffix. destruct nametag as [[|c r]|]; try reflexivity.
  pose proof (re_sub_ws_no_space false (strip (String c r))) as H.
  fold (re_sub_ws "_" (strip (String c r))) in H.
  destruct (re_sub_ws "_" (strip (String c r))); [reflexivity|].
  cbn [String.append all_chars] in *. exact H.
Qed.

Lemma no_space_lstrip (s : string) :
  all_chars not_space s = true -> lstrip s = s.
Proof.
  destruct s as [|c s]; [reflexivity|]. cbn [all_chars lstrip].
  intros [Hc _]%andb_true_iff. apply negb_true_iff in Hc. now rewrite Hc.
Qed.

Lemma no_space_rstrip (s : string) :
  all_chars not_space s = true -> rstrip s = s.
Proof.
  induction s as [|c s IH]; [reflexivity|]. cbn [all_chars].
  intros [Hc Hs]%andb_true_iff. apply negb_true_iff in Hc.
  rewrite rstrip_cons, Hc, andb_false_r. now rewrite IH.
Qed.

Lemma no_space_re_sub_ws (s : string) :
  all_chars not_space s = true -> re_sub_ws "_" s = s.
Proof.
  unfold re_sub_ws. induction s as [|c s IH]; [reflexivity|].
  cbn [all_chars re_sub_ws_from].
  intros [Hc Hs]%andb_true_iff. apply negb_true_iff in Hc.
  now rewrite Hc, IH.
Qed.

(** X8: normalising a tag twice is the same as normalising it once: the tag
    part of a generated name, given as the tag, yields the same name. *)
Theorem filename_normalization_is_idempotent (ts : datetime) (tag : string) :
  get_timestamp_filename ts (Some (spec_normalize_tag tag)) =
  get_timestamp_filename ts (Some tag).
Proof.
  unfold spec_normalize_tag. rewrite (proj2 (normalize_words tag)).
  set (norm := re_sub_ws "_" (strip tag)).
  assert (Hn : all_chars not_space norm = true)
    by apply re_sub_ws_no_space.
  assert (Hfix : re_sub_ws "_" (strip norm) = norm).
  { unfold strip. rewrite (no_space_lstrip norm Hn), (no_space_rstrip norm Hn).
    now apply no_space_re_sub_ws. }
  rewrite !filename_shape. do 2 f_equal. unfold tag_suffix.
  destruct tag as [|c r].
  - reflexivity.
  - fold norm. destruct norm as [|c' r'] eqn:En; [reflexivity|].
    now rewrite Hfix.
Qed.

Lemma Return_inj {A : Type} (a b : A) : Return a = Return b -> a = b.
Proof. now intros [= ->]. Qed.

Lemma append_inj_length (a b c d : string) :
  String.length a = String.length c -> a ++ b = c ++ d -> a = c /\ b = d.
Proof.
  revert c. induction a as [|x a IH]; intros [|y c]; simpl; try discriminate.
  - auto.
  - intros [= Hl] [= -> H]. destruct (IH c Hl H) as [-> ->]. auto.
Qed.

Lemma digit_char_inj (a b : Z) :
  digit_char a = digit_char b -> a mod 10 = b mod 10.
Proof.
  unfold digit_char. intros H. apply (f_equal nat_of_ascii) in H.
  pose proof (Z.mod_pos_bound a 10 ltac:(lia)).
  pose proof (Z.mod_pos_bound b 10 ltac:(lia)).
  rewrite !nat_ascii_embedding in H by lia. lia.
Qed.

Lemma fixed_digits_inj (w : nat) : forall a b : Z,
  0 <= a < 10 ^ Z.of_nat w -> 0 <= b < 10 ^ Z.of_nat w ->
  fixed_digits w a = fixed_digits w b -> a = b.
Proof.
  induction w as [|w IH]; intros a b Ha Hb.
  - change (10 ^ Z.of_nat 0) with 1 in *. lia.
  - cbn [fixed_digits]. intros H.
    apply append_inj_length in H as [Hq Hd];
      [|now rewrite !fixed_digits_length].
    injection Hd as Hd. apply digit_char_inj in Hd.
    rewrite Nat2Z.inj_succ, Z.pow_succ_r in Ha, Hb by lia.
    assert (Hab : a / 10 = b / 10).
    { apply IH; [| |assumption].
      - split; [apply Z.div_pos; lia | apply Z.div_lt_upper_bound; lia].
      - split; [apply Z.div_pos; lia | apply Z.div_lt_upper_bound; lia]. }
    rewrite (Z.div_mod a 10), (Z.div_mod b 10) by lia. lia.
Qed.

Lemma append_inj_length_r (a b c d : string) :
  String.length b = String.length d -> a ++ b = c ++ d -> a = c /\ b = d.
Proof.
  intros Hl H. apply append_inj_length; [|assumption].
  apply (f_equal String.length) in H. rewrite !append_length in H. lia.
Qed.

Lemma str_nat_inj (a b : Z) : 1 <= a -> 1 <= b -> str_nat a = str_nat b -> a = b.
Proof.
  intros Ha Hb H. unfold str_nat in H.
  assert (Hw : ndigits a = ndigits b).
  { apply (f_equal String.length) in H. now rewrite !fixed_digits_length in H. }
  pose proof (ndigits_spec a Ha) as [_ Ha'].
  pose proof (ndigits_spec b Hb) as [_ Hb'].
  rewrite Hw in H, Ha'.
  apply (fixed_digits_inj (ndigits b)); [lia | lia | assumption].
Qed.

(** The time stamp of a name determines the [datetime] down to the second,
    also when the year has fewer than four digits: the fields after it have
    a fixed width. *)
Lemma stamp_inj (t1 t2 : datetime) :
  valid_datetime t1 -> valid_datetime t2 ->
  strftime "%Y%m%d-%H%M-%S" t1 = strftime "%Y%m%d-%H%M-%S" t2 -> t1 = t2.
Proof.
  intros (Hy1 & Hm1 & Hd1 & HH1 & HM1 & HS1) (Hy2 & Hm2 & Hd2 & HH2 & HM2 & HS2).
  rewrite !strftime_filename.
  rewrite !(zfill_fixed 2) by first [lia | change (10 ^ Z.of_nat 2) with 100; lia].
  intros H.
  apply append_inj_length_r in H as [Ey H];
    [|now rewrite !append_length, !fixed_digits_length].
  apply append_inj_length in H as [Em H]; [|now rewrite !fixed_digits_length].
  apply append_inj_length in H as [Ed H]; [|now rewrite !fixed_digits_length].
  apply (append_inj_length "-" _ "-" _ eq_refl) in H as [_ H].
  apply append_inj_length in H as [EH H]; [|now rewrite !fixed_digits_length].
  apply append_inj_length in H as [EM H]; [|now rewrite !fixed_digits_length].
  apply (append_inj_length "-" _ "-" _ eq_refl) in H as [_ ES].
  apply str_nat_inj in Ey; [|lia|lia].
  apply fixed_digits_inj in Em, Ed, EH, EM, ES;
    try (change (10 ^ Z.of_nat 2) with 100; lia).
  destruct t1, t2; cbn in *; congruence.
Qed.

(** X9: for valid time stamps, the name without tag has sixteen characters
    when the year has four digits, and with the same tag (or none) two
    time stamps that differ in a field down to the second never give the
    same name. *)
Theorem filename_determines_timestamp (ts1 ts2 : datetime)
    (nametag : option string) :
  valid_datetime ts1 -> valid_datetime ts2 ->
  (1000 <= year ts1 ->
   exists name, get_timestamp_filename ts1 None = Return name
                /\ String.length name = 16%nat)
  /\ (get_timestamp_filename ts1 nametag = get_timestamp_filename ts2 nametag ->
      ts1 = ts2).
Proof.
  intros H1 H2. split.
  - intros Hy. rewrite filename_shape, (stamp_valid ts1 H1 Hy).
    eexists. split; [reflexivity|].
    unfold spec_stamp, tag_suffix.
    rewrite !append_length, !fixed_digits_length. reflexivity.
  - rewrite !filename_shape.
    intros H%Return_inj. apply stamp_inj; try assumption.
    now apply append_inj_length_r in H as [H _].
Qed.

Lemma filename_determines_timestamp_witness :
  exists name,
    Filename.get_timestamp_filename (Py.mk_datetime 2021 1 30 11 30 59) None
    = Py.Return name /\ String.length name = 16%nat.
Proof.
  exact (proj1 (filename_determines_timestamp
                  (Py.mk_datetime 2021 1 30 11 30 59)
                  (Py.mk_datetime 2021 1 30 11 30 59) None
                  ltac:(unfold valid_datetime; simpl; lia)
                  ltac:(unfold valid_datetime; simpl; lia))
               ltac:(simpl; lia)).
Defined.

End FilenameMore.

(** ** Headers, continued *)

Section HeaderMore.
Import Py Registry Header Shapes.
Implicit Types (σ : gmap positive obj) (self : TextDataStorage).

Lemma join_prefixed (prefix : string) (lines : list string) :
  lines <> [] ->
  prefix ++ join (LF ++ prefix) lines ++ LF = prefixed_lines prefix lines.
Proof.
  induction lines as [|a lines IH]; [congruence|]. intros _.
  destruct lines as [|b lines].
  - cbn [join prefixed_lines]. now rewrite append_nil_r.
  - rewrite join_cons_cons.
    change (prefixed_lines prefix (a :: b :: lines))
      with (prefix ++ a ++ LF ++ prefixed_lines prefix (b :: lines)).
    rewrite <- IH by discriminate.
    now rewrite !append_assoc.
Qed.

Lemma prefixed_lines_app (prefix : string) (l1 l2 : list string) :
  prefixed_lines prefix (l1 ++ l2) =
  prefixed_lines prefix l1 ++ prefixed_lines prefix l2.
Proof.
  induction l1 as [|a l1 IH]; [reflexivity|].
  cbn [app prefixed_lines]. now rewrite IH, !append_assoc.
Qed.

Lemma text_header_prefixed self (now : datetime) σ metadata notes timestamp
    include :
  text_create_header self now σ metadata notes timestamp include =
  prefixed_lines (option_default "" (comments self))
    (descriptive_lines self now σ metadata notes timestamp
     ++ (if include
         then column_line (delimiter self) (text_column_headers self)
         else [])).
Proof.
  rewrite text_create_header_lines. apply join_prefixed.
  unfold descriptive_lines. discriminate.
Qed.

(** The lines of the sidecar header of the binary storage. *)
Lemma npy_header_prefixed (nself : NpyDataStorage) (now : datetime) σ metadata
    notes timestamp :
  npy_create_header nself now σ metadata notes timestamp =
  prefixed_lines ""
    (["Saved Data on 0"; ""]
     ++ notes_lines notes
     ++ metadata_lines σ
          (gather_metadata (include_global_metadata (npy_base nself)) σ metadata)
     ++ ["Column headers:"; "==============="]
     ++ column_line ", " (npy_column_headers nself)).
Proof.
  unfold npy_create_header.
  change (format0 ("Saved Data on " ++ str_int 0) ?x) with "Saved Data on 0".
  rewrite <- join_prefixed by discriminate. reflexivity.
Qed.

(** *** The lines of a header *)

Lemma digit_not_linebreak (c : ascii) :
  is_digit c = true -> is_linebreak c = false.
Proof.
  unfold is_digit, is_linebreak.
  intros [H1%Nat.leb_le H2%Nat.leb_le]%andb_true_iff.
  set (n := Z.of_nat (nat_of_ascii c)).
  assert (Hn : 48 <= n <= 57) by (unfold n; lia). clearbody n.
  destruct (Z.leb_spec 10 n), (Z.leb_spec n 13), (Z.leb_spec 28 n),
    (Z.leb_spec n 30), (Z.eqb_spec n 133); cbn; try reflexivity; lia.
Qed.

Lemma fixed_digits_no_linebreak (w : nat) (n : Z) :
  no_linebreak (fixed_digits w n) = true.
Proof.
  apply (all_chars_impl is_digit); [|apply fixed_digits_all_digits].
  intros c Hc. now rewrite (digit_not_linebreak c Hc).
Qed.

Lemma title_no_linebreak (t : datetime) :
  no_linebreak ("Saved Data on " ++ strftime "%d.%m.%Y at %Hh%Mm%Ss" t) = true.
Proof.
  assert (E : strftime "%d.%m.%Y at %Hh%Mm%Ss" t =
              zfill 2 (day t) ++ "." ++ zfill 2 (month t) ++ "."
              ++ str_nat (year t) ++ " at " ++ zfill 2 (hour t) ++ "h"
              ++ zfill 2 (minute t) ++ "m" ++ zfill 2 (second t) ++ "s")
    by reflexivity.
  rewrite E. unfold zfill, str_nat, no_linebreak.
  rewrite !all_chars_app.
  change (all_chars (fun c => negb (is_linebreak c)) (fixed_digits ?w ?n))
    with (no_linebreak (fixed_digits w n)).
  rewrite !fixed_digits_no_linebreak. reflexivity.
Qed.

(** [splitlines] on a line without line break that is ended by a line
    feed. *)
Lemma splitlines_from_line (s rest : string) : forall cur : string,
  no_linebreak s = true ->
  splitlines_from false cur (s ++ LF ++ rest) =
  (cur ++ s) :: splitlines_from false "" rest.
Proof.
  unfold no_linebreak.
  induction s as [|c s IH]; intros cur Hs.
  - cbn [String.append LF splitlines_from andb].
    change (is_linebreak (ascii_of_nat 10)) with true. cbn iota.
    now rewrite append_nil_r.
  - cbn [all_chars] in Hs. apply andb_true_iff in Hs as [Hc Hs].
    apply negb_true_iff in Hc.
    cbn [String.append splitlines_from andb]. rewrite Hc.
    rewrite IH by assumption. now rewrite append_assoc.
Qed.

Lemma splitlines_prefixed (prefix : string) (lines : list string) :
  no_linebreak prefix = true -> clean_lines lines = true ->
  splitlines (prefixed_lines prefix lines) = map (String.append prefix) lines.
Proof.
  intros Hp. unfold splitlines.
  induction lines as [|l lines IH]; intros Hl; [reflexivity|].
  cbn [clean_lines forallb] in Hl. apply andb_true_iff in Hl as [Hl Hrest].
  cbn [prefixed_lines map].
  rewrite <- (append_assoc prefix l), splitlines_from_line.
  - now rewrite IH.
  - unfold no_linebreak in *. now rewrite all_chars_app, Hp, Hl.
Qed.

Lemma clean_lines_app (l1 l2 : list string) :
  clean_lines (l1 ++ l2) = (clean_lines l1 && clean_lines l2)%bool.
Proof. apply forallb_app. Qed.

Lemma notes_lines_clean (notes : option string) :
  clean_lines (notes_lines notes) = true.
Proof.
  unfold clean_lines. apply forallb_forall. intros line Hin%list_elem_of_In.
  unfold notes_lines in Hin.
  destruct notes as [[|c r]|]; try (now apply elem_of_nil in Hin).
  apply elem_of_app in Hin as [Hin|Hl%list_elem_of_singleton]; [|now subst].
  assert (Hcut : forall (s : string) (b : bool) (cur : string),
            no_linebreak cur = true ->
            line ∈ splitlines_from b cur s -> no_linebreak line = true).
  { unfold no_linebreak.
    induction s as [|x s IH]; intros b cur Hcur; cbn [splitlines_from].
    - destruct cur; [intros H; now apply elem_of_nil in H|].
      now intros ->%list_elem_of_singleton.
    - destruct (b && (nat_of_ascii x =? 10)%nat)%bool; [now apply IH|].
      destruct (is_linebreak x) eqn:Ex.
      + intros [->|H]%elem_of_cons; [assumption|].
        eapply IH; [|exact H]. reflexivity.
      + apply IH. rewrite all_chars_app, Hcur. cbn [all_chars].
        now rewrite Ex. }
  now apply (Hcut (String c r) false "").
Qed.

(** The lines of the text header. *)
Lemma text_header_lines self (now : datetime) σ metadata notes timestamp
    (include : bool) :
  no_linebreak (option_default "" (comments self)) = true ->
  clean_lines
    (metadata_lines σ
       (gather_metadata (include_global_metadata (text_base self)) σ metadata)
     ++ (if include
         then column_line (delimiter self) (text_column_headers self)
         else []))%list = true ->
  splitlines (text_create_header self now σ metadata notes timestamp include)
  = map (String.append (option_default "" (comments self)))
      (["Saved Data on "
        ++ strftime "%d.%m.%Y at %Hh%Mm%Ss" (option_default now timestamp); ""]
       ++ notes_lines notes
       ++ metadata_lines σ
            (gather_metadata (include_global_metadata (text_base self)) σ
               metadata)
       ++ ["Data:"; "====="]
       ++ (if include
           then column_line (delimiter self) (text_column_headers self)
           else [])).
Proof.
  intros Hp Hclean. rewrite clean_lines_app in Hclean.
  apply andb_true_iff in Hclean as [Hm Hc].
  rewrite text_header_prefixed. unfold descriptive_lines.
  rewrite <- !app_assoc. apply splitlines_prefixed; [assumption|].
  rewrite !clean_lines_app, notes_lines_clean, Hm, Hc.
  cbn [clean_lines forallb]. now rewrite title_no_linebreak.
Qed.

(** The lines of the sidecar header. *)
Lemma npy_header_lines (nself : NpyDataStorage) (now : datetime) σ metadata
    notes timestamp :
  clean_lines
    (metadata_lines σ
       (gather_metadata (include_global_metadata (npy_base nself)) σ metadata)
     ++ column_line ", " (npy_column_headers nself))%list = true ->
  splitlines (npy_create_header nself now σ metadata notes timestamp)
  = (["Saved Data on 0"; ""]
     ++ notes_lines notes
     ++ metadata_lines σ
          (gather_metadata (include_global_metadata (npy_base nself)) σ metadata)
     ++ ["Column headers:"; "==============="]
     ++ column_line ", " (npy_column_headers nself))%list.
Proof.
  intros Hclean. rewrite clean_lines_app in Hclean.
  apply andb_true_iff in Hclean as [Hm Hc].
  rewrite npy_header_prefixed, splitlines_prefixed.
  - apply map_id.
  - reflexivity.
  - rewrite !clean_lines_app, notes_lines_clean, Hm, Hc. reflexivity.
Qed.

(** X10: both headers are built from the same sequence of lines, each
    ended by a line feed: the title, an empty line, the lines of the notes
    and an empty line when there are notes, the metadata section and an
    empty line when there is metadata, the section title with its
    underline, and the column line; the text header puts the comment
    prefix before each of them, the empty ones included.  When the prefix,
    the metadata lines and the column line hold no line break, these are
    the lines of the header text as [splitlines] cuts it, so that every
    line of the text header begins with the comment prefix. *)
Theorem headers_are_prefixed_lines self (nself : NpyDataStorage)
    (now : datetime) σ metadata notes timestamp (include : bool) :
  let prefix := option_default "" (comments self) in
  let text_lines :=
    ([("Saved Data on "
       ++ strftime "%d.%m.%Y at %Hh%Mm%Ss" (option_default now timestamp))%string;
      ""]
     ++ notes_lines notes
     ++ metadata_lines σ
          (gather_metadata (include_global_metadata (text_base self)) σ metadata)
     ++ ["Data:"; "====="]
     ++ (if include
         then column_line (delimiter self) (text_column_headers self)
         else []))%list in
  let npy_lines :=
    (["Saved Data on 0"; ""]
     ++ notes_lines notes
     ++ metadata_lines σ
          (gather_metadata (include_global_metadata (npy_base nself)) σ metadata)
     ++ ["Column headers:"; "==============="]
     ++ column_line ", " (npy_column_headers nself))%list in
  text_create_header self now σ metadata notes timestamp include
    = prefixed_lines prefix text_lines
  /\ npy_create_header nself now σ metadata notes timestamp
     = prefixed_lines "" npy_lines
  /\ (no_linebreak prefix = true ->
      clean_lines
        (metadata_lines σ
           (gather_metadata (include_global_metadata (text_base self)) σ
              metadata)
         ++ (if include
             then column_line (delimiter self) (text_column_headers self)
             else []))%list = true ->
      splitlines (text_create_header self now σ metadata notes timestamp include)
      = map (String.append prefix) text_lines)
  /\ (clean_lines
        (metadata_lines σ
           (gather_metadata (include_global_metadata (npy_base nself)) σ
              metadata)
         ++ column_line ", " (npy_column_headers nself))%list = true ->
      splitlines (npy_create_header nself now σ metadata notes timestamp)
      = npy_lines).
Proof.
  intros prefix text_lines npy_lines.
  split; [|split; [apply npy_header_prefixed|split]].
  - rewrite text_header_prefixed. unfold descriptive_lines, text_lines.
    now rewrite <- !app_assoc.
  - intros Hp Hclean. now apply text_header_lines.
  - intros Hclean. now apply npy_header_lines.
Qed.

Lemma headers_are_prefixed_lines_witness :
  Py.splitlines
    (Header.text_create_header
       (Header.mk_text (Header.base_init None None true Header.PNG) false
          (Some (Header.ColTuple ["x"; "y"])) "%.18e" (Some "# ") "," None)
       (Py.mk_datetime 2021 1 30 11 30 59)
       (<[Registry.global_metadata :=
            Registry.ODict [(Registry.KStr "gain", Registry.VInt 5)]]>
          Registry.initial_state)
       None (Some ("first" ++ Py.LF ++ "second")) None true)
  = ["# Saved Data on 30.01.2021 at 11h30m59s"; "# "; "# first"; "# second";
     "# "; "# Metadata:"; "# ========="; "# gain: 5"; "# "; "# Data:";
     "# ====="; "# x,y"].
Proof.
  refine (proj1 (proj2 (proj2 (headers_are_prefixed_lines
            (Header.mk_text (Header.base_init None None true Header.PNG) false
               (Some (Header.ColTuple ["x"; "y"])) "%.18e" (Some "# ") "," None)
            (Header.npy_init None (Header.base_init None None true Header.PNG))
            (Py.mk_datetime 2021 1 30 11 30 59)
            (<[Registry.global_metadata :=
                 Registry.ODict [(Registry.KStr "gain", Registry.VInt 5)]]>
               Registry.initial_state)
            None (Some ("first" ++ Py.LF ++ "second")) None true))) _ _).
  - reflexivity.
  - vm_compute. reflexivity.
Defined.

Lemma splitlines_from_no_linebreak (s : string) : forall (b : bool) (cur line : string),
  no_linebreak cur = true ->
  line ∈ splitlines_from b cur s -> no_linebreak line = true.
Proof.
  unfold no_linebreak.
  induction s as [|c s IH]; intros b cur line Hcur; cbn [splitlines_from].
  - destruct cur; [intros H; now apply elem_of_nil in H|].
    now intros ->%list_elem_of_singleton.
  - destruct (b && (nat_of_ascii c =? 10)%nat)%bool; [now apply IH|].
    destruct (is_linebreak c) eqn:Ec.
    + intros [->|Hin]%elem_of_cons; [assumption|].
      eapply IH; [|exact Hin]. reflexivity.
    + apply IH. rewrite all_chars_app, Hcur. cbn [all_chars]. now rewrite Ec.
Qed.

(** X11: the notes are cut at every line boundary: no line that the notes
    contribute to a header holds a line break, so that each of them gets
    the comment prefix. *)
Theorem notes_lines_hold_no_linebreak (notes : option string) (line : string) :
  line ∈ notes_lines notes -> no_linebreak line = true.
Proof.
  unfold notes_lines.
  destruct notes as [[|c r]|]; try (intros H; now apply elem_of_nil in H).
  intros [Hin|Hl%list_elem_of_singleton]%elem_of_app; [|now subst].
  now apply (splitlines_from_no_linebreak (String c r) false "" line).
Qed.

Lemma notes_lines_hold_no_linebreak_witness :
  Shapes.no_linebreak "second line" = true.
Proof.
  apply (notes_lines_hold_no_linebreak
           (Some ("first line" ++ Py.LF ++ "second line"))).
  vm_compute. right. left.
Defined.

(** X12: the metadata of a header: what the caller gives wins over the
    global item with the same key; the global items come first, in their
    order, and only when the storage includes them. *)
Theorem header_metadata_merge (include : bool) σ (m : list (key * value))
    (k : key) :
  NoDup (dict_keys m) ->
  dict_get k (gather_metadata include σ (Some m)) =
    match dict_get k m with
    | Some v => Some v
    | None => if include then dict_get k (registry σ) else None
    end
  /\ dict_keys (gather_metadata include σ (Some m)) =
     (dict_keys (if include then registry σ else [])
      ++ filter (fun k => k ∉ dict_keys (if include then registry σ else []))
           (dict_keys m))%list
  /\ gather_metadata include σ None = (if include then registry σ else []).
Proof.
  intros Hnd. unfold gather_metadata. split; [|split; [|reflexivity]].
  - rewrite dict_get_update by assumption.
    destruct (dict_get k m); [reflexivity|]. now destruct include.
  - now apply dict_keys_update.
Qed.

Lemma header_metadata_merge_witness :
  dict_get (Registry.KStr "gain")
    (Header.gather_metadata true
       (<[Registry.global_metadata :=
            Registry.ODict [(Registry.KStr "gain", Registry.VInt 1)]]>
          Registry.initial_state)
       (Some [(Registry.KStr "gain", Registry.VInt 5)]))
  = Some (Registry.VInt 5).
Proof.
  exact (proj1 (header_metadata_merge true _
                  [(Registry.KStr "gain", Registry.VInt 5)]
                  (Registry.KStr "gain") ltac:(apply NoDup_singleton))).
Defined.

(** A text of prefixed lines is empty or ends with a line feed. *)
Lemma prefixed_lines_end (prefix : string) (lines : list string) :
  prefixed_lines prefix lines = ""
  \/ exists b, prefixed_lines prefix lines = b ++ LF.
Proof.
  destruct lines as [|l lines _] using rev_ind; [now left|]. right.
  exists (prefixed_lines prefix lines ++ prefix ++ l).
  rewrite prefixed_lines_app. cbn [prefixed_lines].
  now rewrite append_nil_r, !append_assoc.
Qed.

(** An element of the lines begins a line of the text, after the prefix. *)
Lemma prefixed_lines_elem (prefix line : string) (lines : list string) :
  line ∈ lines ->
  exists before after,
    prefixed_lines prefix lines = before ++ prefix ++ line ++ LF ++ after
    /\ (before = "" \/ exists b, before = b ++ LF).
Proof.
  intros (l1 & l2 & ->)%list_elem_of_split.
  exists (prefixed_lines prefix l1), (prefixed_lines prefix l2).
  split; [now rewrite prefixed_lines_app | apply prefixed_lines_end].
Qed.

Lemma metadata_line_elem σ (all : list (key * value)) (k : key) (v : value) :
  (k, v) ∈ all ->
  (str_key k ++ ": " ++ format_value σ v) ∈ metadata_lines σ all.
Proof.
  intros Hin. unfold metadata_lines.
  destruct all as [|kv all]; [now apply elem_of_nil in Hin|].
  apply elem_of_app. right. apply elem_of_app. left.
  apply (list_elem_of_fmap_2
           (fun kv => str_key kv.1 ++ ": " ++ format_value σ kv.2) _ (k, v)).
  exact Hin.
Qed.

(** X13: every item of the gathered metadata is in the header in the
    form [key: value]: it begins a line, right after the comment prefix in
    the text header, and a line feed follows it.  When the prefix, the
    metadata lines and the column line hold no line break, the prefix
    followed by [key: value] is one of the lines of the header text, a
    line of its own. *)
Theorem headers_show_every_item self (nself : NpyDataStorage)
    (now : datetime) σ metadata notes timestamp (include : bool) :
  (forall k v,
     (k, v) ∈ gather_metadata (include_global_metadata (text_base self)) σ
                metadata ->
     let prefix := option_default "" (comments self) in
     let item := str_key k ++ ": " ++ format_value σ v in
     let header :=
       text_create_header self now σ metadata notes timestamp include in
     (exists before after,
        header = before ++ prefix ++ item ++ LF ++ after
        /\ (before = "" \/ exists b, before = b ++ LF))
     /\ (no_linebreak prefix = true ->
         clean_lines
           (metadata_lines σ
              (gather_metadata (include_global_metadata (text_base self)) σ
                 metadata)
            ++ (if include
                then column_line (delimiter self) (text_column_headers self)
                else []))%list = true ->
         (prefix ++ item) ∈ splitlines header))
  /\ (forall k v,
       (k, v) ∈ gather_metadata (include_global_metadata (npy_base nself)) σ
                  metadata ->
       let item := str_key k ++ ": " ++ format_value σ v in
       let header := npy_create_header nself now σ metadata notes timestamp in
       (exists before after,
          header = before ++ item ++ LF ++ after
          /\ (before = "" \/ exists b, before = b ++ LF))
       /\ (clean_lines
             (metadata_lines σ
                (gather_metadata (include_global_metadata (npy_base nself)) σ
                   metadata)
              ++ column_line ", " (npy_column_headers nself))%list = true ->
           item ∈ splitlines header)).
Proof.
  split; [intros k v Hin prefix item header | intros k v Hin item header].
  - assert (Hitem : item ∈ metadata_lines σ
              (gather_metadata (include_global_metadata (text_base self)) σ
                 metadata)) by now apply metadata_line_elem.
    split.
    + unfold header. rewrite text_header_prefixed.
      apply prefixed_lines_elem. unfold descriptive_lines.
      apply elem_of_app. left.
      apply elem_of_app. right. apply elem_of_app. right.
      apply elem_of_app. now left.
    + intros Hp Hclean. unfold header.
      rewrite text_header_lines by assumption.
      apply (list_elem_of_fmap_2 (String.append prefix)).
      apply elem_of_app. right. apply elem_of_app. right.
      apply elem_of_app. now left.
  - assert (Hitem : item ∈ metadata_lines σ
              (gather_metadata (include_global_metadata (npy_base nself)) σ
                 metadata)) by now apply metadata_line_elem.
    split.
    + unfold header. rewrite npy_header_prefixed.
      destruct (prefixed_lines_elem "" item
                  (["Saved Data on 0"; ""] ++ notes_lines notes
                   ++ metadata_lines σ
                        (gather_metadata
                           (include_global_metadata (npy_base nself)) σ
                           metadata)
                   ++ ["Column headers:"; "==============="]
                   ++ column_line ", " (npy_column_headers nself))%list)
        as (before & after & E & Hstart).
      { apply elem_of_app. right. apply elem_of_app. right.
        apply elem_of_app. now left. }
      exists before, after. split; [exact E | exact Hstart].
    + intros Hclean. unfold header.
      rewrite npy_header_lines by assumption.
      apply elem_of_app. right. apply elem_of_app. right.
      apply elem_of_app. now left.
Qed.

Lemma headers_show_every_item_witness :
  "# gain: 5" ∈
  Py.splitlines
    (Header.text_create_header
       (Header.mk_text (Header.base_init None None true Header.PNG) false
          (Some (Header.ColTuple ["x"; "y"])) "%.18e" (Some "# ") "," None)
       (Py.mk_datetime 2021 1 30 11 30 59)
       (<[Registry.global_metadata :=
            Registry.ODict [(Registry.KStr "gain", Registry.VInt 5)]]>
          Registry.initial_state)
       None None None true).
Proof.
  refine (proj2 (proj1 (headers_show_every_item
            (Header.mk_text (Header.base_init None None true Header.PNG) false
               (Some (Header.ColTuple ["x"; "y"])) "%.18e" (Some "# ") "," None)
            (Header.npy_init None (Header.base_init None None true Header.PNG))
            (Py.mk_datetime 2021 1 30 11 30 59)
            (<[Registry.global_metadata :=
                 Registry.ODict [(Registry.KStr "gain", Registry.VInt 5)]]>
               Registry.initial_state)
            None None None true)
            (Registry.KStr "gain") (Registry.VInt 5) _) _ _).
  - vm_compute. left.
  - reflexivity.
  - vm_compute. reflexivity.
Defined.

Lemma format_value_insert_dict σ l d v :
  (forall xs, σ !! l <> Some (OList xs)) ->
  format_value (<[l := ODict d]> σ) v = format_value σ v.
Proof.
  intros Hl. destruct v as [| | | |l0]; simpl; try reflexivity.
  destruct (decide (l = l0)) as [->|Hne].
  - rewrite lookup_insert_eq.
    destruct (σ !! l0) as [[xs|d0]|] eqn:E; try reflexivity.
    now elim (Hl xs).
  - now rewrite lookup_insert_ne.
Qed.

Lemma metadata_lines_insert_dict σ l d all :
  (forall xs, σ !! l <> Some (OList xs)) ->
  metadata_lines (<[l := ODict d]> σ) all = metadata_lines σ all.
Proof.
  intros Hl. unfold metadata_lines. destruct all as [|kv all]; [reflexivity|].
  do 2 f_equal. apply map_ext. intros [k v]. cbn [fst snd].
  now rewrite format_value_insert_dict.
Qed.

(** X14: a storage that does not include the global metadata renders the
    same header whatever the registry holds. *)
Theorem header_without_global_metadata self (nself : NpyDataStorage)
    (now : datetime) σ (d0 : list (key * value)) metadata notes timestamp :
  wf σ = true ->
  (include_global_metadata (text_base self) = false ->
   create_header self now (<[global_metadata := ODict d0]> σ) metadata notes
     timestamp
   = create_header self now σ metadata notes timestamp)
  /\ (include_global_metadata (npy_base nself) = false ->
      npy_create_header nself now (<[global_metadata := ODict d0]> σ) metadata
        notes timestamp
      = npy_create_header nself now σ metadata notes timestamp).
Proof.
  intros Hwf. pose proof (wf_not_list σ Hwf) as Hnl. split; intros Hflag.
  - assert (E : forall ts include,
      text_create_header self now (<[global_metadata := ODict d0]> σ) metadata
        notes ts include
      = text_create_header self now σ metadata notes ts include).
    { intros ts include. rewrite !text_header_prefixed.
      unfold descriptive_lines, gather_metadata. rewrite Hflag.
      now rewrite metadata_lines_insert_dict. }
    unfold create_header, csv_create_header. now rewrite !E.
  - rewrite !npy_header_prefixed. unfold gather_metadata. rewrite Hflag.
    now rewrite metadata_lines_insert_dict.
Qed.

Lemma header_without_global_metadata_witness :
  Header.npy_create_header
    (Header.npy_init None (Header.base_init None None false Header.PNG))
    (Py.mk_datetime 2021 1 30 11 30 59)
    (<[Registry.global_metadata :=
         Registry.ODict [(Registry.KStr "gain", Registry.VInt 5)]]>
       Registry.initial_state) None None None
  = Header.npy_create_header
      (Header.npy_init None (Header.base_init None None false Header.PNG))
      (Py.mk_datetime 2021 1 30 11 30 59) Registry.initial_state None None None.
Proof.
  refine (proj2 (header_without_global_metadata
            (Header.mk_text (Header.base_init None None false Header.PNG) false
               None "%.18e" (Some "# ") "," None)
            (Header.npy_init None (Header.base_init None None false Header.PNG))
            (Py.mk_datetime 2021 1 30 11 30 59) Registry.initial_state
            [(Registry.KStr "gain", Registry.VInt 5)] None None None _) _).
  - vm_compute; reflexivity.
  - reflexivity.
Defined.

End HeaderMore.

(** ** Saving data, continued *)

Section StorageMore.
Import Py Registry Header Storage Shapes.
Implicit Types (E : env) (σ : gmap positive obj) (fs : gmap string string)
  (self : TextDataStorage).

(** The cases of [append_data_file]: no target or no file at the target,
    a file that cannot be opened, an array that numpy refuses or cannot
    format, and the rows appended. *)
Lemma append_cases E self fs data file_path :
  let out := append_data_file E self fs data file_path in
  (append_target self file_path = None /\ out = (Raise no_file_error, fs))
  \/ (exists p, append_target self file_path = Some p /\
      ((fs !! p = None /\ out = (Raise no_file_error, fs))
       \/ (exists old, fs !! p = Some old /\
           ((writable E p = false /\ out = (Raise (OSError p), fs))
            \/ (writable E p = true /\
                (((ndim (row_array data) =? 0)%nat
                  || (2 <? ndim (row_array data))%nat)%bool = true /\
                 out = (Raise not_1d_or_2d, fs)
                 \/ (((ndim (row_array data) =? 0)%nat
                      || (2 <? ndim (row_array data))%nat)%bool = false /\
                     ((exists e,
                         savetxt_rows E (row_array data) (delimiter self)
                           (number_format self) = Raise e
                         /\ out = (Raise e, fs))
                      \/ (exists rows,
                            savetxt_rows E (row_array data) (delimiter self)
                              (number_format self) = Return rows
                            /\ out = (Return (written_shape data),
                                      <[p := old ++ rows]> fs)))))))))).
Proof.
  intros out. unfold out, append_data_file. fold (append_target self file_path).
  destruct (append_target self file_path) as [p|]; [right; exists p|left; auto].
  split; [reflexivity|].
  destruct (fs !! p) as [old|]; [right; exists old|left; auto].
  split; [reflexivity|].
  destruct (writable E p); [right|left; auto]. split; [reflexivity|].
  unfold row_array, written_shape, np_savetxt.
  destruct (ndim data =? 1)%nat;
    match goal with
    | |- context [(?a || ?b)%bool] => destruct (a || b)%bool
    end; [left; auto | right | left; auto | right];
    (split; [reflexivity|]);
    match goal with
    | |- context [savetxt_rows E ?x ?y ?z] =>
        destruct (savetxt_rows E x y z) as [rows|e];
        [right; exists rows | left; exists e]; auto
    end.
Qed.

(** X15: a storage that comes out of its constructor has no current file:
    [append_data_file] without a path raises [FileNotFoundError], and so
    does a path at which there is no file; nothing is written. *)
Theorem append_without_a_file E self fs data column_headers number_format
    comments delimiter base :
  text_init column_headers number_format comments delimiter base = Return self
  \/ csv_init column_headers number_format comments base = Return self ->
  append_data_file E self fs data None = (Raise no_file_error, fs)
  /\ (forall p, fs !! p = None ->
       append_data_file E self fs data (Some p) = (Raise no_file_error, fs)).
Proof.
  intros Hinit.
  assert (Hcur : _current_data_file self = None).
  { destruct Hinit as [H|H].
    - unfold text_init in H. destruct delimiter; [discriminate|].
      now injection H as <-.
    - unfold csv_init, text_init in H. cbn in H. now injection H as <-. }
  split.
  - unfold append_data_file. now rewrite Hcur.
  - intros p Hp. unfold append_data_file. now rewrite Hp.
Qed.

Lemma append_without_a_file_witness :
  exists self,
    Header.csv_init None "%.18e" (Some "# ")
      (Header.base_init None (Some "csv") true Header.PNG) = Py.Return self
    /\ Storage.append_data_file (Storage.test_env []) self ∅
         (Storage.mk_ndarray [2]%nat [S754_zero false; S754_zero false]) None
       = (Py.Raise Shapes.no_file_error, ∅).
Proof.
  eexists. split; [reflexivity|].
  refine (proj1 (append_without_a_file (Storage.test_env []) _ ∅ _
                   None "%.18e" (Some "# ") ","
                   (Header.base_init None (Some "csv") true Header.PNG) _)).
  right. reflexivity.
Defined.

(** X16: [append_data_file] only ever adds to the end of its target: every
    other file is as before, and the old text of the target is the
    beginning of its new text.  When the target cannot be opened, or the
    array has no dimension or more than two, the call raises and no file
    has changed. *)
Theorem append_only_extends E self fs data file_path :
  let out := append_data_file E self fs data file_path in
  (forall q,
     out.2 !! q = fs !! q
     \/ (append_target self file_path = Some q
         /\ exists old rows,
              fs !! q = Some old /\ out.2 !! q = Some (old ++ rows)))
  /\ (forall p,
       append_target self file_path = Some p ->
       writable E p = false \/ (ndim data = 0 \/ 2 < ndim data)%nat ->
       exists e, out = (Raise e, fs)).
Proof.
  intros out.
  destruct (append_cases E self fs data file_path)
    as [[_ E0]|(p & Hp & [[_ E0]|(old & Hold &
          [[_ E0]|[Hw [[_ E0]|[Hdim [(e & _ & E0)|(rows & _ & E0)]]]]])])];
    fold out in E0; rewrite E0; cbn [fst snd];
    try (split; [intros q; now left | intros; eexists; reflexivity]).
  split.
  - intros q. destruct (decide (p = q)) as [<-|Hne].
    + right. split; [assumption|]. exists old, rows.
      split; [assumption | apply lookup_insert_eq].
    + left. now apply lookup_insert_ne.
  - intros p' Hp' [Hw'|Hbad]; exfalso.
    + rewrite Hp in Hp'. injection Hp' as <-. congruence.
    + apply orb_false_elim in Hdim as [H0 H2].
      apply Nat.eqb_neq in H0. apply Nat.ltb_ge in H2.
      unfold row_array in H0, H2.
      destruct (ndim data =? 1)%nat eqn:H1.
      * apply Nat.eqb_eq in H1. lia.
      * lia.
Qed.

(** [append_data_file] on a file that is there and can be opened, with an
    array of one or two dimensions that numpy can format. *)
Lemma append_succeeds E self fs data file_path p old rows :
  append_target self file_path = Some p -> fs !! p = Some old ->
  writable E p = true ->
  (ndim data = 1 \/ ndim data = 2)%nat ->
  savetxt_rows E (row_array data) (delimiter self) (number_format self)
    = Return rows ->
  append_data_file E self fs data file_path =
  (Return (written_shape data), <[p := old ++ rows]> fs).
Proof.
  intros Hp Hold Hw Hdim Hrows.
  assert (Hok : ((ndim (row_array data) =? 0)%nat
                 || (2 <? ndim (row_array data))%nat)%bool = false).
  { unfold row_array, ndim, expand_dims0. unfold ndim in Hdim.
    destruct Hdim as [H|H]; rewrite H; cbn; rewrite ?H; reflexivity. }
  destruct (append_cases E self fs data file_path)
    as [[H0 _]|(p' & Hp' & [[H0 _]|(old' & Hold' &
          [[H0 _]|[_ [[H0 _]|[_ [(e & H0 & _)|(rows' & H0 & E0)]]]]])])];
    congruence.
Qed.

(** X17: two calls of [append_data_file] on a file that is there and can
    be opened, with arrays of one or two dimensions that numpy writes,
    leave the old text of the file followed by the rows of the first array
    and then the rows of the second one; each call returns (1, N) for an
    array of one dimension and length N, and the shape of an array of two
    dimensions; every other file is as before. *)
Theorem appends_accumulate E self fs file_path p old data1 data2 rows1 rows2 :
  append_target self file_path = Some p ->
  fs !! p = Some old -> writable E p = true ->
  (ndim data1 = 1 \/ ndim data1 = 2)%nat ->
  (ndim data2 = 1 \/ ndim data2 = 2)%nat ->
  savetxt_rows E (row_array data1) (delimiter self) (number_format self)
    = Return rows1 ->
  savetxt_rows E (row_array data2) (delimiter self) (number_format self)
    = Return rows2 ->
  let first := append_data_file E self fs data1 file_path in
  let second := append_data_file E self first.2 data2 file_path in
  first.1 = Return (written_shape data1)
  /\ second.1 = Return (written_shape data2)
  /\ second.2 !! p = Some ((old ++ rows1) ++ rows2)
  /\ (forall q, q <> p -> second.2 !! q = fs !! q).
Proof.
  intros Hp Hold Hw Hd1 Hd2 Hr1 Hr2 first second.
  assert (E1 : first = (Return (written_shape data1),
                        <[p := old ++ rows1]> fs))
    by now apply append_succeeds.
  assert (E2 : second = (Return (written_shape data2),
                         <[p := (old ++ rows1) ++ rows2]> first.2)).
  { apply append_succeeds; try assumption.
    rewrite E1. apply lookup_insert_eq. }
  rewrite E2, E1. cbn [fst snd].
  split; [reflexivity|]. split; [reflexivity|].
  split; [apply lookup_insert_eq|].
  intros q Hq. now rewrite !lookup_insert_ne by congruence.
Qed.

Lemma appends_accumulate_witness :
  (Storage.append_data_file (Storage.test_env [])
     (Header.mk_text (Header.base_init None (Some "dat") false Header.PNG)
        false None "%.18e" (Some "# ") "," None)
     (Storage.append_data_file (Storage.test_env [])
        (Header.mk_text (Header.base_init None (Some "dat") false Header.PNG)
           false None "%.18e" (Some "# ") "," None)
        {[ "/data/run1.dat" := "# x,y" ++ Py.LF ]}
        (Storage.mk_ndarray [2]%nat [S754_zero false; S754_zero false])
        (Some "/data/run1.dat")).2
     (Storage.mk_ndarray [3; 2]%nat (replicate 6 (S754_zero false)))
     (Some "/data/run1.dat")).1
  = Py.Return [3; 2]%nat.
Proof.
  refine (proj1 (proj2 (appends_accumulate (Storage.test_env [])
            (Header.mk_text (Header.base_init None (Some "dat") false Header.PNG)
               false None "%.18e" (Some "# ") "," None)
            {[ "/data/run1.dat" := "# x,y" ++ Py.LF ]}
            (Some "/data/run1.dat") "/data/run1.dat" ("# x,y" ++ Py.LF)
            (Storage.mk_ndarray [2]%nat [S754_zero false; S754_zero false])
            (Storage.mk_ndarray [3; 2]%nat (replicate 6 (S754_zero false)))
            "" "" eq_refl _ eq_refl _ _ eq_refl eq_refl))).
  - apply lookup_singleton_eq.
  - left. reflexivity.
  - right. reflexivity.
Defined.

(** X18: when [save_data] fails before its first write, nothing has
    changed: an error of [create_file_path] is passed on, a data file that
    cannot be opened gives the [OSError] of that [open], and in both cases
    the files are as before and the text storage still remembers the file
    it had. *)
Theorem failure_before_the_first_write E self (nself : NpyDataStorage) σ fs
    data metadata notes filename nametag timestamp :
  let ts := option_default (now E) timestamp in
  (forall e,
     create_file_path E (text_base self) ts filename nametag = Raise e ->
     text_save_data E self σ fs data metadata filename nametag timestamp notes
     = (Raise e, self, fs))
  /\ (forall p,
       create_file_path E (text_base self) ts filename nametag = Return p ->
       writable E p = false ->
       text_save_data E self σ fs data metadata filename nametag timestamp
         notes = (Raise (OSError p), self, fs))
  /\ (forall e,
       create_file_path E (npy_base nself) ts filename nametag = Raise e ->
       npy_save_data E nself σ fs data metadata notes filename nametag
         timestamp = (Raise e, fs))
  /\ (forall p,
       create_file_path E (npy_base nself) ts filename nametag = Return p ->
       writable E p = false ->
       npy_save_data E nself σ fs data metadata notes filename nametag
         timestamp = (Raise (OSError p), fs)).
Proof.
  intros ts. repeat split.
  - intros e He. unfold text_save_data, new_data_file. fold ts. now rewrite He.
  - intros p Hp Hw. unfold text_save_data, new_data_file, write_file. fold ts.
    now rewrite Hp, Hw.
  - intros e He. unfold npy_save_data. fold ts. now rewrite He.
  - intros p Hp Hw. unfold npy_save_data, write_file. fold ts.
    now rewrite Hp, Hw.
Qed.

(** X19: on the classes as they are, without [create_file_path], a text or
    CSV storage never creates a file: [new_data_file] and [save_data]
    raise [AttributeError] whatever they are given, write nothing and
    leave the storage as it was, so that a storage without a current file
    stays without one and [append_data_file] without a path still raises
    [FileNotFoundError] after them. *)
Theorem text_storage_never_creates_a_file E self σ fs data metadata notes
    filename nametag timestamp :
  lacks_create_file_path E ->
  _current_data_file self = None ->
  let created :=
    new_data_file E self σ fs metadata notes filename nametag timestamp in
  let saved :=
    text_save_data E self σ fs data metadata filename nametag timestamp notes in
  created = (Raise (AttributeError "create_file_path"), self, fs)
  /\ saved = (Raise (AttributeError "create_file_path"), self, fs)
  /\ append_data_file E created.1.2 created.2 data None
     = (Raise no_file_error, fs)
  /\ append_data_file E saved.1.2 saved.2 data None
     = (Raise no_file_error, fs).
Proof.
  intros Hmissing Hcur created saved.
  assert (Ec : created = (Raise (AttributeError "create_file_path"), self, fs)).
  { unfold created, new_data_file.
    now rewrite (Hmissing (text_base self) (option_default (now E) timestamp)
                   filename nametag). }
  assert (Es : saved = (Raise (AttributeError "create_file_path"), self, fs)).
  { unfold saved, text_save_data. fold created. now rewrite Ec. }
  assert (Ea : append_data_file E self fs data None
               = (Raise no_file_error, fs)).
  { unfold append_data_file. now rewrite Hcur. }
  rewrite Ec, Es. cbn [fst snd]. auto.
Qed.

Lemma text_storage_never_creates_a_file_witness :
  Storage.text_save_data (Storage.test_env [])
    (Header.mk_text (Header.base_init (Some "/data") (Some "dat") true Header.PNG)
       false (Some (Header.ColTuple ["x"; "y"])) "%.18e" (Some "# ") "," None)
    Registry.initial_state ∅
    (Storage.mk_ndarray [2; 2]%nat (replicate 4 (S754_zero false)))
    None None (Some "run1") None None
  = (Py.Raise (Py.AttributeError "create_file_path"),
     Header.mk_text (Header.base_init (Some "/data") (Some "dat") true Header.PNG)
       false (Some (Header.ColTuple ["x"; "y"])) "%.18e" (Some "# ") "," None,
     ∅).
Proof.
  refine (proj1 (proj2 (text_storage_never_creates_a_file (Storage.test_env [])
            (Header.mk_text
               (Header.base_init (Some "/data") (Some "dat") true Header.PNG)
               false (Some (Header.ColTuple ["x"; "y"])) "%.18e" (Some "# ")
               "," None)
            Registry.initial_state ∅
            (Storage.mk_ndarray [2; 2]%nat (replicate 4 (S754_zero false)))
            None None None (Some "run1") None _ eq_refl))).
  intros base timestamp filename nametag. reflexivity.
Defined.

End StorageMore.
